(** * hands-nn: the convolutional LSTM cell and the TensorFlow model harness

    A shallow embedding of [convolutional_lstm.py] and [tfmodel.py].

    Tensors are records of a static shape, an element-type tag and the
    row-major list of their elements; element-wise operations broadcast,
    and refuse operands of different element types.  The scalar type and
    its arithmetic ([+], [*], [sigmoid], [tanh]), the convolutions of the
    framework and its variable store are parameters of the development:
    the source delegates them to TensorFlow.  So are, for the harness, the
    network of a subclass, the optimizer, the saver, the summary writer,
    Python's random generator and numpy's [r_].  What the development
    assumes of them is stated as hypotheses where it is used.

    Python exceptions are values of [exn]; a function that can raise
    returns a [result].  The harness works on a state of list objects,
    generator, session, summary records and files, threaded through a
    monad that keeps the state when a call raises. *)

From stdpp Require Import gmap strings list fin_maps.
From Stdlib Require Import ZArith Lia.

(** ** Exceptions and fallible computations *)

Inductive exn : Type :=
| ValueError (msg : string)
| TypeError (msg : string)
| IndexError (msg : string)
| UnboundLocalError (msg : string)
| NotFoundError (msg : string).

Inductive result (A : Type) : Type :=
| Ok (a : A)
| Raise (e : exn).

Arguments Ok {A} a.
Arguments Raise {A} e.

Definition rbind {A B : Type} (c : result A) (k : A -> result B) : result B :=
  match c with
  | Ok a => k a
  | Raise e => Raise e
  end.

Notation "x <~ c ;; k" := (rbind c (fun x => k))
  (at level 100, c at next level, right associativity, only parsing).

(** ** Python sequence helpers *)

(** [l[-1]] *)
Definition py_last {A : Type} (l : list A) : result A :=
  match last l with
  | Some x => Ok x
  | None => Raise (IndexError "list index out of range")
  end.

(** [l[:-1]] *)
Definition py_init {A : Type} (l : list A) : list A :=
  take (length l - 1) l.

(** ** Shapes and flat data *)

(** Number of elements of a tensor of shape [s]. *)
Definition numel (s : list nat) : nat := foldr Nat.mul 1 s.

(** [chunk n k d]: the first [k] consecutive blocks of [n] elements of [d]. *)
Fixpoint chunk {A : Type} (n k : nat) (d : list A) : list (list A) :=
  match k with
  | 0 => []
  | S k' => take n d :: chunk n k' (drop n d)
  end.

(** Shapes are aligned to the right: the shorter one gets leading ones. *)
Definition pad_shape (r : nat) (s : list nat) : list nat :=
  replicate (r - length s) 1 ++ s.

(** The shape two aligned shapes broadcast to, if any. *)
Fixpoint bshape (s1 s2 : list nat) : option (list nat) :=
  match s1, s2 with
  | [], [] => Some []
  | n1 :: r1, n2 :: r2 =>
      match bshape r1 r2 with
      | Some r =>
          if n1 =? n2 then Some (n1 :: r)
          else if n1 =? 1 then Some (n2 :: r)
          else if n2 =? 1 then Some (n1 :: r)
          else None
      | None => None
      end
  | _, _ => None
  end.

Inductive DType : Type := float16 | float32 | float64.

#[global] Instance DType_eq_dec : EqDecision DType.
Proof. solve_decision. Defined.

Inductive ConvOp : Type := conv1d | conv2d | conv3d.

Inductive Strides : Type :=
| StrideInt (n : nat)
| StrideList (l : list nat).

Inductive Padding : Type := SAME | VALID.

Module convolutional_lstm.

Section Framework.

(** The scalars of the framework and their arithmetic. *)
Variable E : Type.
Variable zero : E.
Variables add mul : E -> E -> E.
Variables sigmoid tanh : E -> E.

Record Tensor : Type := mkTensor {
  shape : list nat;
  dtype : DType;
  data : list E
}.

Definition rank (t : Tensor) : nat := length (shape t).

(** The data of a tensor fills its shape. *)
Definition wf (t : Tensor) : Prop := length (data t) = numel (shape t).

(** Number of channels: the extent of the last axis. *)
Definition channels (t : Tensor) : option nat := last (shape t).

(** *** Element-wise operations with broadcasting *)

(** Data of the broadcast of [f] over two aligned shapes. *)
Fixpoint bc (f : E -> E -> E) (s1 s2 : list nat) (d1 d2 : list E) : list E :=
  match s1, s2 with
  | n1 :: r1, n2 :: r2 =>
      if n1 =? n2 then
        concat (zip_with (bc f r1 r2)
                         (chunk (numel r1) n1 d1) (chunk (numel r2) n2 d2))
      else if n1 =? 1 then
        concat (map (bc f r1 r2 d1) (chunk (numel r2) n2 d2))
      else
        concat (map (fun c1 => bc f r1 r2 c1 d2) (chunk (numel r1) n1 d1))
  | _, _ => zip_with f d1 d2
  end.

(** The operands of [+] and [*] have one element type: the framework
    refuses two tensors of different types before it looks at their
    shapes. *)
Definition binop (f : E -> E -> E) (a b : Tensor) : result Tensor :=
  if negb (bool_decide (dtype a = dtype b)) then
    Raise (TypeError "Input 'y' has a type that does not match the type of argument 'x'")
  else
    let r := Nat.max (rank a) (rank b) in
    let s1 := pad_shape r (shape a) in
    let s2 := pad_shape r (shape b) in
    match bshape s1 s2 with
    | Some s => Ok (mkTensor s (dtype a) (bc f s1 s2 (data a) (data b)))
    | None => Raise (ValueError "Dimensions must be equal")
    end.

Definition unop (f : E -> E) (a : Tensor) : Tensor :=
  mkTensor (shape a) (dtype a) (map f (data a)).

(** [a + b] and [a * b] on tensors. *)
Definition tensor_add : Tensor -> Tensor -> result Tensor := binop add.
Definition tensor_mul : Tensor -> Tensor -> result Tensor := binop mul.

(** [a + c] for a Python float [c]. *)
Definition tensor_add_scalar (a : Tensor) (c : E) : Tensor :=
  unop (fun x => add x c) a.

Definition math_ops_sigmoid : Tensor -> Tensor := unop sigmoid.
Definition math_ops_tanh : Tensor -> Tensor := unop tanh.

(** *** array_ops *)

Definition array_ops_zeros (shp : list nat) (dt : DType) : Tensor :=
  mkTensor shp dt (replicate (numel shp) zero).

(** [array_ops.split(value, num_or_size_splits=num, axis=axis)]: [num]
    equal parts along [axis]. *)
Definition split_part (s : list nat) (axis d q : nat) (d0 : list E) (k : nat)
  : list E :=
  let outer := numel (take axis s) in
  let inner := numel (drop (S axis) s) in
  concat (map (fun c => take (q * inner) (drop (k * q * inner) c))
              (chunk (d * inner) outer d0)).

Definition array_ops_split (value : Tensor) (num : nat) (axis : nat)
  : result (list Tensor) :=
  match shape value !! axis with
  | None => Raise (ValueError "split: axis out of range")
  | Some d =>
      if (num =? 0) || negb (d mod num =? 0) then
        Raise (ValueError "split: dimension not divisible")
      else
        let q := d / num in
        Ok (map (fun k =>
                   mkTensor (<[axis := q]> (shape value)) (dtype value)
                            (split_part (shape value) axis d q (data value) k))
                (seq 0 num))
  end.

(** [array_ops.concat(values, axis)]; a negative axis counts from the
    end.  The values have one element type: a list of mixed types is
    refused before the shapes are compared. *)
Definition norm_axis (r : nat) (axis : Z) : option nat :=
  if (0 <=? axis)%Z then
    (if (axis <? Z.of_nat r)%Z then Some (Z.to_nat axis) else None)
  else
    (if (- Z.of_nat r <=? axis)%Z then Some (Z.to_nat (Z.of_nat r + axis))
     else None).

(** All shapes agree with [s] outside [axis]. *)
Definition same_off_axis (axis : nat) (s : list nat) (t : Tensor) : bool :=
  bool_decide (take axis (shape t) = take axis s) &&
  bool_decide (drop (S axis) (shape t) = drop (S axis) s) &&
  bool_decide (axis < length (shape t)).

Definition axis_dim (axis : nat) (t : Tensor) : nat :=
  default 0 (shape t !! axis).

Definition concat_data (axis : nat) (s : list nat) (values : list Tensor)
  : list E :=
  let outer := numel (take axis s) in
  let inner := numel (drop (S axis) s) in
  concat (map (fun o =>
                 concat (map (fun t =>
                                default [] (chunk (axis_dim axis t * inner)
                                                  outer (data t) !! o))
                             values))
              (seq 0 outer)).

Definition array_ops_concat (values : list Tensor) (axis : Z)
  : result Tensor :=
  match values with
  | [] => Raise (ValueError "concat: no values")
  | t0 :: _ =>
      if negb (forallb (fun t => bool_decide (dtype t = dtype t0)) values) then
        Raise (TypeError "Tensors in list passed to 'values' have types that don't all match")
      else
        match norm_axis (rank t0) axis with
        | None => Raise (ValueError "concat: axis out of range")
        | Some ax =>
            if forallb (same_off_axis ax (shape t0)) values then
              Ok (mkTensor
                    (<[ax := sum_list (map (axis_dim ax) values)]> (shape t0))
                    (dtype t0)
                    (concat_data ax (shape t0) values))
            else Raise (ValueError "concat: shapes do not match")
        end
  end.

(** *** The framework's convolutions and variable store *)

(** [conv_op(input, kernel, strides, padding)] for the three
    convolutions of [nn_ops]. *)
Variable conv_op : ConvOp -> Tensor -> Tensor -> Strides -> Padding -> result Tensor.

(** [vs.get_variable(name, shape, dtype)] in the enclosing variable
    scope. *)
Variable get_variable : string -> list nat -> DType -> Tensor.

(** Rank of the input the convolution works on. *)
Definition conv_rank (op : ConvOp) : nat :=
  match op with conv1d => 3 | conv2d => 4 | conv3d => 5 end.

(** *** ConvLSTMCell *)

Record ConvLSTMCell : Type := mkCell {
  _conv_ndims : nat;
  _input_shape : list nat;
  _output_channels : nat;
  _kernel_shape : list nat;
  _use_bias : bool;
  _forget_bias : E;
  _skip_connection : bool;
  _total_output_channels : nat
}.

Definition __init__ (input_shape : list nat) (output_channels : nat)
    (kernel_shape : list nat) (use_bias skip_connection : bool)
    (forget_bias : E) : result ConvLSTMCell :=
  let conv_ndims := length kernel_shape in
  total <~ (if skip_connection
            then (c <~ py_last input_shape ;; Ok (output_channels + c))
            else Ok output_channels) ;;
  Ok (mkCell conv_ndims input_shape output_channels kernel_shape use_bias
             forget_bias skip_connection total).

Definition output_size (self : ConvLSTMCell) : list nat :=
  py_init (_input_shape self) ++ [_total_output_channels self].

Definition state_size (self : ConvLSTMCell) : list nat :=
  py_init (_input_shape self) ++ [_output_channels self].

Definition zero_state (self : ConvLSTMCell) (batch_size : nat) (dt : DType)
  : Tensor * Tensor :=
  let shp := [batch_size] ++ py_init (_input_shape self)
                          ++ [_total_output_channels self] in
  let zero_cell := array_ops_zeros shp dt in
  let zero_hidden := array_ops_zeros shp dt in
  (zero_cell, zero_hidden).

(** *** _conv

    The kernel and the bias are variables of the enclosing scope; their
    initial values ([bias_start]) are the store's matter. *)

(** The loop over the argument shapes: rank checks, and the sum of the
    channel counts. *)
Fixpoint check_shapes (shapes0 : list nat) (shapes : list (list nat))
    (total_arg_size_depth : nat) : result nat :=
  match shapes with
  | [] => Ok total_arg_size_depth
  | shp :: rest =>
      if negb (bool_decide (length shp ∈ [3; 4; 5])) then
        Raise (ValueError "Conv Linear expects 3D, 4D or 5D arguments")
      else if negb (length shp =? length shapes0) then
        Raise (ValueError "Conv Linear expects all args to be of same Dimensiton")
      else
        c <~ py_last shp ;;
        check_shapes shapes0 rest (total_arg_size_depth + c)
  end.

Definition _conv (args : list Tensor) (filter_size : list nat)
    (num_features : nat) (bias : bool) : result Tensor :=
  let shapes := map shape args in
  shapes0 <~ match shapes with
             | s0 :: _ => Ok s0
             | [] => Raise (IndexError "list index out of range")
             end ;;
  let shape_length := length shapes0 in
  total_arg_size_depth <~ check_shapes shapes0 shapes 0 ;;
  dt <~ match args with
        | a :: _ => Ok (dtype a)
        | [] => Raise (IndexError "list index out of range")
        end ;;
  cs <~ (if shape_length =? 3 then Ok (conv1d, StrideInt 1)
         else if shape_length =? 4
              then Ok (conv2d, StrideList (replicate shape_length 1))
         else if shape_length =? 5
              then Ok (conv3d, StrideList (replicate shape_length 1))
         else Raise (UnboundLocalError "conv_op")) ;;
  let '(op, strides) := cs in
  let kernel := get_variable "kernel"%string
                  (filter_size ++ [total_arg_size_depth; num_features]) dt in
  res <~ (match args with
          | [a] => conv_op op a kernel strides SAME
          | _ => x <~ array_ops_concat args (Z.of_nat shape_length - 1) ;;
                 conv_op op x kernel strides SAME
          end) ;;
  if negb bias then Ok res
  else
    let bias_term := get_variable "biases"%string [num_features] dt in
    tensor_add res bias_term.

(** *** The step *)

Definition call (self : ConvLSTMCell) (inputs : Tensor)
    (state : Tensor * Tensor) : result (Tensor * (Tensor * Tensor)) :=
  let '(cell, hidden) := state in
  new_hidden <~ _conv [inputs; hidden] (_kernel_shape self)
                      (4 * _output_channels self) (_use_bias self) ;;
  gates <~ array_ops_split new_hidden 4 (_conv_ndims self + 1) ;;
  match gates with
  | [input_gate; new_input; forget_gate; output_gate] =>
      new_cell <~ tensor_mul
                    (math_ops_sigmoid
                       (tensor_add_scalar forget_gate (_forget_bias self)))
                    cell ;;
      upd <~ tensor_mul (math_ops_sigmoid input_gate)
                        (math_ops_tanh new_input) ;;
      new_cell <~ tensor_add new_cell upd ;;
      output <~ tensor_mul (math_ops_tanh new_cell)
                           (math_ops_sigmoid output_gate) ;;
      output <~ (if _skip_connection self
                 then array_ops_concat [output; inputs] (-1)
                 else Ok output) ;;
      Ok (output, (new_cell, output))
  | _ => Raise (ValueError "not enough values to unpack")
  end.


(** ** Facts about blocks of flat data *)

Section ChunkFacts.

Context {A : Type}.
Implicit Types (d : list A) (l : list (list A)).

Lemma length_chunk n k d : length (chunk n k d) = k.
Proof. revert d; induction k as [|k IH]; intros d; simpl; [done|]. by rewrite IH. Qed.

Lemma chunk_Forall_length n k d :
  length d = k * n -> Forall (fun c => length c = n) (chunk n k d).
Proof.
  revert d; induction k as [|k IH]; intros d Hd; simpl; [constructor|].
  constructor.
  - rewrite length_take. lia.
  - apply IH. rewrite length_drop. lia.
Qed.

Lemma concat_chunk n k d : length d = k * n -> concat (chunk n k d) = d.
Proof.
  revert d; induction k as [|k IH]; intros d Hd; simpl.
  - destruct d; [done|simpl in Hd; lia].
  - rewrite IH; [apply take_drop|]. rewrite length_drop. lia.
Qed.

Lemma chunk_lookup n k d p :
  p < k -> chunk n k d !! p = Some (take n (drop (p * n) d)).
Proof.
  revert d p; induction k as [|k IH]; intros d p Hp; [lia|].
  destruct p as [|p]; simpl; [done|].
  rewrite IH by lia. by rewrite drop_drop.
Qed.

Lemma length_concat_const l m :
  Forall (fun c => length c = m) l -> length (concat l) = length l * m.
Proof.
  induction 1 as [|c l Hc _ IH]; simpl; [done|].
  rewrite length_app, IH, Hc. lia.
Qed.

Lemma concat_lookup_const l m p j :
  Forall (fun c => length c = m) l -> j < m ->
  concat l !! (p * m + j) = l !! p ≫= (fun c => c !! j).
Proof.
  intros Hl Hj. revert p; induction Hl as [|c l Hc _ IH]; intros p; simpl.
  - done.
  - destruct p as [|p]; simpl.
    + rewrite lookup_app_l by lia. done.
    + rewrite lookup_app_r by lia.
      replace (m + p * m + j - length c) with (p * m + j) by lia.
      apply IH.
Qed.
End ChunkFacts.

(** ** Broadcasting *)

Lemma zip_with_take_drop (f : E -> E -> E) m (d1 d2 : list E) :
  zip_with f d1 d2
  = zip_with f (take m d1) (take m d2) ++ zip_with f (drop m d1) (drop m d2).
Proof.
  revert d1 d2; induction m as [|m IH]; intros [|x d1] [|y d2]; simpl;
    try done.
  - by destruct (drop m d1).
  - by rewrite <- IH.
Qed.

Lemma bc_chunks_same (g : list E -> list E -> list E) f m n d1 d2 :
  (forall c1 c2, length c1 = m -> length c2 = m -> g c1 c2 = zip_with f c1 c2) ->
  length d1 = n * m -> length d2 = n * m ->
  concat (zip_with g (chunk m n d1) (chunk m n d2)) = zip_with f d1 d2.
Proof.
  intros Hg. revert d1 d2; induction n as [|n IH]; intros d1 d2 H1 H2; simpl.
  - destruct d1; [done|simpl in H1; lia].
  - rewrite Hg by (rewrite length_take; lia).
    rewrite IH by (rewrite length_drop; lia).
    symmetry. apply zip_with_take_drop.
Qed.

(** On equal shapes broadcasting is the element-wise operation. *)
Lemma bc_same f s d1 d2 :
  length d1 = numel s -> length d2 = numel s ->
  bc f s s d1 d2 = zip_with f d1 d2.
Proof.
  revert d1 d2; induction s as [|n s IH]; intros d1 d2 H1 H2; simpl; [done|].
  rewrite Nat.eqb_refl. apply bc_chunks_same; [|done..].
  intros c1 c2 Hc1 Hc2. by apply IH.
Qed.

Lemma bshape_same s : bshape s s = Some s.
Proof.
  induction s as [|n s IH]; simpl; [done|]. by rewrite IH, Nat.eqb_refl.
Qed.

Lemma pad_shape_id s : pad_shape (length s) s = s.
Proof. unfold pad_shape. by rewrite Nat.sub_diag. Qed.

Lemma binop_same_shape f a b :
  dtype a = dtype b -> shape a = shape b -> wf a -> wf b ->
  binop f a b
  = Ok (mkTensor (shape a) (dtype a) (zip_with f (data a) (data b))).
Proof.
  unfold binop, rank, wf. intros Hd Hs Ha Hb.
  rewrite bool_decide_eq_true_2 by done. cbn [negb].
  rewrite <- Hs, Nat.max_id.
  rewrite pad_shape_id, bshape_same, bc_same; congruence.
Qed.

(** Operands of different element types are refused, whatever their
    shapes. *)
Lemma binop_dtype_mismatch f a b :
  dtype a <> dtype b -> exists msg, binop f a b = Raise (TypeError msg).
Proof.
  intros Hd. unfold binop. rewrite bool_decide_eq_false_2 by done.
  cbn [negb]. by eexists.
Qed.

Lemma length_concat_map_const {B : Type} (g : B -> list E) (l : list B) m :
  Forall (fun c => length (g c) = m) l ->
  length (concat (map g l)) = length l * m.
Proof.
  intros Hl. rewrite (length_concat_const _ m), length_map; [done|].
  by apply Forall_fmap.
Qed.

(** The data of a broadcast fills the broadcast shape. *)
Lemma length_bc f s1 : forall s2 s d1 d2,
  bshape s1 s2 = Some s ->
  length d1 = numel s1 -> length d2 = numel s2 ->
  length (bc f s1 s2 d1 d2) = numel s.
Proof.
  induction s1 as [|n1 r1 IH]; intros [|n2 r2] s d1 d2 Hb H1 H2;
    simpl in Hb; try done.
  - injection Hb as <-. simpl in *. rewrite length_zip_with. lia.
  - destruct (bshape r1 r2) as [r|] eqn:Hr; [|done].
    simpl in H1, H2. simpl bc.
    assert (Hz : forall n d1 d2, length d1 = n * numel r1 ->
               length d2 = n * numel r2 ->
               length (concat (zip_with (bc f r1 r2) (chunk (numel r1) n d1)
                                        (chunk (numel r2) n d2)))
               = n * numel r).
    { clear -IH Hr. induction n as [|n IHn]; intros d1 d2 H1 H2; simpl; [done|].
      rewrite length_app, IHn by (rewrite length_drop; lia).
      rewrite (IH r2 r) by (done || rewrite length_take; lia). done. }
    destruct (n1 =? n2) eqn:E12.
    + apply Nat.eqb_eq in E12; subst n2. injection Hb as <-. simpl.
      by apply Hz.
    + destruct (n1 =? 1) eqn:E1.
      * apply Nat.eqb_eq in E1; subst n1. injection Hb as <-. simpl.
        rewrite (length_concat_map_const _ _ (numel r)), length_chunk; [done|].
        eapply Forall_impl; [apply (chunk_Forall_length (numel r2)); lia|].
        simpl. intros c Hc. apply IH; [done|lia|done].
      * destruct (n2 =? 1) eqn:E2; [|done].
        apply Nat.eqb_eq in E2; subst n2. injection Hb as <-. simpl.
        rewrite (length_concat_map_const _ _ (numel r)), length_chunk; [done|].
        eapply Forall_impl; [apply (chunk_Forall_length (numel r1)); lia|].
        simpl. intros c Hc. apply IH; [done|done|lia].
Qed.

(** A vector over the last axis broadcasts onto any tensor with that
    many channels. *)
Lemma bshape_last_axis s c :
  bshape (s ++ [c]) (replicate (length s) 1 ++ [c]) = Some (s ++ [c]).
Proof.
  induction s as [|n s IH]; simpl.
  - by rewrite Nat.eqb_refl.
  - rewrite IH. destruct (n =? 1) eqn:E1; [done|].
    by apply Nat.eqb_neq in E1.
Qed.

Lemma numel_app s1 s2 : numel (s1 ++ s2) = numel s1 * numel s2.
Proof. induction s1 as [|n s1 IH]; simpl; [lia|]. rewrite IH. lia. Qed.

Lemma numel_replicate_1 n : numel (replicate n 1) = 1.
Proof. induction n as [|n IH]; simpl; lia. Qed.

Lemma binop_last_axis f a b s c :
  dtype a = dtype b ->
  shape a = s ++ [c] -> shape b = [c] -> wf a -> wf b ->
  exists t, binop f a b = Ok t /\ shape t = shape a /\ dtype t = dtype a /\ wf t.
Proof.
  unfold binop, rank, wf. intros Hd Ha Hb Hwa Hwb.
  rewrite bool_decide_eq_true_2 by done. cbn [negb]. rewrite Ha, Hb.
  rewrite length_app. simpl length.
  replace (Nat.max (length s + 1) 1) with (length (s ++ [c]))
    by (rewrite length_app; simpl; lia).
  rewrite pad_shape_id. unfold pad_shape. rewrite length_app. simpl length.
  replace (length s + 1 - 1) with (length s) by lia.
  rewrite bshape_last_axis. eexists; split; [done|]. simpl.
  split; [done|]. split; [done|].
  unfold wf. simpl. apply length_bc.
  - apply bshape_last_axis.
  - congruence.
  - rewrite numel_app, numel_replicate_1, Hwb, Hb. simpl. lia.
Qed.

(** ** Splitting and concatenating along the channel axis *)

Lemma split_part_last s d q d0 k :
  split_part (s ++ [d]) (length s) d q d0 k
  = concat (map (fun c => take q (drop (k * q) c)) (chunk d (numel s) d0)).
Proof.
  unfold split_part. rewrite take_app_length.
  rewrite drop_ge by (rewrite length_app; simpl; lia). simpl.
  by rewrite !Nat.mul_1_r.
Qed.

Lemma split_part_last_Forall d q n (d0 : list E) k :
  length d0 = n * d -> k * q + q <= d ->
  Forall (fun c => length c = q)
         (map (fun c => take q (drop (k * q) c)) (chunk d n d0)).
Proof.
  intros Hd Hk. apply Forall_fmap.
  eapply Forall_impl; [by apply chunk_Forall_length|].
  simpl. intros c Hc. rewrite length_take, length_drop. lia.
Qed.

Lemma length_split_part_last s d q d0 k :
  length d0 = numel s * d -> k * q + q <= d ->
  length (split_part (s ++ [d]) (length s) d q d0 k) = numel s * q.
Proof.
  intros Hd Hk. rewrite split_part_last.
  rewrite (length_concat_const _ q) by by apply split_part_last_Forall.
  by rewrite length_map, length_chunk.
Qed.

(** Element [j] of part [k] at position [p] is element [k * q + j] of
    the value at that position. *)
Lemma split_part_last_lookup s d q d0 k p j :
  length d0 = numel s * d -> k * q + q <= d -> p < numel s -> j < q ->
  split_part (s ++ [d]) (length s) d q d0 k !! (p * q + j)
  = d0 !! (p * d + k * q + j).
Proof.
  intros Hd Hk Hp Hj. rewrite split_part_last.
  rewrite (concat_lookup_const _ q) by (by apply split_part_last_Forall || done).
  rewrite list_lookup_fmap, chunk_lookup by done. simpl.
  rewrite lookup_take_lt by done. rewrite lookup_drop.
  rewrite lookup_take_lt by lia. rewrite lookup_drop. f_equal. lia.
Qed.

(** The [k]-th of the four gates of a convolution result [g] whose
    leading axes are [pre] and which has [4 * q] channels. *)
Definition gate (g : Tensor) (pre : list nat) (q k : nat) : Tensor :=
  mkTensor (pre ++ [q]) (dtype g)
           (split_part (shape g) (length pre) (4 * q) q (data g) k).

Lemma split_last_axis g pre q :
  shape g = pre ++ [4 * q] ->
  array_ops_split g 4 (length pre)
  = Ok [gate g pre q 0; gate g pre q 1; gate g pre q 2; gate g pre q 3].
Proof.
  intros Hg. unfold array_ops_split. rewrite Hg.
  rewrite list_lookup_middle by done.
  replace (4 * q mod 4) with 0 by (rewrite Nat.mul_comm; by rewrite Nat.Div0.mod_mul).
  replace (4 * q / 4) with q by (rewrite Nat.mul_comm; by rewrite Nat.div_mul).
  simpl orb. cbv iota. unfold gate. rewrite Hg. simpl map.
  rewrite insert_app_r_alt by done. rewrite Nat.sub_diag. done.
Qed.

Lemma gate_wf g pre q k :
  shape g = pre ++ [4 * q] -> wf g -> k < 4 -> wf (gate g pre q k).
Proof.
  unfold wf, gate. intros Hg Hw Hk. simpl. rewrite Hg in *.
  rewrite numel_app in *. simpl in *.
  rewrite length_split_part_last; [lia|lia|nia].
Qed.

Lemma gate_lookup g pre q k p j :
  shape g = pre ++ [4 * q] -> wf g -> k < 4 -> p < numel pre -> j < q ->
  data (gate g pre q k) !! (p * q + j) = data g !! (p * (4 * q) + k * q + j).
Proof.
  unfold wf, gate. intros Hg Hw Hk Hp Hj. simpl. rewrite Hg in *.
  rewrite numel_app in Hw. simpl in Hw.
  apply split_part_last_lookup; [lia|nia|done|done].
Qed.

Lemma axis_dim_last pre c t :
  shape t = pre ++ [c] -> axis_dim (length pre) t = c.
Proof. unfold axis_dim. intros ->. by rewrite list_lookup_middle. Qed.

Lemma same_off_axis_last pre c c0 t :
  shape t = pre ++ [c] -> same_off_axis (length pre) (pre ++ [c0]) t = true.
Proof.
  intros Ht. unfold same_off_axis. rewrite Ht, !take_app_length.
  rewrite !drop_ge by (rewrite length_app; simpl; lia).
  rewrite !bool_decide_eq_true_2; [done| |done..].
  rewrite length_app. simpl. lia.
Qed.

(** Tensors of one element type [dt] that share the leading axes [pre],
    with channel counts [cs]. *)
Definition channelwise (pre : list nat) (dt : DType) (values : list Tensor)
    (cs : list nat) : Prop :=
  Forall2 (fun t c => shape t = pre ++ [c] /\ dtype t = dt /\ wf t) values cs.

Lemma channelwise_dtype pre dt values cs :
  channelwise pre dt values cs ->
  forallb (fun t => bool_decide (dtype t = dt)) values = true.
Proof.
  induction 1 as [|t c values cs (_ & Hd & _) _ IH]; simpl; [done|].
  by rewrite IH, bool_decide_eq_true_2.
Qed.

Lemma channelwise_sum pre dt values cs :
  channelwise pre dt values cs ->
  sum_list (map (axis_dim (length pre)) values) = sum_list cs.
Proof.
  induction 1 as [|t c values cs (Ht & _ & _) _ IH]; simpl; [done|].
  by rewrite IH, (axis_dim_last pre c).
Qed.

Lemma channelwise_forallb pre dt values cs c0 :
  channelwise pre dt values cs ->
  forallb (same_off_axis (length pre) (pre ++ [c0])) values = true.
Proof.
  induction 1 as [|t c values cs (Ht & _ & _) _ IH]; simpl; [done|].
  by rewrite IH, (same_off_axis_last pre c).
Qed.

Lemma channelwise_row_length pre dt values cs o :
  channelwise pre dt values cs -> o < numel pre ->
  length (concat (map (fun t => default [] (chunk (axis_dim (length pre) t * 1)
                                                (numel pre) (data t) !! o))
                      values))
  = sum_list cs.
Proof.
  intros H Ho. induction H as [|t c values cs (Ht & _ & Hw) _ IH]; simpl; [done|].
  rewrite length_app, IH. f_equal.
  rewrite (axis_dim_last pre c) by done. rewrite Nat.mul_1_r.
  rewrite chunk_lookup by done. simpl.
  unfold wf in Hw. rewrite Ht, numel_app in Hw. simpl in Hw.
  rewrite length_take, length_drop. nia.
Qed.

Lemma norm_axis_last r : 0 < r -> norm_axis r (Z.of_nat r - 1) = Some (r - 1).
Proof.
  intros Hr. unfold norm_axis.
  destruct (Z.leb_spec 0 (Z.of_nat r - 1)); [|lia].
  destruct (Z.ltb_spec (Z.of_nat r - 1) (Z.of_nat r)); [|lia].
  f_equal. lia.
Qed.

Lemma norm_axis_minus_1 r : 0 < r -> norm_axis r (-1) = Some (r - 1).
Proof.
  intros Hr. unfold norm_axis. simpl.
  destruct (Z.leb_spec (- Z.of_nat r) (-1)); [|lia].
  f_equal. lia.
Qed.

Lemma concat_last_axis pre dt t0 values c0 cs axis :
  channelwise pre dt (t0 :: values) (c0 :: cs) ->
  norm_axis (length pre + 1) axis = Some (length pre) ->
  exists t, array_ops_concat (t0 :: values) axis = Ok t /\
            shape t = pre ++ [sum_list (c0 :: cs)] /\
            dtype t = dt /\ wf t.
Proof.
  intros Hc Hax. unfold array_ops_concat, rank.
  pose proof Hc as Hc'. apply Forall2_cons_1 in Hc' as [(Ht0 & Hd0 & Hw0) _].
  rewrite Hd0, (channelwise_dtype pre dt (t0 :: values) (c0 :: cs) Hc).
  cbn [negb].
  rewrite Ht0, length_app. simpl length. rewrite Hax.
  rewrite (channelwise_forallb pre dt (t0 :: values) (c0 :: cs) c0 Hc).
  rewrite (channelwise_sum pre dt (t0 :: values) (c0 :: cs) Hc).
  rewrite insert_app_r_alt by done. rewrite Nat.sub_diag.
  eexists; split; [reflexivity|]. cbn [shape dtype data insert list_insert].
  split; [done|]. split; [done|].
  unfold wf, concat_data. cbn [shape dtype data].
  rewrite take_app_length.
  rewrite drop_ge by (rewrite length_app; simpl; lia).
  change (numel []) with 1.
  rewrite (length_concat_map_const _ _ (sum_list (c0 :: cs))).
  - rewrite length_seq, numel_app. simpl. lia.
  - apply Forall_forall. intros o [_ Ho]%elem_of_seq.
    by apply (channelwise_row_length pre dt (t0 :: values) (c0 :: cs)).
Qed.

(** ** Construction and the zero state *)

Lemma init_fields input_shape oc ks ub skip fb self :
  __init__ input_shape oc ks ub skip fb = Ok self ->
  _conv_ndims self = length ks /\ _input_shape self = input_shape /\
  _output_channels self = oc /\ _kernel_shape self = ks /\
  _use_bias self = ub /\ _forget_bias self = fb /\
  _skip_connection self = skip /\
  _total_output_channels self
  = (if skip then oc + default 0 (last input_shape) else oc) /\
  (skip = true -> is_Some (last input_shape)).
Proof.
  unfold __init__, py_last. destruct skip; simpl.
  - destruct (last input_shape) as [c|]; simpl; [|done].
    intros [= <-]. simpl. repeat split; eauto.
  - intros [= <-]. simpl. repeat split; done.
Qed.

(** C1: the constructor has no check on the length of [kernel_shape]:
    an empty kernel shape and one of length four both yield a cell,
    whose [_conv_ndims] is that length. *)
Theorem init_no_kernel_shape_check (fb : E) :
  __init__ [8; 8; 3] 4 [] true false fb
  = Ok (mkCell 0 [8; 8; 3] 4 [] true fb false 4) /\
  __init__ [8; 8; 3] 4 [3; 3; 3; 3] true false fb
  = Ok (mkCell 4 [8; 8; 3] 4 [3; 3; 3; 3] true fb false 4).
Proof. split; reflexivity. Qed.

(** Without skip connection construction never raises, whatever the
    kernel shape. *)
Lemma init_total_without_skip input_shape oc ks ub fb :
  __init__ input_shape oc ks ub false fb
  = Ok (mkCell (length ks) input_shape oc ks ub fb false oc).
Proof. reflexivity. Qed.

(** The channel count of the output of a cell. *)
Definition effective_output_channels (input_shape : list nat) (oc : nat)
    (skip : bool) : nat :=
  if skip then oc + default 0 (last input_shape) else oc.

(** C6: both tensors of the zero state are filled with zeros and have
    the shape [batch :: spatial ++ [effective_output_channels]]. *)
Theorem zero_state_zero_valued input_shape oc ks ub skip fb self b dt :
  __init__ input_shape oc ks ub skip fb = Ok self ->
  let shp := b :: py_init input_shape
               ++ [effective_output_channels input_shape oc skip] in
  let st := zero_state self b dt in
  shape (fst st) = shp /\ shape (snd st) = shp /\
  dtype (fst st) = dt /\ dtype (snd st) = dt /\
  data (fst st) = replicate (numel shp) zero /\
  data (snd st) = replicate (numel shp) zero /\
  Forall (fun x => x = zero) (data (fst st)) /\
  Forall (fun x => x = zero) (data (snd st)) /\
  wf (fst st) /\ wf (snd st).
Proof.
  intros Hinit.
  destruct (init_fields _ _ _ _ _ _ _ Hinit)
    as (_ & Hin & _ & _ & _ & _ & _ & Htot & _).
  unfold zero_state, array_ops_zeros, effective_output_channels, wf. simpl.
  rewrite Hin, Htot.
  repeat split; try done; try apply length_replicate;
    apply Forall_forall; intros x Hx; by apply elem_of_replicate in Hx as [-> _].
Qed.

(** ** The convolution of the step *)

Definition unit_strides (st : Strides) : Prop :=
  match st with
  | StrideInt n => n = 1
  | StrideList l => Forall (fun n => n = 1) l
  end.

Lemma elem_of_345 n : n ∈ [3; 4; 5] <-> n = 3 \/ n = 4 \/ n = 5.
Proof. rewrite !elem_of_cons, elem_of_nil. tauto. Qed.

Lemma check_shapes_error shapes0 shapes : forall acc,
  Exists (fun shp => length shp ∉ [3; 4; 5] \/ length shp <> length shapes0)
         shapes ->
  exists msg, check_shapes shapes0 shapes acc = Raise (ValueError msg).
Proof.
  induction shapes as [|shp rest IH]; intros acc Hex.
  - by apply Exists_nil in Hex.
  - simpl. case_bool_decide as H345; simpl; [|eauto].
    destruct (Nat.eqb_spec (length shp) (length shapes0)) as [Heq|Hne];
      simpl; [|eauto].
    apply Exists_cons in Hex as [[Hbad|Hbad]|Hex]; [done|done|].
    unfold py_last. destruct (last shp) as [c|] eqn:Hl; simpl; [by apply IH|].
    apply last_None in Hl. subst shp. apply elem_of_345 in H345. simpl in H345. lia.
Qed.

Lemma check_shapes_ok shapes0 shapes : forall acc,
  Forall (fun shp => length shp ∈ [3; 4; 5] /\ length shp = length shapes0)
         shapes ->
  check_shapes shapes0 shapes acc
  = Ok (acc + sum_list (map (fun shp => default 0 (last shp)) shapes)).
Proof.
  induction shapes as [|shp rest IH]; intros acc Hall; simpl.
  - f_equal. lia.
  - apply Forall_cons in Hall as [[H345 Heq] Hall].
    rewrite bool_decide_eq_true_2 by done. simpl.
    rewrite Heq, Nat.eqb_refl. simpl.
    unfold py_last. destruct (last shp) as [c|] eqn:Hl; simpl.
    + rewrite IH by done. f_equal. lia.
    + apply last_None in Hl. subst shp. apply elem_of_345 in H345. simpl in H345. lia.
Qed.

(** The convolution a rank selects. *)
Definition conv_of_rank (r : nat) : option (ConvOp * Strides) :=
  if r =? 3 then Some (conv1d, StrideInt 1)
  else if r =? 4 then Some (conv2d, StrideList (replicate r 1))
  else if r =? 5 then Some (conv3d, StrideList (replicate r 1))
  else None.

Lemma conv_of_rank_345 r :
  r ∈ [3; 4; 5] ->
  exists op st, conv_of_rank r = Some (op, st) /\ conv_rank op = r /\
                unit_strides st.
Proof.
  intros Hr. unfold conv_of_rank.
  apply elem_of_345 in Hr as [-> | [-> | ->]]; simpl;
    eexists _, _; (split; [reflexivity|]); split; try done;
    repeat constructor.
Qed.

Lemma _conv_error a0 args fs nf bias :
  (Exists (fun t => rank t ∉ [3; 4; 5]) (a0 :: args) \/
   Exists (fun t => rank t <> rank a0) (a0 :: args)) ->
  exists msg, _conv (a0 :: args) fs nf bias = Raise (ValueError msg).
Proof.
  intros Hbad. unfold _conv. cbn [map rbind].
  destruct (check_shapes_error (shape a0) (shape a0 :: map shape args) 0)
    as [msg Hmsg].
  { destruct Hbad as [Hbad|Hbad];
      change (shape a0 :: map shape args) with (map shape (a0 :: args));
      apply Exists_fmap; eapply Exists_impl; try apply Hbad;
      unfold rank; simpl; tauto. }
  rewrite Hmsg. simpl. eauto.
Qed.

Lemma _conv_checked a0 args fs nf bias :
  Forall (fun t => rank t ∈ [3; 4; 5]) (a0 :: args) ->
  Forall (fun t => rank t = rank a0) (a0 :: args) ->
  exists op strides,
    conv_rank op = rank a0 /\ unit_strides strides /\
    let depth := sum_list (map (fun t => default 0 (channels t)) (a0 :: args)) in
    let kernel := get_variable "kernel"%string (fs ++ [depth; nf]) (dtype a0) in
    _conv (a0 :: args) fs nf bias
    = (x <~ (match a0 :: args with
             | [a] => Ok a
             | _ => array_ops_concat (a0 :: args) (Z.of_nat (rank a0) - 1)
             end) ;;
       res <~ conv_op op x kernel strides SAME ;;
       if bias
       then tensor_add res (get_variable "biases"%string [nf] (dtype a0))
       else Ok res).
Proof.
  intros H345 Hsame. unfold _conv. cbn [map rbind].
  rewrite (check_shapes_ok (shape a0) (shape a0 :: map shape args)); cycle 1.
  { change (shape a0 :: map shape args) with (map shape (a0 :: args)).
    apply Forall_fmap. apply Forall_forall. intros t Ht.
    rewrite Forall_forall in H345. rewrite Forall_forall in Hsame.
    unfold rank in *. simpl. split; [by apply H345|by apply Hsame]. }
  cbn [rbind].
  assert (Hr : rank a0 ∈ [3; 4; 5]) by by apply Forall_cons in H345 as [? _].
  destruct (conv_of_rank_345 _ Hr) as (op & st & Hop & Hrk & Hst).
  exists op, st. split; [done|]. split; [done|].
  unfold conv_of_rank, rank in Hop. cbv zeta.
  change (shape a0 :: map shape args) with (map shape (a0 :: args)).
  rewrite <- list_fmap_compose. unfold compose, channels. cbn [plus].
  assert (Hcs : (if length (shape a0) =? 3 then Ok (conv1d, StrideInt 1)
                 else if length (shape a0) =? 4
                      then Ok (conv2d, StrideList (replicate (length (shape a0)) 1))
                 else if length (shape a0) =? 5
                      then Ok (conv3d, StrideList (replicate (length (shape a0)) 1))
                 else Raise (UnboundLocalError "conv_op")) = Ok (op, st)).
  { destruct (length (shape a0) =? 3); [congruence|].
    destruct (length (shape a0) =? 4); [congruence|].
    destruct (length (shape a0) =? 5); [congruence|done]. }
  rewrite Hcs. cbn [rbind]. unfold rank.
  destruct args as [|a1 args]; cbn [rbind].
  + destruct (conv_op op a0 _ st SAME); cbn [rbind]; [|done].
    by destruct bias.
  + destruct (array_ops_concat _ _); cbn [rbind]; [|done].
    destruct (conv_op op _ _ st SAME); cbn [rbind]; [|done].
    by destruct bias.
Qed.

(** C7: on a non-empty argument list, [_conv] raises [ValueError] when
    some argument has a rank outside 3, 4, 5 or a rank other than that of
    the first argument; otherwise it is one convolution with unit strides
    and [SAME] padding, applied to the single argument or to the
    concatenation of the arguments along the last (channel) axis. *)
Theorem _conv_rank_check_then_single_conv args fs nf bias a0 :
  head args = Some a0 ->
  ((Exists (fun t => rank t ∉ [3; 4; 5]) args \/
    Exists (fun t => rank t <> rank a0) args) ->
   exists msg, _conv args fs nf bias = Raise (ValueError msg)) /\
  (Forall (fun t => rank t ∈ [3; 4; 5]) args ->
   Forall (fun t => rank t = rank a0) args ->
   exists op strides,
     conv_rank op = rank a0 /\ unit_strides strides /\
     let depth := sum_list (map (fun t => default 0 (channels t)) args) in
     let kernel := get_variable "kernel"%string (fs ++ [depth; nf]) (dtype a0) in
     _conv args fs nf bias
     = (x <~ (match args with
              | [a] => Ok a
              | _ => array_ops_concat args (Z.of_nat (rank a0) - 1)
              end) ;;
        res <~ conv_op op x kernel strides SAME ;;
        if bias
        then tensor_add res (get_variable "biases"%string [nf] (dtype a0))
        else Ok res)).
Proof.
  intros Hhd. destruct args as [|a args]; [done|]. injection Hhd as ->.
  split; [apply _conv_error|apply _conv_checked].
Qed.

(** ** The contract of the framework

    [get_variable] returns a variable of the requested shape, and a
    convolution with unit strides and [SAME] padding keeps the leading
    axes of its input and produces as many channels as its kernel has
    output features. *)

Hypothesis get_variable_shape : forall name shp dt,
  shape (get_variable name shp dt) = shp /\
  dtype (get_variable name shp dt) = dt /\ wf (get_variable name shp dt).

Hypothesis conv_op_same : forall op x kernel strides filt cin cout,
  wf x -> rank x = conv_rank op -> unit_strides strides ->
  length filt + 2 = rank x ->
  shape kernel = filt ++ [cin; cout] -> dtype kernel = dtype x -> wf kernel ->
  channels x = Some cin ->
  exists y, conv_op op x kernel strides SAME = Ok y /\
            shape y = py_init (shape x) ++ [cout] /\
            dtype y = dtype x /\ wf y.

Lemma py_init_snoc {A : Type} (l : list A) x : py_init (l ++ [x]) = l.
Proof.
  unfold py_init. rewrite length_app. simpl.
  replace (length l + 1 - 1) with (length l) by lia. apply take_app_length.
Qed.

Lemma channelwise_rank pre dt values cs :
  channelwise pre dt values cs ->
  Forall (fun t => rank t = length pre + 1) values.
Proof.
  induction 1 as [|t c values cs (Ht & _ & _) _ IH]; constructor; [|done].
  unfold rank. rewrite Ht, length_app. done.
Qed.

Lemma channelwise_depth pre dt values cs :
  channelwise pre dt values cs ->
  sum_list (map (fun t => default 0 (channels t)) values) = sum_list cs.
Proof.
  induction 1 as [|t c values cs (Ht & _ & _) _ IH]; simpl; [done|].
  unfold channels at 1. by rewrite Ht, last_snoc, IH.
Qed.

(** On arguments that share their leading axes, [_conv] returns a
    tensor with these axes and [nf] channels. *)
Lemma _conv_same_shape pre dt a0 args c0 cs fs nf bias :
  channelwise pre dt (a0 :: args) (c0 :: cs) ->
  length pre + 1 ∈ [3; 4; 5] -> length fs + 2 = length pre + 1 ->
  exists g, _conv (a0 :: args) fs nf bias = Ok g /\
            shape g = pre ++ [nf] /\ dtype g = dt /\ wf g.
Proof.
  intros Hc H345 Hfs.
  pose proof (channelwise_rank _ _ _ _ Hc) as Hrk.
  pose proof Hc as Hc'.
  apply Forall2_cons_1 in Hc' as [(Ha0 & Hd0 & Hw0) Hrest].
  assert (Hr0 : rank a0 = length pre + 1)
    by (unfold rank; rewrite Ha0, length_app; done).
  destruct (_conv_checked a0 args fs nf bias) as (op & st & Hop & Hst & Heq).
  { eapply Forall_impl; [exact Hrk|]. simpl. intros t ->. done. }
  { eapply Forall_impl; [exact Hrk|]. simpl. intros t ->. done. }
  cbv zeta in Heq. rewrite Heq. clear Heq.
  rewrite (channelwise_depth pre dt _ (c0 :: cs)) by done.
  set (kernel := get_variable "kernel" _ _).
  assert (Hx : exists x, match a0 :: args with
                         | [a] => Ok a
                         | _ => array_ops_concat (a0 :: args)
                                                 (Z.of_nat (rank a0) - 1)
                         end = Ok x /\
                         shape x = pre ++ [sum_list (c0 :: cs)] /\
                         dtype x = dt /\ wf x).
  { destruct args as [|a1 args].
    - apply Forall2_nil_inv_l in Hrest. subst cs. exists a0.
      simpl. rewrite Nat.add_0_r. done.
    - apply (concat_last_axis pre dt a0 (a1 :: args) c0 cs); [done|].
      rewrite Hr0. rewrite norm_axis_last by lia. f_equal. lia. }
  destruct Hx as (x & -> & Hsx & Hdx & Hwx). cbn [rbind].
  destruct (get_variable_shape "kernel"%string
              (fs ++ [sum_list (c0 :: cs); nf]) (dtype a0))
    as (Hks & Hkd & Hkw).
  destruct (conv_op_same op x kernel st fs (sum_list (c0 :: cs)) nf)
    as (y & -> & Hsy & Hdy & Hwy); try done.
  { rewrite Hop, Hr0. unfold rank. by rewrite Hsx, length_app. }
  { unfold rank. rewrite Hsx, length_app. simpl. lia. }
  { unfold kernel. congruence. }
  { unfold channels. by rewrite Hsx, last_snoc. }
  cbn [rbind]. rewrite Hsx, py_init_snoc in Hsy.
  destruct bias.
  - destruct (get_variable_shape "biases"%string [nf] (dtype a0))
      as (Hbs & Hbd & Hbw).
    destruct (binop_last_axis add y (get_variable "biases"%string [nf] (dtype a0))
                              pre nf) as (t & Ht & Hst' & Hdt & Hwt);
      try done; [congruence|].
    exists t. unfold tensor_add. rewrite Ht. repeat split; congruence.
  - exists y. repeat split; congruence.
Qed.

(** ** The step *)

Lemma binop_same_shape_wf f a b s :
  dtype a = dtype b -> shape a = s -> shape b = s -> wf a -> wf b ->
  binop f a b = Ok (mkTensor s (dtype a) (zip_with f (data a) (data b))) /\
  wf (mkTensor s (dtype a) (zip_with f (data a) (data b))).
Proof.
  intros Hd Ha Hb Hwa Hwb. rewrite binop_same_shape by congruence.
  rewrite Ha. split; [done|]. unfold wf in *. simpl.
  rewrite length_zip_with, Hwa, Hwb, Ha, Hb. lia.
Qed.

Lemma unop_wf f a : wf a -> wf (unop f a).
Proof. unfold wf, unop. simpl. by rewrite length_map. Qed.

(** The state of a step: the cell, the input and the previous state
    agree on the batch size, the spatial axes and the element type. *)
Record step_inputs (self : ConvLSTMCell) (b : nat) (spatial : list nat)
    (ci ch : nat) (inputs cell hidden : Tensor) : Prop := {
  si_input_shape : _input_shape self = spatial ++ [ci];
  si_ndims : _conv_ndims self = length (_kernel_shape self);
  si_kernel : length (_kernel_shape self) = length spatial;
  si_dims : length spatial ∈ [1; 2; 3];
  si_inputs : shape inputs = b :: spatial ++ [ci];
  si_inputs_wf : wf inputs;
  si_hidden : shape hidden = b :: spatial ++ [ch];
  si_hidden_dtype : dtype hidden = dtype inputs;
  si_hidden_wf : wf hidden;
  si_cell : shape cell = b :: spatial ++ [_output_channels self];
  si_cell_dtype : dtype cell = dtype inputs;
  si_cell_wf : wf cell
}.

(** The new cell memory and the gated output, computed from the four
    gates of the convolution result [g]. *)
Definition new_cell_of (self : ConvLSTMCell) (pre : list nat) (g cell : Tensor)
  : Tensor :=
  let oc := _output_channels self in
  mkTensor (pre ++ [oc]) (dtype g)
    (zip_with add
       (zip_with mul
          (map sigmoid (map (fun x => add x (_forget_bias self))
                            (data (gate g pre oc 2))))
          (data cell))
       (zip_with mul (map sigmoid (data (gate g pre oc 0)))
                     (map tanh (data (gate g pre oc 1))))).

Definition gated_output_of (self : ConvLSTMCell) (pre : list nat)
    (g cell : Tensor) : Tensor :=
  let oc := _output_channels self in
  mkTensor (pre ++ [oc]) (dtype g)
    (zip_with mul (map tanh (data (new_cell_of self pre g cell)))
                  (map sigmoid (data (gate g pre oc 3)))).

Ltac solve_unop_wf :=
  unfold math_ops_sigmoid, math_ops_tanh, tensor_add_scalar;
  repeat apply unop_wf; assumption.

Lemma call_spec self b spatial ci ch inputs cell hidden :
  step_inputs self b spatial ci ch inputs cell hidden ->
  let pre := b :: spatial in
  let oc := _output_channels self in
  exists g out,
    _conv [inputs; hidden] (_kernel_shape self) (4 * oc) (_use_bias self)
    = Ok g /\
    shape g = pre ++ [4 * oc] /\ wf g /\
    wf (new_cell_of self pre g cell) /\
    wf (gated_output_of self pre g cell) /\
    (if _skip_connection self
     then array_ops_concat [gated_output_of self pre g cell; inputs] (-1)
          = Ok out /\ shape out = pre ++ [oc + ci] /\ wf out
     else out = gated_output_of self pre g cell) /\
    call self inputs (cell, hidden)
    = Ok (out, (new_cell_of self pre g cell, out)) /\
    dtype g = dtype inputs /\ dtype out = dtype inputs.
Proof.
  intros [Hin Hnd Hks Hdims Hsi Hwi Hsh Hdh Hwh Hsc Hdc Hwc] pre oc.
  assert (Hlen : length pre = length spatial + 1) by (simpl; lia).
  destruct (_conv_same_shape pre (dtype inputs) inputs [hidden] ci [ch]
              (_kernel_shape self) (4 * oc) (_use_bias self))
    as (g & Hg & Hsg & Hdg & Hwg).
  { repeat constructor; done. }
  { rewrite Hlen. apply elem_of_345.
    rewrite !elem_of_cons, elem_of_nil in Hdims. lia. }
  { lia. }
  assert (Hw0 : wf (gate g pre oc 0)) by (apply gate_wf; [done|done|lia]).
  assert (Hw1 : wf (gate g pre oc 1)) by (apply gate_wf; [done|done|lia]).
  assert (Hw2 : wf (gate g pre oc 2)) by (apply gate_wf; [done|done|lia]).
  assert (Hw3 : wf (gate g pre oc 3)) by (apply gate_wf; [done|done|lia]).
  assert (Hsh' : forall k, shape (gate g pre oc k) = pre ++ [oc]) by done.
  (* the intermediate tensors of the step *)
  pose (fgb := math_ops_sigmoid
                (tensor_add_scalar (gate g pre oc 2) (_forget_bias self))).
  assert (Hwf : wf fgb) by (unfold fgb; solve_unop_wf).
  assert (Hdf : dtype fgb = dtype cell).
  { unfold fgb, math_ops_sigmoid, tensor_add_scalar, unop, gate.
    cbn [dtype]. congruence. }
  destruct (binop_same_shape_wf mul fgb cell (pre ++ [oc]))
    as [Hm1 Hwm1]; try done.
  set (m1 := mkTensor _ _ _) in Hm1, Hwm1.
  destruct (binop_same_shape_wf mul (math_ops_sigmoid (gate g pre oc 0))
              (math_ops_tanh (gate g pre oc 1)) (pre ++ [oc]))
    as [Hm2 Hwm2]; try done.
  { solve_unop_wf. }
  { solve_unop_wf. }
  set (m2 := mkTensor _ _ _) in Hm2, Hwm2.
  destruct (binop_same_shape_wf add m1 m2 (pre ++ [oc]))
    as [Hnc Hwnc]; try done.
  change (mkTensor _ _ _) with (new_cell_of self pre g cell) in Hnc, Hwnc.
  set (nc := new_cell_of self pre g cell) in *.
  destruct (binop_same_shape_wf mul (math_ops_tanh nc)
              (math_ops_sigmoid (gate g pre oc 3)) (pre ++ [oc]))
    as [Hgo Hwgo]; try done.
  { solve_unop_wf. }
  { solve_unop_wf. }
  change (mkTensor _ _ _) with (gated_output_of self pre g cell) in Hgo, Hwgo.
  set (go := gated_output_of self pre g cell) in *.
  assert (Hout : exists out,
             (if _skip_connection self
              then array_ops_concat [go; inputs] (-1) = Ok out /\
                   shape out = pre ++ [oc + ci] /\ wf out
              else out = go) /\
             (if _skip_connection self
              then array_ops_concat [go; inputs] (-1)
              else Ok go) = Ok out /\
             dtype out = dtype inputs).
  { destruct (_skip_connection self).
    - destruct (concat_last_axis pre (dtype inputs) go [inputs] oc [ci] (-1))
        as (out & Hc & Hso & Hdo & Hwo).
      { repeat constructor; done. }
      { rewrite norm_axis_minus_1 by lia. f_equal. lia. }
      exists out. simpl in Hso. rewrite Nat.add_0_r in Hso. done.
    - by exists go. }
  destruct Hout as (out & Hout1 & Hout2 & Hout3).
  exists g, out. repeat (split; [done|]). split; [|done].
  unfold call. fold oc. rewrite Hg. cbn [rbind].
  rewrite Hnd, Hks, <- Hlen.
  rewrite (split_last_axis g pre oc) by done. cbn [rbind].
  fold fgb. unfold tensor_mul, tensor_add.
  rewrite Hm1. cbn [rbind]. rewrite Hm2. cbn [rbind].
  rewrite Hnc. cbn [rbind]. rewrite Hgo. cbn [rbind].
  rewrite Hout2. done.
Qed.

Lemma lookup_lt_Some_ex {A : Type} (l : list A) i :
  i < length l -> exists x, l !! i = Some x.
Proof. intros Hi. by apply lookup_lt_is_Some_2 in Hi as [x ?]; eauto. Qed.

(** C2: on an input and a state that agree on the batch size, the
    spatial axes and the element type, with a cell memory of
    [output_channels] channels, the step returns.  The convolution result
    [g] has [4 * oc] channels; at every
    position [p] and channel [k] its entries [k], [oc + k], [2 * oc + k]
    and [3 * oc + k] are the input gate, the new input, the forget gate
    and the output gate, and the step returns
    [sigmoid (f + forget_bias) * c + sigmoid i * tanh n] as new cell
    memory and [tanh new_cell * sigmoid o] as output before the skip
    concatenation. *)
Theorem call_gate_equations self b spatial ci ch inputs cell hidden :
  step_inputs self b spatial ci ch inputs cell hidden ->
  let pre := b :: spatial in
  let oc := _output_channels self in
  let fb := _forget_bias self in
  exists g new_cell gated out,
    _conv [inputs; hidden] (_kernel_shape self) (4 * oc) (_use_bias self)
    = Ok g /\
    shape g = pre ++ [4 * oc] /\
    call self inputs (cell, hidden) = Ok (out, (new_cell, out)) /\
    shape new_cell = pre ++ [oc] /\ shape gated = pre ++ [oc] /\
    (if _skip_connection self
     then array_ops_concat [gated; inputs] (-1) = Ok out
     else out = gated) /\
    forall p k, p < numel pre -> k < oc ->
      exists i n f o c,
        data g !! (p * (4 * oc) + k) = Some i /\
        data g !! (p * (4 * oc) + oc + k) = Some n /\
        data g !! (p * (4 * oc) + 2 * oc + k) = Some f /\
        data g !! (p * (4 * oc) + 3 * oc + k) = Some o /\
        data cell !! (p * oc + k) = Some c /\
        data new_cell !! (p * oc + k)
        = Some (add (mul (sigmoid (add f fb)) c) (mul (sigmoid i) (tanh n))) /\
        data gated !! (p * oc + k)
        = Some (mul (tanh (add (mul (sigmoid (add f fb)) c)
                               (mul (sigmoid i) (tanh n))))
                    (sigmoid o)).
Proof.
  intros Hsi pre oc fb.
  destruct (call_spec _ _ _ _ _ _ _ _ Hsi)
    as (g & out & Hg & Hsg & Hwg & Hwnc & Hwgo & Hout & Hcall & _).
  fold pre oc in Hg, Hsg, Hwnc, Hwgo, Hout, Hcall.
  exists g, (new_cell_of self pre g cell), (gated_output_of self pre g cell), out.
  repeat (split; [done|]).
  split. { destruct (_skip_connection self); tauto. }
  intros p k Hp Hk.
  assert (Hlg : length (data g) = numel pre * (4 * oc)).
  { unfold wf in Hwg. rewrite Hwg, Hsg, numel_app. simpl. lia. }
  assert (Hlc : length (data cell) = numel pre * oc).
  { destruct Hsi as [_ _ _ _ _ _ _ _ _ Hsc _ Hwc]. unfold wf in Hwc.
    rewrite Hwc, Hsc.
    change (b :: spatial ++ [_output_channels self]) with (pre ++ [oc]).
    rewrite numel_app. simpl. lia. }
  destruct (lookup_lt_Some_ex (data g) (p * (4 * oc) + k)) as [i Hi]; [nia|].
  destruct (lookup_lt_Some_ex (data g) (p * (4 * oc) + oc + k)) as [n Hn]; [nia|].
  destruct (lookup_lt_Some_ex (data g) (p * (4 * oc) + 2 * oc + k)) as [f Hf]; [nia|].
  destruct (lookup_lt_Some_ex (data g) (p * (4 * oc) + 3 * oc + k)) as [o Ho]; [nia|].
  destruct (lookup_lt_Some_ex (data cell) (p * oc + k)) as [c Hc]; [nia|].
  exists i, n, f, o, c. repeat (split; [done|]).
  assert (H0 : data (gate g pre oc 0) !! (p * oc + k) = Some i).
  { rewrite gate_lookup by (done || lia). rewrite <- Hi. f_equal; lia. }
  assert (H1 : data (gate g pre oc 1) !! (p * oc + k) = Some n).
  { rewrite gate_lookup by (done || lia). rewrite <- Hn. f_equal; lia. }
  assert (H2 : data (gate g pre oc 2) !! (p * oc + k) = Some f).
  { rewrite gate_lookup by (done || lia). rewrite <- Hf. f_equal; lia. }
  assert (H3 : data (gate g pre oc 3) !! (p * oc + k) = Some o).
  { rewrite gate_lookup by (done || lia). rewrite <- Ho. f_equal; lia. }
  assert (Hnc : data (new_cell_of self pre g cell) !! (p * oc + k)
                = Some (add (mul (sigmoid (add f fb)) c)
                            (mul (sigmoid i) (tanh n)))).
  { unfold new_cell_of. cbn [data]. fold oc fb.
    rewrite !lookup_zip_with, !list_lookup_fmap, H0, H1, H2, Hc. done. }
  split; [done|].
  unfold gated_output_of. cbn [data]. fold oc.
  rewrite lookup_zip_with, !list_lookup_fmap, Hnc, H3. done.
Qed.

Lemma step_inputs_of_init spatial ci oc ks ub skip fb self b ch
    inputs cell hidden :
  __init__ (spatial ++ [ci]) oc ks ub skip fb = Ok self ->
  length ks = length spatial -> length spatial ∈ [1; 2; 3] ->
  shape inputs = b :: spatial ++ [ci] -> wf inputs ->
  shape hidden = b :: spatial ++ [ch] -> dtype hidden = dtype inputs ->
  wf hidden ->
  shape cell = b :: spatial ++ [oc] -> dtype cell = dtype inputs -> wf cell ->
  step_inputs self b spatial ci ch inputs cell hidden.
Proof.
  intros Hinit Hks Hdims Hsi Hwi Hsh Hdh Hwh Hsc Hdc Hwc.
  destruct (init_fields _ _ _ _ _ _ _ Hinit)
    as (Hnd & Hin & Hoc & Hk & _).
  constructor; try done; congruence.
Qed.

(** *** Channel counts under broadcasting

    A step takes any cell memory the element-wise product with the
    forget gate accepts.  Whatever the product broadcasts to, its channel
    count is that of the gate, unless the gate has one channel. *)

Lemma bshape_length s1 : forall s2 s,
  bshape s1 s2 = Some s -> length s = length s1 /\ length s = length s2.
Proof.
  induction s1 as [|n1 r1 IH]; intros [|n2 r2] s Hb; simpl in Hb; try done.
  - by injection Hb as <-.
  - destruct (bshape r1 r2) as [r|] eqn:Hr; [|done].
    destruct (IH _ _ Hr) as [H1 H2].
    destruct (n1 =? n2); [injection Hb as <-; simpl; lia|].
    destruct (n1 =? 1); [injection Hb as <-; simpl; lia|].
    destruct (n2 =? 1); [injection Hb as <-; simpl; lia|done].
Qed.

Lemma bshape_last s1 : forall s2 s c1 c2,
  bshape s1 s2 = Some s -> last s1 = Some c1 -> last s2 = Some c2 ->
  last s = Some (if c1 =? c2 then c1 else if c1 =? 1 then c2 else c1).
Proof.
  induction s1 as [|n1 r1 IH]; intros [|n2 r2] s c1 c2 Hb H1 H2;
    simpl in Hb; try done.
  destruct (bshape r1 r2) as [r|] eqn:Hr; [|done].
  destruct (bshape_length _ _ _ Hr) as [Hl1 Hl2].
  destruct r1 as [|x r1].
  - destruct r2 as [|y r2]; [|done]. destruct r; [|done].
    simpl in H1, H2. injection H1 as ->. injection H2 as ->.
    destruct (c1 =? c2); [by injection Hb as <-|].
    destruct (c1 =? 1); [by injection Hb as <-|].
    destruct (c2 =? 1); [by injection Hb as <-|done].
  - destruct r2 as [|y r2]; [done|]. destruct r as [|z r]; [done|].
    assert (Hl : last (z :: r)
                 = Some (if c1 =? c2 then c1 else if c1 =? 1 then c2 else c1))
      by (by apply (IH (y :: r2))).
    destruct (n1 =? n2); [by injection Hb as <-|].
    destruct (n1 =? 1); [by injection Hb as <-|].
    destruct (n2 =? 1); [by injection Hb as <-|done].
Qed.

Lemma last_pad_shape r s c : last s = Some c -> last (pad_shape r s) = Some c.
Proof. intros Hs. unfold pad_shape. by rewrite last_app, Hs. Qed.

Lemma last_pad_shape_nil r : 0 < r -> last (pad_shape r []) = Some 1.
Proof.
  intros Hr. unfold pad_shape. rewrite app_nil_r, last_lookup.
  rewrite length_replicate. simpl. apply lookup_replicate_2. lia.
Qed.

Lemma binop_channels f a b t c :
  binop f a b = Ok t -> channels a = Some c ->
  c <> 1 \/ channels b = Some c ->
  channels t = Some c.
Proof.
  unfold binop, channels. intros Hb Ha Hc.
  destruct (negb _); [done|].
  destruct (bshape _ _) as [s|] eqn:Hs; [|done]. injection Hb as <-.
  cbn [shape].
  set (r := Nat.max (rank a) (rank b)) in *.
  assert (Hr : 0 < r).
  { unfold r, rank. destruct (shape a); [done|simpl; lia]. }
  pose proof (last_pad_shape r _ _ Ha) as H1.
  destruct (last (shape b)) as [c2|] eqn:H2.
  - pose proof (last_pad_shape r _ _ H2) as H2'.
    rewrite (bshape_last _ _ _ _ _ Hs H1 H2').
    destruct (Nat.eqb_spec c c2); [done|].
    destruct (Nat.eqb_spec c 1); [|done].
    destruct Hc as [Hc|Hc]; [done|congruence].
  - apply last_None in H2. rewrite H2 in Hs.
    pose proof (last_pad_shape_nil r Hr) as H2'.
    rewrite (bshape_last _ _ _ _ _ Hs H1 H2'). by destruct (c =? 1).
Qed.

(** Two shapes that differ in the last axis only, neither with one
    channel there, do not broadcast. *)
Lemma bshape_last_mismatch pre c1 c2 :
  c1 <> c2 -> c1 <> 1 -> c2 <> 1 -> bshape (pre ++ [c1]) (pre ++ [c2]) = None.
Proof.
  intros H12 H1 H2. induction pre as [|n pre IH]; simpl.
  - apply Nat.eqb_neq in H12, H1, H2. by rewrite H12, H1, H2.
  - by rewrite IH.
Qed.

Lemma pad_shape_snoc pre c : pad_shape (length pre + 1) (pre ++ [c]) = pre ++ [c].
Proof.
  unfold pad_shape. rewrite length_app. simpl. by rewrite Nat.sub_diag.
Qed.

Lemma binop_last_mismatch f a b pre c1 c2 :
  shape a = pre ++ [c1] -> shape b = pre ++ [c2] ->
  c1 <> c2 -> c1 <> 1 -> c2 <> 1 ->
  (exists e, binop f a b = Raise e) /\
  (dtype a = dtype b ->
   binop f a b = Raise (ValueError "Dimensions must be equal")).
Proof.
  intros Ha Hb H12 H1 H2. unfold binop, rank.
  rewrite Ha, Hb, !length_app. cbn [length]. rewrite Nat.max_id.
  rewrite !pad_shape_snoc, bshape_last_mismatch by done. split.
  - destruct (negb _); by eexists.
  - intros Hd. by rewrite bool_decide_eq_true_2.
Qed.

(** The channels of a concatenation along the last axis add up. *)
Lemma concat_pair_channels a b out ca cb :
  array_ops_concat [a; b] (-1) = Ok out ->
  channels a = Some ca -> channels b = Some cb ->
  channels out = Some (ca + cb).
Proof.
  unfold array_ops_concat, channels, rank. intros Hc Ha Hb.
  destruct (negb _); [done|].
  assert (Hra : 0 < length (shape a))
    by (destruct (shape a); [done|simpl; lia]).
  rewrite norm_axis_minus_1 in Hc by done.
  destruct (forallb _ _) eqn:Hall; [|done]. injection Hc as <-.
  cbn [shape]. simpl in Hall. rewrite andb_true_r in Hall.
  apply andb_prop in Hall as [_ Hsb]. unfold same_off_axis in Hsb.
  apply andb_prop in Hsb as [Hsb Hlt]. apply andb_prop in Hsb as [_ Hdrop].
  apply bool_decide_eq_true_1 in Hlt, Hdrop.
  rewrite (drop_ge (shape a)) in Hdrop by lia.
  apply drop_nil_inv in Hdrop.
  assert (Hlb : length (shape b) = length (shape a)) by lia.
  rewrite last_lookup in Ha, Hb. rewrite Hlb in Hb.
  replace (Init.Nat.pred (length (shape a))) with (length (shape a) - 1)
    in Ha, Hb by lia.
  rewrite last_lookup, length_insert.
  replace (Init.Nat.pred (length (shape a))) with (length (shape a) - 1)
    by lia.
  rewrite list_lookup_insert_eq by lia.
  unfold axis_dim. simpl. rewrite Ha, Hb. simpl. f_equal. lia.
Qed.

(** What a step that returns has computed: the convolution of the input
    with the hidden state, the products with the gates, and the output,
    from which the hidden state is not distinguished. *)
Lemma call_returns spatial ci oc ks ub skip fb self b ch
    inputs cell hidden out new_cell h :
  __init__ (spatial ++ [ci]) oc ks ub skip fb = Ok self ->
  length ks = length spatial -> length spatial ∈ [1; 2; 3] ->
  shape inputs = b :: spatial ++ [ci] -> wf inputs ->
  shape hidden = b :: spatial ++ [ch] -> dtype hidden = dtype inputs ->
  wf hidden ->
  call self inputs (cell, hidden) = Ok (out, (new_cell, h)) ->
  let pre := b :: spatial in
  exists g m1 m2 gated,
    _conv [inputs; hidden] ks (4 * oc) ub = Ok g /\
    shape g = pre ++ [4 * oc] /\ dtype g = dtype inputs /\ wf g /\
    tensor_mul (math_ops_sigmoid (tensor_add_scalar (gate g pre oc 2) fb))
               cell = Ok m1 /\
    tensor_mul (math_ops_sigmoid (gate g pre oc 0))
               (math_ops_tanh (gate g pre oc 1)) = Ok m2 /\
    tensor_add m1 m2 = Ok new_cell /\
    tensor_mul (math_ops_tanh new_cell) (math_ops_sigmoid (gate g pre oc 3))
    = Ok gated /\
    (if skip then array_ops_concat [gated; inputs] (-1) = Ok out
     else out = gated) /\
    h = out.
Proof.
  intros Hinit Hks Hdims Hsi Hwi Hsh Hdh Hwh Hcall pre.
  destruct (init_fields _ _ _ _ _ _ _ Hinit)
    as (Hnd & Hin & Hoc & Hk & Hub & Hfb & Hskip & _).
  assert (Hlen : length pre = length spatial + 1) by (simpl; lia).
  destruct (_conv_same_shape pre (dtype inputs) inputs [hidden] ci [ch] ks
              (4 * oc) ub) as (g & Hg & Hsg & Hdg & Hwg).
  { repeat constructor; done. }
  { rewrite Hlen. apply elem_of_345.
    rewrite !elem_of_cons, elem_of_nil in Hdims. lia. }
  { lia. }
  unfold call in Hcall. rewrite Hk, Hoc, Hub, Hg in Hcall.
  cbn [rbind] in Hcall. rewrite Hnd, Hks, <- Hlen in Hcall.
  rewrite (split_last_axis g pre oc) in Hcall by done.
  cbn [rbind] in Hcall. rewrite Hfb, Hskip in Hcall.
  destruct (tensor_mul _ cell) as [m1|] eqn:Hm1; cbn [rbind] in Hcall;
    [|done].
  destruct (tensor_mul (math_ops_sigmoid (gate g pre oc 0)) _) as [m2|]
    eqn:Hm2; cbn [rbind] in Hcall; [|done].
  destruct (tensor_add m1 m2) as [nc|] eqn:Hnc; cbn [rbind] in Hcall;
    [|done].
  destruct (tensor_mul (math_ops_tanh nc) _) as [gated|] eqn:Hgo;
    cbn [rbind] in Hcall; [|done].
  exists g, m1, m2, gated. destruct skip.
  - destruct (array_ops_concat _ _) as [o'|] eqn:Hcc; cbn [rbind] in Hcall;
      [|done].
    injection Hcall as <- <- <-. done.
  - cbn [rbind] in Hcall. injection Hcall as <- <- <-. done.
Qed.

(** The channel counts of a step that returns. *)
Lemma call_returns_channels spatial ci oc ks ub skip fb self b ch
    inputs cell hidden out new_cell h :
  __init__ (spatial ++ [ci]) oc ks ub skip fb = Ok self ->
  length ks = length spatial -> length spatial ∈ [1; 2; 3] ->
  shape inputs = b :: spatial ++ [ci] -> wf inputs ->
  shape hidden = b :: spatial ++ [ch] -> dtype hidden = dtype inputs ->
  wf hidden ->
  oc <> 1 \/ channels cell = Some oc ->
  call self inputs (cell, hidden) = Ok (out, (new_cell, h)) ->
  let pre := b :: spatial in
  h = out /\ channels new_cell = Some oc /\
  exists g gated,
    _conv [inputs; hidden] ks (4 * oc) ub = Ok g /\
    shape g = pre ++ [4 * oc] /\
    tensor_mul (math_ops_tanh new_cell) (math_ops_sigmoid (gate g pre oc 3))
    = Ok gated /\
    channels gated = Some oc /\ channels inputs = Some ci /\
    (if skip
     then array_ops_concat [gated; inputs] (-1) = Ok out /\
          channels out = Some (oc + ci)
     else out = gated /\ channels out = Some oc).
Proof.
  intros Hinit Hks Hdims Hsi Hwi Hsh Hdh Hwh Hoc1 Hcall pre.
  destruct (call_returns _ _ _ _ _ _ _ _ _ _ _ _ _ _ _ _
              Hinit Hks Hdims Hsi Hwi Hsh Hdh Hwh Hcall)
    as (g & m1 & m2 & gated & Hg & Hsg & _ & _ & Hm1 & Hm2 & Hnc & Hgo
        & Hout & ->).
  fold pre in Hg, Hsg, Hm1, Hm2, Hnc, Hgo.
  assert (Hgk : forall k, channels (gate g pre oc k) = Some oc)
    by (intros k; unfold channels, gate; cbn [shape]; apply last_snoc).
  assert (Hc1 : channels m1 = Some oc).
  { apply (binop_channels _ _ _ _ _ Hm1); [apply (Hgk 2)|done]. }
  assert (Hc2 : channels m2 = Some oc).
  { apply (binop_channels _ _ _ _ _ Hm2); [apply (Hgk 0)|right; apply (Hgk 1)]. }
  assert (Hcn : channels new_cell = Some oc).
  { apply (binop_channels _ _ _ _ _ Hnc); [done|by right]. }
  assert (Hcg : channels gated = Some oc).
  { apply (binop_channels _ _ _ _ _ Hgo); [done|right; apply (Hgk 3)]. }
  assert (Hci : channels inputs = Some ci).
  { unfold channels. rewrite Hsi.
    change (b :: spatial ++ [ci]) with ((b :: spatial) ++ [ci]).
    apply last_snoc. }
  split; [done|]. split; [done|]. exists g, gated.
  repeat (split; [done|]). destruct skip.
  - split; [done|]. by apply (concat_pair_channels gated inputs).
  - subst out. done.
Qed.


Lemma zeros_wf shp dt : wf (array_ops_zeros shp dt).
Proof. unfold wf, array_ops_zeros. simpl. apply length_replicate. Qed.

(** A hidden state of another element type than the input is refused
    where the two are concatenated for the convolution. *)
Lemma call_hidden_dtype_mismatch self b spatial ci ch inputs cell hidden :
  length spatial ∈ [1; 2; 3] ->
  shape inputs = b :: spatial ++ [ci] -> shape hidden = b :: spatial ++ [ch] ->
  dtype hidden <> dtype inputs ->
  exists msg, call self inputs (cell, hidden) = Raise (TypeError msg).
Proof.
  intros Hdims Hsi Hsh Hdt. unfold call.
  assert (Hr : rank inputs ∈ [3; 4; 5]).
  { unfold rank. rewrite Hsi. simpl. rewrite length_app. simpl.
    apply elem_of_345. rewrite !elem_of_cons, elem_of_nil in Hdims. lia. }
  assert (Hrh : rank hidden = rank inputs).
  { unfold rank. rewrite Hsi, Hsh. simpl. by rewrite !length_app. }
  destruct (_conv_checked inputs [hidden] (_kernel_shape self)
              (4 * _output_channels self) (_use_bias self))
    as (op & st & _ & _ & Heq).
  { apply Forall_cons. split; [done|].
    apply Forall_cons. split; [by rewrite Hrh|by apply Forall_nil]. }
  { apply Forall_cons. split; [done|].
    apply Forall_cons. split; [done|by apply Forall_nil]. }
  cbv zeta in Heq. rewrite Heq. unfold array_ops_concat. cbn [forallb].
  rewrite (bool_decide_eq_true_2 (dtype inputs = dtype inputs)) by done.
  rewrite (bool_decide_eq_false_2 (dtype hidden = dtype inputs)) by done.
  cbn [andb negb rbind]. by eexists.
Qed.

(** With skip connection the zero state is not a state a step accepts:
    for at least two output channels and a positive number of input
    channels, the product of the forget gate with the cell memory of the
    zero state is refused for its shape. *)
Lemma call_zero_state_skip_raises spatial ci oc ks ub fb self b inputs :
  __init__ (spatial ++ [ci]) oc ks ub true fb = Ok self ->
  length ks = length spatial -> length spatial ∈ [1; 2; 3] ->
  shape inputs = b :: spatial ++ [ci] -> wf inputs ->
  2 <= oc -> 0 < ci ->
  exists msg,
    call self inputs (zero_state self b (dtype inputs))
    = Raise (ValueError msg).
Proof.
  intros Hinit Hks Hdims Hsi Hwi Hoc2 Hci.
  destruct (init_fields _ _ _ _ _ _ _ Hinit)
    as (Hnd & Hin & Hoc & Hk & _ & _ & _ & Htot & _).
  rewrite last_snoc in Htot. simpl in Htot.
  set (pre := b :: spatial).
  assert (Hlen : length pre = length spatial + 1) by (simpl; lia).
  unfold zero_state, call. rewrite Hin, Htot, py_init_snoc, Hk, Hoc, Hnd.
  change ([b] ++ spatial ++ [oc + ci]) with (pre ++ [oc + ci]).
  set (z := array_ops_zeros (pre ++ [oc + ci]) (dtype inputs)).
  destruct (_conv_same_shape pre (dtype inputs) inputs [z] ci [oc + ci] ks
              (4 * oc) (_use_bias self))
    as (g & -> & Hsg & Hdg & Hwg).
  { repeat constructor; try done. apply zeros_wf. }
  { rewrite Hlen. apply elem_of_345.
    rewrite !elem_of_cons, elem_of_nil in Hdims. lia. }
  { lia. }
  cbn [rbind]. rewrite Hks, <- Hlen.
  rewrite (split_last_axis g pre oc) by done. cbn [rbind].
  unfold tensor_mul at 1.
  destruct (binop_last_mismatch mul
              (math_ops_sigmoid
                 (tensor_add_scalar (gate g pre oc 2) (_forget_bias self)))
              z pre oc (oc + ci)) as [_ ->]; [done|done|lia..| |].
  - cbn [rbind]. eauto.
  - unfold z, math_ops_sigmoid, tensor_add_scalar, unop, gate, array_ops_zeros.
    cbn [dtype]. done.
Qed.

(** C8 (amended): with skip connection, at least two output channels and
    at least one input channel, the cell memory of the zero state has
    [output_channels + input_channels] channels, while [state_size]
    reports [output_channels]; a step on a cell memory of the declared
    shape returns, every step that returns returns a cell memory with
    [output_channels] channels, which is not of the shape of the zero
    state's, and no step returns on a cell memory of that shape, nor on
    the zero state itself. *)
Theorem zero_state_cell_memory_mismatch spatial ci oc ks ub fb self b ch dt
    inputs hidden :
  __init__ (spatial ++ [ci]) oc ks ub true fb = Ok self ->
  length ks = length spatial -> length spatial ∈ [1; 2; 3] ->
  shape inputs = b :: spatial ++ [ci] -> wf inputs ->
  shape hidden = b :: spatial ++ [ch] -> dtype hidden = dtype inputs ->
  wf hidden ->
  2 <= oc -> 0 < ci ->
  channels (fst (zero_state self b dt)) = Some (oc + ci) /\
  last (state_size self) = Some oc /\
  (forall cell,
     shape cell = b :: state_size self -> dtype cell = dtype inputs ->
     wf cell ->
     exists out new_cell,
       call self inputs (cell, hidden) = Ok (out, (new_cell, out))) /\
  (forall cell out new_cell h,
     call self inputs (cell, hidden) = Ok (out, (new_cell, h)) ->
     channels new_cell = Some oc /\
     forall b', shape new_cell <> shape (fst (zero_state self b' dt))) /\
  (forall cell,
     shape cell = shape (fst (zero_state self b dt)) ->
     exists e, call self inputs (cell, hidden) = Raise e) /\
  (exists e, call self inputs (zero_state self b dt) = Raise e).
Proof.
  intros Hinit Hks Hdims Hsi Hwi Hsh Hdh Hwh Hoc2 Hci.
  destruct (init_fields _ _ _ _ _ _ _ Hinit)
    as (_ & Hin & Hoc & _ & _ & _ & _ & Htot & _).
  rewrite last_snoc in Htot. simpl in Htot.
  assert (Hzs : forall b', shape (fst (zero_state self b' dt))
                           = (b' :: spatial) ++ [oc + ci]).
  { intros b'. unfold zero_state. cbn [fst array_ops_zeros shape].
    by rewrite Hin, Htot, py_init_snoc. }
  assert (Hss : state_size self = spatial ++ [oc]).
  { unfold state_size. by rewrite Hin, Hoc, py_init_snoc. }
  split. { unfold channels. rewrite Hzs. apply last_snoc. }
  split. { rewrite Hss. apply last_snoc. }
  split.
  { intros cell Hsc Hdc Hwc. rewrite Hss in Hsc.
    pose proof (step_inputs_of_init _ _ _ _ _ _ _ _ b ch inputs cell hidden
                  Hinit Hks Hdims Hsi Hwi Hsh Hdh Hwh Hsc Hdc Hwc) as Hstep.
    destruct (call_spec _ _ _ _ _ _ _ _ Hstep)
      as (g & out & _ & _ & _ & _ & _ & _ & Hcall & _).
    eauto. }
  split.
  { intros cell out new_cell h Hcall.
    destruct (call_returns_channels _ _ _ _ _ _ _ _ _ _ _ _ _ _ _ _
                Hinit Hks Hdims Hsi Hwi Hsh Hdh Hwh
                (or_introl (Nat.neq_sym _ _ (Nat.lt_neq _ _ Hoc2))) Hcall)
      as (_ & Hcn & _).
    split; [done|]. intros b' Heq. unfold channels in Hcn.
    rewrite Heq, Hzs, last_snoc in Hcn. injection Hcn. lia. }
  split.
  { intros cell Hsc. rewrite Hzs in Hsc.
    destruct (call self inputs (cell, hidden)) as [[out [new_cell h]]|e]
      eqn:Hcall; [|by eexists].
    destruct (call_returns _ _ _ _ _ _ _ _ _ _ _ _ _ _ _ _
                Hinit Hks Hdims Hsi Hwi Hsh Hdh Hwh Hcall)
      as (g & m1 & m2 & gated & _ & _ & _ & _ & Hm1 & _).
    destruct (binop_last_mismatch mul
                (math_ops_sigmoid
                   (tensor_add_scalar (gate g (b :: spatial) oc 2) fb))
                cell (b :: spatial) oc (oc + ci)) as [[e He] _];
      [done|done|lia..|].
    unfold tensor_mul in Hm1. congruence. }
  destruct (decide (dt = dtype inputs)) as [->|Hdt].
  - destruct (call_zero_state_skip_raises _ _ _ _ _ _ _ b inputs
                Hinit Hks Hdims Hsi Hwi Hoc2 Hci) as [msg Hmsg].
    by eexists.
  - destruct (call_hidden_dtype_mismatch self b spatial ci (oc + ci) inputs
                (fst (zero_state self b dt)) (snd (zero_state self b dt)))
      as [msg Hmsg]; try done.
    { unfold zero_state. cbn [snd array_ops_zeros shape].
      by rewrite Hin, Htot, py_init_snoc. }
    rewrite <- surjective_pairing in Hmsg. by eexists.
Qed.

(** ** Further properties of the cell *)

(** X1: the constructor raises only for a skip connection on an empty
    input shape, where [input_shape[-1]] is an [IndexError]; in every other
    case it returns a cell. *)
Theorem init_raises_iff input_shape oc ks ub skip fb :
  ((exists e, __init__ input_shape oc ks ub skip fb = Raise e) <->
   skip = true /\ input_shape = []) /\
  ((exists self, __init__ input_shape oc ks ub skip fb = Ok self) <->
   skip = false \/ input_shape <> []) /\
  (forall e, __init__ input_shape oc ks ub skip fb = Raise e ->
             exists msg, e = IndexError msg).
Proof.
  unfold __init__, py_last. destruct skip; simpl.
  - destruct (last input_shape) as [c|] eqn:Hl; simpl.
    + assert (Hne : input_shape <> []) by (intros ->; done).
      split; [|split].
      * split; [intros [e He]; done|intros [_ He]; done].
      * split; [by right|eauto].
      * intros e He. done.
    + apply last_None in Hl. subst input_shape.
      split; [|split].
      * split; [done|eauto].
      * split; [intros [self Hs]; done|intros [Hf|Hf]; done].
      * intros e [= <-]. eauto.
  - split; [|split].
    + split; [intros [e He]; done|intros [Hf _]; done].
    + split; [by left|eauto].
    + intros e He. done.
Qed.

(** X2: a step on a state of the declared shapes, cell memory
    [[batch] + state_size] and hidden state [[batch] + output_size], and
    of the element type of the input, returns a state of the same shapes and
    element type, and an output of shape [[batch] + output_size]: the sizes
    the cell reports are those of what a step returns, with and without
    skip connection, and the state a step returns is one a next step
    takes. *)
Theorem call_keeps_declared_shapes spatial ci oc ks ub skip fb self b
    inputs cell hidden :
  __init__ (spatial ++ [ci]) oc ks ub skip fb = Ok self ->
  length ks = length spatial -> length spatial ∈ [1; 2; 3] ->
  shape inputs = b :: spatial ++ [ci] -> wf inputs ->
  shape cell = b :: state_size self -> dtype cell = dtype inputs ->
  wf cell ->
  shape hidden = b :: output_size self -> dtype hidden = dtype inputs ->
  wf hidden ->
  exists out new_cell,
    call self inputs (cell, hidden) = Ok (out, (new_cell, out)) /\
    shape new_cell = b :: state_size self /\
    dtype new_cell = dtype inputs /\ wf new_cell /\
    shape out = b :: output_size self /\
    dtype out = dtype inputs /\ wf out.
Proof.
  intros Hinit Hks Hdims Hsi Hwi Hsc Hdc Hwc Hsh Hdh Hwh.
  destruct (init_fields _ _ _ _ _ _ _ Hinit)
    as (_ & Hin & Hoc & _ & _ & _ & Hskip & Htot & _).
  rewrite last_snoc in Htot. simpl in Htot.
  assert (Hss : state_size self = spatial ++ [oc]).
  { unfold state_size. by rewrite Hin, Hoc, py_init_snoc. }
  assert (Hos : output_size self
                = spatial ++ [if skip then oc + ci else oc]).
  { unfold output_size. by rewrite Hin, Htot, py_init_snoc. }
  rewrite Hss in Hsc. rewrite Hos in Hsh.
  pose proof (step_inputs_of_init _ _ _ _ _ _ _ _ b _ inputs cell hidden
                Hinit Hks Hdims Hsi Hwi Hsh Hdh Hwh Hsc Hdc Hwc) as Hstep.
  destruct (call_spec _ _ _ _ _ _ _ _ Hstep)
    as (g & out & _ & _ & _ & Hwnc & Hwgo & Hout & Hcall & Hdg & Hdo).
  eexists _, _. split; [exact Hcall|]. rewrite Hss, Hos.
  split. { unfold new_cell_of. cbn [shape]. by rewrite Hoc. }
  split; [done|]. split; [done|].
  rewrite Hskip, Hoc in Hout. destruct skip.
  - destruct Hout as (_ & Hso & Hwo). by rewrite Hso.
  - subst out. split; [|done].
    unfold gated_output_of. cbn [shape]. by rewrite Hoc.
Qed.

(** X3: without skip connection the zero state of the element type of
    the input is a state of the declared shapes: a step from it returns,
    with a state of the shapes and the element type of the zero state.  On
    a zero state of another element type the step raises a [TypeError]. *)
Theorem call_from_zero_state_without_skip spatial ci oc ks ub fb self b dt
    inputs :
  __init__ (spatial ++ [ci]) oc ks ub false fb = Ok self ->
  length ks = length spatial -> length spatial ∈ [1; 2; 3] ->
  shape inputs = b :: spatial ++ [ci] -> wf inputs ->
  (dt = dtype inputs ->
   exists out new_cell,
     call self inputs (zero_state self b dt) = Ok (out, (new_cell, out)) /\
     shape new_cell = shape (fst (zero_state self b dt)) /\
     shape out = shape (snd (zero_state self b dt)) /\
     dtype new_cell = dt /\ dtype out = dt /\
     wf new_cell /\ wf out) /\
  (dt <> dtype inputs ->
   exists msg,
     call self inputs (zero_state self b dt) = Raise (TypeError msg)).
Proof.
  intros Hinit Hks Hdims Hsi Hwi.
  destruct (init_fields _ _ _ _ _ _ _ Hinit)
    as (_ & Hin & Hoc & _ & _ & _ & Hskip & Htot & _).
  simpl in Htot.
  assert (Hz : zero_state self b dt
               = (array_ops_zeros (b :: spatial ++ [oc]) dt,
                  array_ops_zeros (b :: spatial ++ [oc]) dt)).
  { unfold zero_state. by rewrite Hin, Htot, py_init_snoc. }
  rewrite Hz. cbn [fst snd array_ops_zeros shape].
  set (z := array_ops_zeros (b :: spatial ++ [oc]) dt). split.
  - intros Hdt.
    pose proof (step_inputs_of_init _ _ _ _ _ _ _ _ b oc inputs z z
                  Hinit Hks Hdims Hsi Hwi eq_refl Hdt (zeros_wf _ _)
                  eq_refl Hdt (zeros_wf _ _)) as Hstep.
    destruct (call_spec _ _ _ _ _ _ _ _ Hstep)
      as (g & out & _ & _ & _ & Hwnc & Hwgo & Hout & Hcall & Hdg & Hdo).
    rewrite Hskip in Hout. subst out.
    eexists _, _. split; [exact Hcall|].
    unfold new_cell_of, gated_output_of in *. cbn [shape dtype] in *.
    rewrite Hoc in *. repeat split; congruence.
  - intros Hdt.
    by apply (call_hidden_dtype_mismatch self b spatial ci oc inputs z z).
Qed.

(** X4: the skip connection changes nothing but the output: a step of a
    cell with skip connection is the step of the same cell without it,
    followed by the concatenation of its output with the input along the
    last axis; the cell memory is the same. *)
Theorem call_skip_is_call_then_concat self inputs state :
  _skip_connection self = true ->
  call self inputs state
  = (r <~ call (mkCell (_conv_ndims self) (_input_shape self)
                       (_output_channels self) (_kernel_shape self)
                       (_use_bias self) (_forget_bias self) false
                       (_total_output_channels self))
               inputs state ;;
     out <~ array_ops_concat [fst r; inputs] (-1) ;;
     Ok (out, (fst (snd r), out))).
Proof.
  intros Hskip. unfold call. destruct state as [cell hidden]. rewrite Hskip.
  cbn [_conv_ndims _kernel_shape _output_channels _use_bias _forget_bias
       _skip_connection].
  destruct (_conv _ _ _ _) as [g|]; cbn [rbind]; [|done].
  destruct (array_ops_split g 4 _) as [gates|]; cbn [rbind]; [|done].
  destruct gates as [|i [|n [|f [|o [|]]]]]; try done.
  destruct (tensor_mul _ cell) as [m1|]; cbn [rbind]; [|done].
  destruct (tensor_mul (math_ops_sigmoid i) _) as [m2|]; cbn [rbind]; [|done].
  destruct (tensor_add m1 m2) as [nc|]; cbn [rbind]; [|done].
  destruct (tensor_mul (math_ops_tanh nc) _) as [out|]; cbn [rbind]; [|done].
  done.
Qed.

(** X5: on arguments of one element type that share their leading axes,
    with ranks 3, 4 or 5 and a filter of the matching dimension, [_conv]
    returns a tensor with these leading axes and [num_features] channels,
    of the element type of the arguments. *)
Theorem _conv_result_shape pre dt a0 args c0 cs fs nf bias :
  channelwise pre dt (a0 :: args) (c0 :: cs) ->
  length pre + 1 ∈ [3; 4; 5] -> length fs + 2 = length pre + 1 ->
  exists g, _conv (a0 :: args) fs nf bias = Ok g /\
            shape g = pre ++ [nf] /\ dtype g = dt /\ wf g.
Proof. apply _conv_same_shape. Qed.

Lemma check_shapes_rank_mismatch shapes0 shapes : forall acc,
  Forall (fun shp => length shp ∈ [3; 4; 5]) shapes ->
  Exists (fun shp => length shp <> length shapes0) shapes ->
  check_shapes shapes0 shapes acc
  = Raise (ValueError "Conv Linear expects all args to be of same Dimensiton").
Proof.
  induction shapes as [|shp rest IH]; intros acc Hall Hex.
  - by apply Exists_nil in Hex.
  - apply Forall_cons in Hall as [H345 Hall]. simpl.
    rewrite bool_decide_eq_true_2 by done. simpl.
    destruct (Nat.eqb_spec (length shp) (length shapes0)) as [Heq|Hne];
      simpl; [|done].
    apply Exists_cons in Hex as [Hbad|Hex]; [done|].
    unfold py_last. destruct (last shp) as [c|] eqn:Hl; simpl; [by apply IH|].
    apply last_None in Hl. subst shp. apply elem_of_345 in H345.
    simpl in H345. lia.
Qed.

(** X6: which error the argument checks of [_conv] raise.  An empty
    argument list is an [IndexError]; a first argument of a rank other than
    3, 4, 5 is the [ValueError] on 3D, 4D or 5D arguments; arguments of
    ranks 3, 4 or 5 that do not all have the rank of the first are the
    [ValueError] on the same dimension. *)
Theorem _conv_argument_errors fs nf bias :
  _conv [] fs nf bias = Raise (IndexError "list index out of range") /\
  (forall a0 args,
     rank a0 ∉ [3; 4; 5] ->
     _conv (a0 :: args) fs nf bias
     = Raise (ValueError "Conv Linear expects 3D, 4D or 5D arguments")) /\
  (forall a0 args,
     Forall (fun t => rank t ∈ [3; 4; 5]) (a0 :: args) ->
     Exists (fun t => rank t <> rank a0) args ->
     _conv (a0 :: args) fs nf bias
     = Raise (ValueError
                "Conv Linear expects all args to be of same Dimensiton")).
Proof.
  split; [done|]. split.
  - intros a0 args Hbad. unfold _conv, rank in *. cbn [map rbind check_shapes].
    by rewrite bool_decide_eq_false_2.
  - intros a0 args Hall Hex. unfold _conv. cbn [map rbind].
    rewrite (check_shapes_rank_mismatch (shape a0) (shape a0 :: map shape args));
      [done| |].
    + change (shape a0 :: map shape args) with (map shape (a0 :: args)).
      by apply Forall_fmap.
    + apply Exists_cons_tl, Exists_fmap. done.
Qed.

(** X7: a step whose input has a rank other than 3, 4, 5, or whose
    previous hidden state has another rank than its input, raises a
    [ValueError]: the checks of [_conv] decide before anything is
    computed. *)
Theorem call_rank_error self inputs cell hidden :
  rank inputs ∉ [3; 4; 5] \/ rank hidden <> rank inputs ->
  exists msg, call self inputs (cell, hidden) = Raise (ValueError msg).
Proof.
  intros Hbad. unfold call.
  destruct (_conv_error inputs [hidden] (_kernel_shape self)
              (4 * _output_channels self) (_use_bias self)) as [msg ->].
  - destruct Hbad as [Hbad|Hbad].
    + left. by apply Exists_cons_hd.
    + right. by apply Exists_cons_tl, Exists_cons_hd.
  - simpl. eauto.
Qed.

(** X15: the hidden state a step returns is its output, whatever the
    input and the previous state. *)
Theorem call_hidden_is_output self inputs state out new_cell h :
  call self inputs state = Ok (out, (new_cell, h)) -> h = out.
Proof.
  unfold call. destruct state as [cell hidden].
  destruct (_conv _ _ _ _) as [g|]; cbn [rbind]; [|done].
  destruct (array_ops_split g 4 _) as [gates|]; cbn [rbind]; [|done].
  destruct gates as [|i [|n [|f [|o [|]]]]]; try done.
  destruct (tensor_mul _ cell) as [m1|]; cbn [rbind]; [|done].
  destruct (tensor_mul (math_ops_sigmoid i) _) as [m2|]; cbn [rbind]; [|done].
  destruct (tensor_add m1 m2) as [nc|]; cbn [rbind]; [|done].
  destruct (tensor_mul (math_ops_tanh nc) _) as [o1|]; cbn [rbind]; [|done].
  destruct (if _skip_connection self then _ else _) as [o2|]; cbn [rbind];
    [|done].
  by intros [= <- _ <-].
Qed.

(** *** The bias of [_conv] *)

Lemma chunk_app_blocks {A : Type} (n a b : nat) : forall d : list A,
  chunk n (a + b) d = chunk n a d ++ chunk n b (drop (a * n) d).
Proof.
  induction a as [|a IH]; intros d; simpl; [done|].
  rewrite IH, drop_drop. done.
Qed.

Lemma chunk_of_take {A : Type} (n a : nat) : forall d : list A,
  chunk n a (take (a * n) d) = chunk n a d.
Proof.
  induction a as [|a IH]; intros d; simpl; [done|].
  rewrite take_take. replace (n `min` (n + a * n)) with n by lia.
  f_equal. rewrite <- take_drop_commute, IH. done.
Qed.

Lemma chunk_of_chunks {A : Type} (c k n : nat) : forall d : list A,
  concat (map (chunk c k) (chunk (k * c) n d)) = chunk c (n * k) d.
Proof.
  induction n as [|n IH]; intros d; simpl; [done|].
  rewrite IH, chunk_of_take, <- chunk_app_blocks. done.
Qed.

Lemma concat_map_concat {A B C : Type} (g : B -> list C) (h : A -> list B) l :
  concat (map (fun x => concat (map g (h x))) l)
  = concat (map g (concat (map h l))).
Proof.
  induction l as [|x l IH]; simpl; [done|].
  by rewrite map_app, concat_app, IH.
Qed.

(** Broadcasting a vector over the last axis works row by row. *)
Lemma bc_last_axis f s c : forall d1 d2,
  length d1 = numel s * c -> length d2 = c ->
  bc f (s ++ [c]) (replicate (length s) 1 ++ [c]) d1 d2
  = concat (map (fun row => zip_with f row d2) (chunk c (numel s) d1)).
Proof.
  induction s as [|n s IH]; intros d1 d2 H1 H2.
  - change (bc f ([] ++ [c]) (replicate (length []) 1 ++ [c]) d1 d2)
      with (bc f [c] [c] d1 d2).
    rewrite bc_same by (simpl in *; lia). simpl.
    rewrite take_ge by (simpl in H1; lia). by rewrite app_nil_r.
  - assert (Hr1 : numel (s ++ [c]) = numel s * c)
      by (rewrite numel_app; simpl; lia).
    assert (Hr2 : numel (replicate (length s) 1 ++ [c]) = c)
      by (rewrite numel_app, numel_replicate_1; simpl; lia).
    change (bc f ((n :: s) ++ [c]) (replicate (length (n :: s)) 1 ++ [c]) d1 d2)
      with (if n =? 1 then
              concat (zip_with (bc f (s ++ [c]) (replicate (length s) 1 ++ [c]))
                        (chunk (numel (s ++ [c])) n d1)
                        (chunk (numel (replicate (length s) 1 ++ [c])) 1 d2))
            else if n =? 1 then
              concat (map (bc f (s ++ [c]) (replicate (length s) 1 ++ [c]) d1)
                          (chunk (numel (replicate (length s) 1 ++ [c])) 1 d2))
            else
              concat (map (fun c1 => bc f (s ++ [c])
                                        (replicate (length s) 1 ++ [c]) c1 d2)
                          (chunk (numel (s ++ [c])) n d1))).
    rewrite Hr1, Hr2. change (numel (n :: s)) with (n * numel s) in *.
    destruct (Nat.eqb_spec n 1) as [->|Hn].
    + simpl chunk. simpl zip_with. simpl concat. rewrite app_nil_r.
      rewrite !take_ge by lia. rewrite IH by lia.
      by rewrite Nat.add_0_r.
    + rewrite (list_fmap_ext _ (fun c1 => concat (map (fun row => zip_with f row d2)
                                                     (chunk c (numel s) c1)))).
      * rewrite (concat_map_concat (fun row => zip_with f row d2)
                                   (chunk c (numel s))).
        by rewrite chunk_of_chunks.
      * intros i c1 Hc1. apply IH; [|done].
        pose proof (chunk_Forall_length (numel s * c) n d1 ltac:(lia)) as Hall.
        rewrite Forall_forall in Hall. apply Hall.
        by eapply list_elem_of_lookup_2.
Qed.

Lemma _conv_bias a0 args fs nf :
  _conv (a0 :: args) fs nf true
  = (res <~ _conv (a0 :: args) fs nf false ;;
     tensor_add res (get_variable "biases"%string [nf] (dtype a0))).
Proof.
  unfold _conv. cbn [map rbind negb].
  destruct (check_shapes _ _ _) as [depth|]; cbn [rbind]; [|done].
  destruct (if length (shape a0) =? 3 then _ else _) as [[op st]|];
    cbn [rbind]; [|done].
  destruct args as [|a1 args].
  - by destruct (conv_op _ _ _ _ _).
  - destruct (array_ops_concat _ _); cbn [rbind]; [|done].
    by destruct (conv_op _ _ _ _ _).
Qed.

(** X13: with [bias], on arguments of one element type, the result of
    [_conv] is the result without it plus, at every position, the bias of
    the output channel: element [j] of the variable [biases] is added to
    channel [j]. *)
Theorem _conv_bias_per_channel pre dt a0 args c0 cs fs nf :
  channelwise pre dt (a0 :: args) (c0 :: cs) ->
  length pre + 1 ∈ [3; 4; 5] -> length fs + 2 = length pre + 1 ->
  exists res g,
    _conv (a0 :: args) fs nf false = Ok res /\
    _conv (a0 :: args) fs nf true = Ok g /\
    shape g = shape res /\
    forall p j, p < numel pre -> j < nf ->
      exists x bj,
        data res !! (p * nf + j) = Some x /\
        data (get_variable "biases"%string [nf] (dtype a0)) !! j = Some bj /\
        data g !! (p * nf + j) = Some (add x bj).
Proof.
  intros Hc H345 Hfs.
  destruct (_conv_same_shape pre dt a0 args c0 cs fs nf false Hc H345 Hfs)
    as (res & Hres & Hsr & Hdr & Hwr).
  assert (Hd0 : dtype a0 = dt) by (by apply Forall2_cons_1 in Hc as [(_ & ? & _) _]).
  set (bias_term := get_variable "biases"%string [nf] (dtype a0)).
  destruct (get_variable_shape "biases"%string [nf] (dtype a0))
    as (Hsb & Hdb & Hwb).
  fold bias_term in Hsb, Hdb, Hwb.
  assert (Hlr : length (data res) = numel pre * nf).
  { unfold wf in Hwr. rewrite Hwr, Hsr, numel_app. simpl. lia. }
  assert (Hlb : length (data bias_term) = nf).
  { unfold wf in Hwb. rewrite Hwb, Hsb. simpl. lia. }
  assert (Hg : tensor_add res bias_term
               = Ok (mkTensor (pre ++ [nf]) (dtype res)
                       (concat (map (fun row => zip_with add row (data bias_term))
                                    (chunk nf (numel pre) (data res)))))).
  { unfold tensor_add, binop, rank.
    rewrite bool_decide_eq_true_2 by congruence. cbn [negb].
    rewrite Hsr, Hsb, length_app. simpl length.
    replace (Nat.max (length pre + 1) 1) with (length pre + 1) by lia.
    rewrite pad_shape_snoc. unfold pad_shape. simpl length.
    replace (length pre + 1 - 1) with (length pre) by lia.
    rewrite bshape_last_axis, bc_last_axis by done. done. }
  eexists res, _. split; [done|]. split.
  { rewrite _conv_bias, Hres. simpl rbind. exact Hg. }
  split; [by rewrite Hsr|].
  intros p j Hp Hj. cbn [data].
  destruct (lookup_lt_Some_ex (data res) (p * nf + j)) as [x Hx]; [nia|].
  destruct (lookup_lt_Some_ex (data bias_term) j) as [bj Hbj]; [lia|].
  exists x, bj. split; [done|]. split; [done|].
  rewrite (concat_lookup_const _ nf); [| |done].
  - rewrite list_lookup_fmap, chunk_lookup by done. simpl.
    rewrite lookup_zip_with, lookup_take_lt, lookup_drop, Hx by done. simpl.
    by rewrite Hbj.
  - apply Forall_fmap.
    eapply Forall_impl; [apply (chunk_Forall_length nf); lia|].
    simpl. intros row Hrow. rewrite length_zip_with. lia.
Qed.

End Framework.

Arguments mkTensor {E} shape dtype data.
Arguments shape {E} t.
Arguments dtype {E} t.
Arguments data {E} t.
Arguments rank {E} t.
Arguments wf {E} t.
Arguments channels {E} t.
Arguments mkCell {E}.
Arguments step_inputs {E}.

(** ** A framework over the integers

    A concrete instance of the parameters, on which the theorems are
    run: integer scalars, a variable store that returns zero-filled
    variables and a convolution that numbers the elements of its
    result. *)

Definition zsigmoid (x : Z) : Z := (x + 1)%Z.
Definition ztanh (x : Z) : Z := (2 * x)%Z.

Definition zget_variable (name : string) (shp : list nat) (dt : DType)
  : Tensor Z :=
  array_ops_zeros Z 0%Z shp dt.

Definition zconv_op (op : ConvOp) (x kernel : Tensor Z) (st : Strides)
    (pad : Padding) : result (Tensor Z) :=
  if negb (bool_decide (dtype kernel = dtype x)) then
    Raise (TypeError "Input 'filter' has a type that does not match the type of argument 'input'")
  else
    let shp := py_init (shape x) ++ [default 0 (last (shape kernel))] in
    Ok (mkTensor shp (dtype x) (map Z.of_nat (seq 0 (numel shp)))).

Lemma zget_variable_shape name shp dt :
  shape (zget_variable name shp dt) = shp /\
  dtype (zget_variable name shp dt) = dt /\ wf (zget_variable name shp dt).
Proof. split; [done|]. split; [done|]. apply zeros_wf. Qed.

Lemma zconv_op_same op (x kernel : Tensor Z) strides filt cin cout :
  wf x -> rank x = conv_rank op -> unit_strides strides ->
  length filt + 2 = rank x ->
  shape kernel = filt ++ [cin; cout] -> dtype kernel = dtype x -> wf kernel ->
  channels x = Some cin ->
  exists y, zconv_op op x kernel strides SAME = Ok y /\
            shape y = py_init (shape x) ++ [cout] /\
            dtype y = dtype x /\ wf y.
Proof.
  intros _ _ _ _ Hk Hd _ _. unfold zconv_op.
  rewrite bool_decide_eq_true_2 by done. cbn [negb]. rewrite Hk.
  replace (filt ++ [cin; cout]) with ((filt ++ [cin]) ++ [cout])
    by by rewrite <- app_assoc.
  rewrite last_snoc. simpl. eexists; split; [reflexivity|].
  repeat split. unfold wf. simpl. by rewrite length_map, length_seq.
Qed.

(** A one-dimensional cell with two output channels, and a step input
    with one channel at two positions. *)

Definition ex_cell (skip : bool) : ConvLSTMCell Z :=
  mkCell 1 [2; 1] 2 [3] true 1%Z skip (if skip then 3 else 2).

Definition ex_inputs : Tensor Z := mkTensor [1; 2; 1] float32 [5; 7]%Z.
Definition ex_hidden : Tensor Z := mkTensor [1; 2; 2] float32 [0; 0; 0; 0]%Z.
Definition ex_memory : Tensor Z := mkTensor [1; 2; 2] float32 [1; 2; 3; 4]%Z.

Lemma ex_step_inputs skip :
  step_inputs (ex_cell skip) 1 [2] 1 2 ex_inputs ex_memory ex_hidden.
Proof. constructor; try reflexivity. repeat constructor. Qed.

Example ex_call_value :
  call Z Z.add Z.mul zsigmoid ztanh zconv_op zget_variable
       (ex_cell false) ex_inputs (ex_memory, ex_hidden)
  = Ok (mkTensor [1; 2; 2] float32 [140; 416; 6660; 8960]%Z,
        (mkTensor [1; 2; 2] float32 [10; 26; 222; 280]%Z,
         mkTensor [1; 2; 2] float32 [140; 416; 6660; 8960]%Z)).
Proof. vm_compute. reflexivity. Qed.

Definition zcall := call Z Z.add Z.mul zsigmoid ztanh zconv_op zget_variable.
Definition z_conv := _conv Z Z.add zconv_op zget_variable.
Definition zconcat := array_ops_concat Z.

Lemma zero_state_zero_valued_witness :
  __init__ Z [2; 1] 2 [3] true true 1%Z = Ok (ex_cell true) /\
  (let shp := [4; 2; 3] in
   let st := zero_state Z 0%Z (ex_cell true) 4 float32 in
   shape (fst st) = shp /\ shape (snd st) = shp /\
   dtype (fst st) = float32 /\ dtype (snd st) = float32 /\
   data (fst st) = replicate (numel shp) 0%Z /\
   data (snd st) = replicate (numel shp) 0%Z /\
   Forall (fun x => x = 0%Z) (data (fst st)) /\
   Forall (fun x => x = 0%Z) (data (snd st)) /\
   wf (fst st) /\ wf (snd st)).
Proof.
  split; [reflexivity|].
  exact (zero_state_zero_valued Z 0%Z [2; 1] 2 [3] true true 1%Z
           (ex_cell true) 4 float32 eq_refl).
Defined.

Lemma _conv_rank_check_then_single_conv_witness :
  head [ex_inputs; ex_hidden] = Some ex_inputs /\
  exists op strides,
    conv_rank op = 3 /\ unit_strides strides /\
    z_conv [ex_inputs; ex_hidden] [3] 8 true
    = (x <~ zconcat [ex_inputs; ex_hidden] 2 ;;
       res <~ zconv_op op x (zget_variable "kernel" [3; 3; 8] float32)
                       strides SAME ;;
       tensor_add Z Z.add res (zget_variable "biases" [8] float32)).
Proof.
  split; [reflexivity|].
  apply (proj2 (_conv_rank_check_then_single_conv Z 0%Z Z.add Z.mul zsigmoid
                  ztanh zconv_op zget_variable [ex_inputs; ex_hidden] [3] 8
                  true ex_inputs eq_refl)).
  - repeat constructor.
  - repeat constructor.
Defined.

(** A rank-3 and a rank-4 argument are refused. *)
Example ex_conv_mismatched_rank :
  z_conv [ex_inputs; mkTensor [1; 2; 2; 1] float32 [0; 0; 0; 0]%Z] [3] 8 true
  = Raise (ValueError "Conv Linear expects all args to be of same Dimensiton").
Proof. reflexivity. Qed.

Lemma call_gate_equations_witness :
  step_inputs (ex_cell false) 1 [2] 1 2 ex_inputs ex_memory ex_hidden /\
  exists g new_cell gated out,
    z_conv [ex_inputs; ex_hidden] [3] 8 true = Ok g /\
    shape g = [1; 2; 8] /\
    zcall (ex_cell false) ex_inputs (ex_memory, ex_hidden)
    = Ok (out, (new_cell, out)) /\
    shape new_cell = [1; 2; 2] /\ shape gated = [1; 2; 2] /\
    out = gated /\
    forall p k, p < 2 -> k < 2 ->
      exists i n f o c,
        data g !! (p * 8 + k) = Some i /\
        data g !! (p * 8 + 2 + k) = Some n /\
        data g !! (p * 8 + 4 + k) = Some f /\
        data g !! (p * 8 + 6 + k) = Some o /\
        data ex_memory !! (p * 2 + k) = Some c /\
        data new_cell !! (p * 2 + k)
        = Some (zsigmoid (f + 1) * c + zsigmoid i * ztanh n)%Z /\
        data gated !! (p * 2 + k)
        = Some (ztanh (zsigmoid (f + 1) * c + zsigmoid i * ztanh n)
                * zsigmoid o)%Z.
Proof.
  split; [apply ex_step_inputs|].
  exact (call_gate_equations Z 0%Z Z.add Z.mul zsigmoid ztanh zconv_op
           zget_variable zget_variable_shape zconv_op_same (ex_cell false)
           1 [2] 1 2 ex_inputs ex_memory ex_hidden (ex_step_inputs false)).
Defined.


(** With skip connection the output carries the input as its third
    channel. *)
Example ex_call_skip_value :
  zcall (ex_cell true) ex_inputs (ex_memory, ex_hidden)
  = Ok (mkTensor [1; 2; 3] float32 [140; 416; 5; 6660; 8960; 7]%Z,
        (mkTensor [1; 2; 2] float32 [10; 26; 222; 280]%Z,
         mkTensor [1; 2; 3] float32 [140; 416; 5; 6660; 8960; 7]%Z)).
Proof. vm_compute. reflexivity. Qed.

Lemma zero_state_cell_memory_mismatch_witness :
  (__init__ Z ([2] ++ [1]) 2 [3] true true 1%Z = Ok (ex_cell true) /\
   length [3] = length [2] /\ length [2] ∈ [1; 2; 3] /\
   shape ex_inputs = [1; 2; 1] /\ wf ex_inputs /\
   shape ex_hidden = [1; 2; 2] /\ dtype ex_hidden = dtype ex_inputs /\
   wf ex_hidden /\ 2 <= 2 /\ 0 < 1) /\
  (channels (fst (zero_state Z 0%Z (ex_cell true) 1 float32)) = Some (2 + 1) /\
   last (state_size Z (ex_cell true)) = Some 2 /\
   (forall cell,
      shape cell = 1 :: state_size Z (ex_cell true) ->
      dtype cell = dtype ex_inputs -> wf cell ->
      exists out new_cell,
        zcall (ex_cell true) ex_inputs (cell, ex_hidden)
        = Ok (out, (new_cell, out))) /\
   (forall cell out new_cell h,
      zcall (ex_cell true) ex_inputs (cell, ex_hidden)
      = Ok (out, (new_cell, h)) ->
      channels new_cell = Some 2 /\
      forall b', shape new_cell
                 <> shape (fst (zero_state Z 0%Z (ex_cell true) b' float32))) /\
   (forall cell,
      shape cell = shape (fst (zero_state Z 0%Z (ex_cell true) 1 float32)) ->
      exists e, zcall (ex_cell true) ex_inputs (cell, ex_hidden) = Raise e) /\
   (exists e,
      zcall (ex_cell true) ex_inputs
            (zero_state Z 0%Z (ex_cell true) 1 float32)
      = Raise e)).
Proof.
  assert (Hd : length [2] ∈ [1; 2; 3])
    by (rewrite !elem_of_cons, elem_of_nil; simpl; lia).
  split.
  - repeat split; try reflexivity; try exact Hd; lia.
  - exact (zero_state_cell_memory_mismatch Z 0%Z Z.add Z.mul zsigmoid ztanh
             zconv_op zget_variable zget_variable_shape zconv_op_same
             [2] 1 2 [3] true 1%Z (ex_cell true) 1 2 float32
             ex_inputs ex_hidden
             eq_refl eq_refl Hd eq_refl eq_refl eq_refl eq_refl eq_refl
             (le_n 2) (le_n 1)).
Defined.

(** The zero state of the cell with skip connection is refused for its
    shape. *)
Example ex_call_zero_state_skip :
  zcall (ex_cell true) ex_inputs (zero_state Z 0%Z (ex_cell true) 1 float32)
  = Raise (ValueError "Dimensions must be equal").
Proof. vm_compute. reflexivity. Qed.

(** A cell memory of another element type than the input is refused for
    its type. *)
Example ex_call_mixed_dtypes :
  zcall (ex_cell false) ex_inputs
        (mkTensor [1; 2; 2] float64 [1; 2; 3; 4]%Z, ex_hidden)
  = Raise (TypeError "Input 'y' has a type that does not match the type of argument 'x'").
Proof. vm_compute. reflexivity. Qed.

(** With a single output channel the product of the forget gate and the
    cell memory broadcasts: a step accepts the zero state of a cell with
    skip connection, and what it returns has the channel counts of the
    zero state. *)

Definition ex_cell_one_channel : ConvLSTMCell Z :=
  mkCell 1 [2; 1] 1 [3] true 1%Z true 2.


(** C8, as first stated, fails here: this step takes the zero state and
    returns a cell memory with the shape of the zero state's, whose channel
    count is not [output_channels]. *)
Lemma zero_state_cell_memory_consumed_at_one_channel :
  __init__ Z [2; 1] 1 [3] true true 1%Z = Ok ex_cell_one_channel /\
  zcall ex_cell_one_channel ex_inputs
        (zero_state Z 0%Z ex_cell_one_channel 1 float32)
  = Ok (mkTensor [1; 2; 3] float32 [16; 16; 5; 800; 800; 7]%Z,
        (mkTensor [1; 2; 2] float32 [2; 2; 50; 50]%Z,
         mkTensor [1; 2; 3] float32 [16; 16; 5; 800; 800; 7]%Z)) /\
  shape (mkTensor [1; 2; 2] float32 [2; 2; 50; 50]%Z)
  = shape (fst (zero_state Z 0%Z ex_cell_one_channel 1 float32)) /\
  channels (mkTensor [1; 2; 2] float32 [2; 2; 50; 50]%Z)
  <> Some (_output_channels Z ex_cell_one_channel).
Proof. repeat split; try reflexivity. by vm_compute. Qed.

(** *** Instances of the further properties *)

Definition ex_hidden_skip : Tensor Z :=
  mkTensor [1; 2; 3] float32 [0; 0; 0; 0; 0; 0]%Z.

Lemma call_keeps_declared_shapes_witness :
  (__init__ Z ([2] ++ [1]) 2 [3] true true 1%Z = Ok (ex_cell true) /\
   length [3] = length [2] /\ length [2] ∈ [1; 2; 3] /\
   shape ex_inputs = [1; 2; 1] /\ wf ex_inputs /\
   shape ex_memory = 1 :: state_size Z (ex_cell true) /\
   dtype ex_memory = dtype ex_inputs /\ wf ex_memory /\
   shape ex_hidden_skip = 1 :: output_size Z (ex_cell true) /\
   dtype ex_hidden_skip = dtype ex_inputs /\ wf ex_hidden_skip) /\
  exists out new_cell,
    zcall (ex_cell true) ex_inputs (ex_memory, ex_hidden_skip)
    = Ok (out, (new_cell, out)) /\
    shape new_cell = 1 :: state_size Z (ex_cell true) /\
    dtype new_cell = dtype ex_inputs /\ wf new_cell /\
    shape out = 1 :: output_size Z (ex_cell true) /\
    dtype out = dtype ex_inputs /\ wf out.
Proof.
  assert (Hd : length [2] ∈ [1; 2; 3])
    by (rewrite !elem_of_cons, elem_of_nil; simpl; lia).
  split.
  - repeat split; try reflexivity; exact Hd.
  - exact (call_keeps_declared_shapes Z 0%Z Z.add Z.mul zsigmoid ztanh
             zconv_op zget_variable zget_variable_shape zconv_op_same
             [2] 1 2 [3] true true 1%Z (ex_cell true) 1
             ex_inputs ex_memory ex_hidden_skip
             eq_refl eq_refl Hd eq_refl eq_refl eq_refl eq_refl eq_refl
             eq_refl eq_refl eq_refl).
Defined.

Lemma call_from_zero_state_without_skip_witness :
  (__init__ Z ([2] ++ [1]) 2 [3] true false 1%Z = Ok (ex_cell false) /\
   length [3] = length [2] /\ length [2] ∈ [1; 2; 3] /\
   shape ex_inputs = [1; 2; 1] /\ wf ex_inputs /\
   float32 = dtype ex_inputs /\ float64 <> dtype ex_inputs) /\
  (exists out new_cell,
     zcall (ex_cell false) ex_inputs
           (zero_state Z 0%Z (ex_cell false) 1 float32)
     = Ok (out, (new_cell, out)) /\
     shape new_cell
     = shape (fst (zero_state Z 0%Z (ex_cell false) 1 float32)) /\
     shape out = shape (snd (zero_state Z 0%Z (ex_cell false) 1 float32)) /\
     dtype new_cell = float32 /\ dtype out = float32 /\
     wf new_cell /\ wf out) /\
  (exists msg,
     zcall (ex_cell false) ex_inputs
           (zero_state Z 0%Z (ex_cell false) 1 float64)
     = Raise (TypeError msg)).
Proof.
  assert (Hd : length [2] ∈ [1; 2; 3])
    by (rewrite !elem_of_cons, elem_of_nil; simpl; lia).
  assert (Hne : float64 <> dtype ex_inputs) by discriminate.
  split.
  - repeat split; try reflexivity; try exact Hd. exact Hne.
  - split.
    + exact (proj1 (call_from_zero_state_without_skip Z 0%Z Z.add Z.mul
                      zsigmoid ztanh zconv_op zget_variable
                      zget_variable_shape zconv_op_same
                      [2] 1 2 [3] true 1%Z (ex_cell false) 1 float32
                      ex_inputs eq_refl eq_refl Hd eq_refl eq_refl) eq_refl).
    + exact (proj2 (call_from_zero_state_without_skip Z 0%Z Z.add Z.mul
                      zsigmoid ztanh zconv_op zget_variable
                      zget_variable_shape zconv_op_same
                      [2] 1 2 [3] true 1%Z (ex_cell false) 1 float64
                      ex_inputs eq_refl eq_refl Hd eq_refl eq_refl) Hne).
Defined.

Lemma call_skip_is_call_then_concat_witness :
  _skip_connection Z (ex_cell true) = true /\
  zcall (ex_cell true) ex_inputs (ex_memory, ex_hidden)
  = (r <~ zcall (mkCell 1 [2; 1] 2 [3] true 1%Z false 3) ex_inputs
                (ex_memory, ex_hidden) ;;
     out <~ zconcat [fst r; ex_inputs] (-1) ;;
     Ok (out, (fst (snd r), out))).
Proof.
  split; [reflexivity|].
  exact (call_skip_is_call_then_concat Z Z.add Z.mul zsigmoid ztanh zconv_op
           zget_variable (ex_cell true) ex_inputs (ex_memory, ex_hidden)
           eq_refl).
Defined.

Lemma ex_channelwise :
  channelwise Z [1; 2] float32 [ex_inputs; ex_hidden] [1; 2].
Proof. repeat constructor. Qed.

Lemma _conv_result_shape_witness :
  (channelwise Z [1; 2] float32 [ex_inputs; ex_hidden] [1; 2] /\
   length [1; 2] + 1 ∈ [3; 4; 5] /\ length [3] + 2 = length [1; 2] + 1) /\
  exists g, z_conv [ex_inputs; ex_hidden] [3] 8 true = Ok g /\
            shape g = [1; 2] ++ [8] /\ dtype g = float32 /\ wf g.
Proof.
  split.
  - split; [apply ex_channelwise|]. split; [repeat constructor|reflexivity].
  - apply (_conv_result_shape Z 0%Z Z.add Z.mul zsigmoid ztanh zconv_op
             zget_variable zget_variable_shape zconv_op_same
             [1; 2] float32 ex_inputs [ex_hidden] 1 [2] [3] 8 true
             ex_channelwise).
    + repeat constructor.
    + reflexivity.
Defined.

Definition ex_rank4 : Tensor Z := mkTensor [1; 2; 2; 1] float32 [0; 0; 0; 0]%Z.
Definition ex_rank2 : Tensor Z := mkTensor [2; 1] float32 [0; 0]%Z.

Lemma _conv_argument_errors_witness :
  z_conv [] [3] 8 true = Raise (IndexError "list index out of range") /\
  z_conv [ex_rank2; ex_rank4] [3] 8 true
  = Raise (ValueError "Conv Linear expects 3D, 4D or 5D arguments") /\
  z_conv [ex_inputs; ex_rank4] [3] 8 true
  = Raise (ValueError "Conv Linear expects all args to be of same Dimensiton").
Proof.
  destruct (_conv_argument_errors Z 0%Z Z.add Z.mul zsigmoid ztanh zconv_op
              zget_variable [3] 8 true) as (H1 & H2 & H3).
  split; [exact H1|]. split.
  - apply H2. unfold rank. simpl. rewrite !elem_of_cons, elem_of_nil. lia.
  - apply H3.
    + repeat (apply Forall_cons; split;
              [unfold rank; simpl; rewrite !elem_of_cons, elem_of_nil; lia|]).
      apply Forall_nil_2.
    + apply Exists_cons_hd. unfold rank. simpl. lia.
Defined.

Lemma call_rank_error_witness :
  (rank ex_inputs ∉ [3; 4; 5] \/ rank ex_rank4 <> rank ex_inputs) /\
  exists msg,
    zcall (ex_cell false) ex_inputs (ex_memory, ex_rank4)
    = Raise (ValueError msg).
Proof.
  assert (H : rank ex_inputs ∉ [3; 4; 5] \/ rank ex_rank4 <> rank ex_inputs)
    by (right; unfold rank; simpl; lia).
  split; [exact H|].
  exact (call_rank_error Z 0%Z Z.add Z.mul zsigmoid ztanh zconv_op
           zget_variable (ex_cell false) ex_inputs ex_memory ex_rank4 H).
Defined.

Lemma _conv_bias_per_channel_witness :
  (channelwise Z [1; 2] float32 [ex_inputs; ex_hidden] [1; 2] /\
   length [1; 2] + 1 ∈ [3; 4; 5] /\ length [3] + 2 = length [1; 2] + 1) /\
  exists res g,
    z_conv [ex_inputs; ex_hidden] [3] 8 false = Ok res /\
    z_conv [ex_inputs; ex_hidden] [3] 8 true = Ok g /\
    shape g = shape res /\
    forall p j, p < numel [1; 2] -> j < 8 ->
      exists x bj,
        data res !! (p * 8 + j) = Some x /\
        data (zget_variable "biases" [8] (dtype ex_inputs)) !! j = Some bj /\
        data g !! (p * 8 + j) = Some (x + bj)%Z.
Proof.
  split.
  - split; [apply ex_channelwise|]. split; [repeat constructor|reflexivity].
  - apply (_conv_bias_per_channel Z 0%Z Z.add Z.mul zsigmoid ztanh zconv_op
             zget_variable zget_variable_shape zconv_op_same
             [1; 2] float32 ex_inputs [ex_hidden] 1 [2] [3] 8 ex_channelwise).
    + repeat constructor.
    + reflexivity.
Defined.

Lemma call_hidden_is_output_witness :
  zcall (ex_cell true) ex_inputs (ex_memory, ex_hidden)
  = Ok (mkTensor [1; 2; 3] float32 [140; 416; 5; 6660; 8960; 7]%Z,
        (mkTensor [1; 2; 2] float32 [10; 26; 222; 280]%Z,
         mkTensor [1; 2; 3] float32 [140; 416; 5; 6660; 8960; 7]%Z)) /\
  mkTensor [1; 2; 3] float32 [140; 416; 5; 6660; 8960; 7]%Z
  = mkTensor [1; 2; 3] float32 [140; 416; 5; 6660; 8960; 7]%Z.
Proof.
  assert (H : zcall (ex_cell true) ex_inputs (ex_memory, ex_hidden)
              = Ok (mkTensor [1; 2; 3] float32 [140; 416; 5; 6660; 8960; 7]%Z,
                    (mkTensor [1; 2; 2] float32 [10; 26; 222; 280]%Z,
                     mkTensor [1; 2; 3] float32
                              [140; 416; 5; 6660; 8960; 7]%Z)))
    by (vm_compute; reflexivity).
  split; [exact H|].
  exact (call_hidden_is_output Z Z.add Z.mul zsigmoid ztanh zconv_op
           zget_variable (ex_cell true) ex_inputs (ex_memory, ex_hidden)
           _ _ _ H).
Defined.

End convolutional_lstm.

(** * The model harness of [tfmodel.py] *)

Module tfmodel.

(** ** numpy indexing *)

(** [a[i]] for an integer [i]: negative indices count from the end. *)
Definition np_index {A : Type} (a : list A) (i : Z) : result A :=
  let n := Z.of_nat (length a) in
  let j := if (i <? 0)%Z then (n + i)%Z else i in
  if (0 <=? j)%Z && (j <? n)%Z then
    match a !! Z.to_nat j with
    | Some x => Ok x
    | None => Raise (IndexError "index out of bounds")
    end
  else Raise (IndexError "index out of bounds").

(** [a[frames]] for a sequence of integers. *)
Fixpoint np_take {A : Type} (a : list A) (frames : list Z) : result (list A) :=
  match frames with
  | [] => Ok []
  | i :: rest =>
      x <~ np_index a i ;;
      xs <~ np_take a rest ;;
      Ok (x :: xs)
  end.

(** [range(n)] *)
Definition py_range (n : nat) : list Z := map Z.of_nat (seq 0 n).

(** Modelled from the spec: [chunks] of the module [misc], which is not
    among the sources.  It partitions a sequence into consecutive chunks of
    a fixed size; the final chunk is smaller when the size does not divide
    the length.  The spec says nothing about a size of zero. *)
Fixpoint chunks_from {A : Type} (fuel n : nat) (l : list A) : list (list A) :=
  match fuel with
  | 0 => []
  | S fuel' =>
      match l with
      | [] => []
      | _ :: _ => take n l :: chunks_from fuel' n (drop n l)
      end
  end.

Definition chunks {A : Type} (l : list A) (n : nat) : list (list A) :=
  chunks_from (length l) n l.

(** Number of chunks of size [b] in [n] elements, rounded up. *)
Definition ceil_div (n b : nat) : nat := (n + b - 1) / b.

Section Harness.

(** The collaborators: the images and labels, the network a subclass
    builds, the optimizer of the framework, Python's random generator and
    numpy's [r_]. *)
Variables Image Label Summary Params Logit Rng : Type.

(** [_build_network]: the logits of a batch, one map of rows per image. *)
Variable network : Params -> list Image -> list (list (list Logit)).

(** [tf.greater] and the constant [0]. *)
Variable greater : Logit -> Logit -> bool.
Variable logit_zero : Logit.

(** One run of [[self.summary, self.optimizer]] on a batch: the summary
    and the updated parameters. *)
Variable optimize : Params -> list Image -> list Label -> Summary * Params.

(** [random.shuffle] on the global generator. *)
Variable shuffle : Rng -> list Z -> list Z * Rng.

(** [np.r_[tuple(indices)]] on integers. *)
Variable np_r_ : list Z -> result (list Z).

(** The attributes a subclass supplies. *)
Record TFModel : Type := mkModel {
  epochs : Z;
  batch_size : Z;
  log_path : string
}.

(** The session: the global step and the learnable parameters. *)
Record Session : Type := mkSession {
  step : Z;
  params : Params
}.

(** [tf.train.Saver]: [save] writes the variables of a session to a
    location of the file system, [restore] reads them from one. *)
Variable Files : Type.
Variable saver_save : Session -> string -> Files -> Files.
Variable saver_restore : string -> Files -> result Session.

(** [tf.summary.FileWriter(logdir, graph)] creates an event file under
    [logdir] and writes the graph to it; [close] flushes the records added
    since to that file and closes it.  What the files then hold is the
    framework's matter. *)
Variable file_writer_open : string -> Files -> Files.
Variable file_writer_close : string -> list (Summary * Z) -> Files -> Files.

(** The state a call works on: the Python list objects by reference, the
    random generator, the session, the records of the summary writer and
    the file system.  Printing is not modelled. *)
Record World : Type := mkWorld {
  heap : gmap nat (list Z);
  rng : Rng;
  session : Session;
  writer : list (Summary * Z);
  files : Files
}.

Definition M (A : Type) : Type := World -> result A * World.

Definition ret {A : Type} (a : A) : M A := fun w => (Ok a, w).

Definition bind {A B : Type} (m : M A) (k : A -> M B) : M B :=
  fun w =>
    match m w with
    | (Ok a, w') => k a w'
    | (Raise e, w') => (Raise e, w')
    end.

Definition lift {A : Type} (r : result A) : M A := fun w => (r, w).

Notation "x <- c ; k" := (bind c (fun x => k))
  (at level 100, c at next level, right associativity, only parsing).

(** [list(xs)]: a new list object. *)
Definition alloc (xs : list Z) : M nat :=
  fun w =>
    let l := fresh (dom (heap w)) in
    (Ok l, mkWorld (<[l := xs]> (heap w)) (rng w) (session w) (writer w)
                   (files w)).

Definition read (l : nat) : M (list Z) :=
  fun w =>
    match heap w !! l with
    | Some xs => (Ok xs, w)
    | None => (Raise (ValueError "no such object"), w)
    end.

(** [random.shuffle(l)]: in place. *)
Definition random_shuffle (l : nat) : M unit :=
  xs <- read l ;
  fun w =>
    let '(ys, r) := shuffle (rng w) xs in
    (Ok tt, mkWorld (<[l := ys]> (heap w)) r (session w) (writer w) (files w)).

(** [session.run([summary, optimizer], feed)] followed by
    [writer.add_summary(summary, global_step)]: the optimizer advances the
    global step by one. *)
Definition run_optimizer (imgs : list Image) (lbls : list Label) : M unit :=
  fun w =>
    let '(summary, p) := optimize (params (session w)) imgs lbls in
    let s := mkSession (step (session w) + 1) p in
    (Ok tt, mkWorld (heap w) (rng w) s (writer w ++ [(summary, step s)])
                    (files w)).

Definition run_batch (images : list Image) (labels : list Label)
    (frames : list Z) : M unit :=
  imgs <- lift (np_take images frames) ;
  lbls <- lift (np_take labels frames) ;
  run_optimizer imgs lbls.

Fixpoint run_batches (images : list Image) (labels : list Label)
    (batches : list (list Z)) : M unit :=
  match batches with
  | [] => ret tt
  | frames :: rest =>
      _ <- run_batch images labels frames ;
      run_batches images labels rest
  end.

(** The body of [for epoch in range(epochs)], [n] times. *)
Fixpoint run_epochs (images : list Image) (labels : list Label)
    (indices : nat) (bsize : Z) (n : nat) : M unit :=
  match n with
  | 0 => ret tt
  | S n' =>
      _ <- random_shuffle indices ;
      xs <- read indices ;
      let batches := chunks xs (Z.to_nat bsize) in
      _ <- run_batches images labels batches ;
      run_epochs images labels indices bsize n'
  end.

(** [writer = tf.summary.FileWriter(logdir, graph)]: the event file is
    created; the records added through the writer are those that follow the
    ones the state holds so far, whose number is returned. *)
Definition FileWriter (logdir : string) : M nat :=
  fun w =>
    (Ok (length (writer w)),
     mkWorld (heap w) (rng w) (session w) (writer w)
             (file_writer_open logdir (files w))).

(** [writer.close()] for a writer opened on [logdir] when the state held
    [mark] records. *)
Definition writer_close (logdir : string) (mark : nat) : M unit :=
  fun w =>
    (Ok tt,
     mkWorld (heap w) (rng w) (session w) (writer w)
             (file_writer_close logdir (drop mark (writer w)) (files w))).

(** [train]: the writer is opened after the indices are copied and closed
    after the last epoch; a call that raises leaves it open. *)
Definition train (self : TFModel) (images : list Image) (labels : list Label)
    (indices : option nat) (epochs_arg batch_size_arg : option Z) : M unit :=
  indices <- match indices with
             | None => alloc (py_range (length images))
             | Some l => xs <- read l ; alloc xs
             end ;
  let n_epochs := match epochs_arg with
                  | None => epochs self
                  | Some e => e
                  end in
  let bsize := match batch_size_arg with
               | None => batch_size self
               | Some b => b
               end in
  mark <- FileWriter (log_path self) ;
  _ <- run_epochs images labels indices bsize (Z.to_nat n_epochs) ;
  writer_close (log_path self) mark.

(** [session.run(self.pred_labels, {self.images: imgs})] with
    [pred_labels = tf.greater(logits, 0)]. *)
Definition run_pred_labels (s : Session) (imgs : list Image)
  : list (list (list bool)) :=
  map (map (map (fun x => greater x logit_zero))) (network (params s) imgs).

Definition py_first {A : Type} (l : list A) : result A :=
  match l with
  | x :: _ => Ok x
  | [] => Raise (IndexError "index 0 is out of bounds")
  end.

Fixpoint predict_each (s : Session) (imgs : list Image)
  : result (list (list (list bool))) :=
  match imgs with
  | [] => Ok []
  | image :: rest =>
      p <~ py_first (run_pred_labels s [image]) ;;
      ps <~ predict_each s rest ;;
      Ok (p :: ps)
  end.

Definition predict (s : Session) (images : list Image)
    (indices : option (list Z)) : result (list (list (list bool))) :=
  sel <~ match indices with
         | None => Ok (py_range (length images))
         | Some ix => np_r_ ix
         end ;;
  imgs <~ np_take images sel ;;
  predict_each s imgs.

(** [saver.save(session, path + "/model.ckpt")] *)
Definition _save_model (path : string) : M unit :=
  fun w =>
    (Ok tt, mkWorld (heap w) (rng w) (session w) (writer w)
                    (saver_save (session w) (path ++ "/model.ckpt")%string
                                (files w))).

(** [saver.restore(session, path + "/model.ckpt")] *)
Definition _load_model (path : string) : M unit :=
  fun w =>
    match saver_restore (path ++ "/model.ckpt")%string (files w) with
    | Ok s => (Ok tt, mkWorld (heap w) (rng w) s (writer w) (files w))
    | Raise e => (Raise e, w)
    end.

(** ** Facts about [chunks] *)

Lemma ceil_div_spec n b :
  0 < b -> ceil_div n b = n / b + (if n mod b =? 0 then 0 else 1).
Proof.
  intros Hb. unfold ceil_div.
  pose proof (Nat.div_mod_eq n b) as Hdm.
  pose proof (Nat.mod_upper_bound n b ltac:(lia)) as Hlt.
  destruct (Nat.eqb_spec (n mod b) 0) as [H0|H0].
  - symmetry. apply (Nat.div_unique _ _ _ (b - 1)); [lia|]. nia.
  - symmetry. apply (Nat.div_unique _ _ _ (n mod b - 1)); [lia|]. nia.
Qed.

Lemma ceil_div_0 b : 0 < b -> ceil_div 0 b = 0.
Proof. intros Hb. unfold ceil_div. apply Nat.div_small. lia. Qed.

Lemma ceil_div_step n b :
  0 < b -> 0 < n -> ceil_div n b = S (ceil_div (n - b) b).
Proof.
  intros Hb Hn. destruct (Nat.le_gt_cases n b) as [Hle|Hgt].
  - replace (n - b) with 0 by lia. rewrite ceil_div_0 by done.
    unfold ceil_div. symmetry. apply (Nat.div_unique _ _ _ (n - 1)); lia.
  - unfold ceil_div.
    replace (n + b - 1) with ((n - b + b - 1) + 1 * b) by lia.
    rewrite Nat.div_add by lia. lia.
Qed.

Section ChunksFacts.

Context {A : Type}.
Implicit Types l : list A.

Lemma chunks_from_length fuel n l :
  0 < n -> length l <= fuel ->
  length (chunks_from fuel n l) = ceil_div (length l) n.
Proof.
  intros Hn. revert l. induction fuel as [|fuel IH]; intros l Hl.
  - destruct l; [|simpl in Hl; lia]. simpl. by rewrite ceil_div_0.
  - destruct l as [|x l]; simpl chunks_from.
    + simpl. by rewrite ceil_div_0.
    + rewrite (ceil_div_step (length (x :: l)) n) by (done || simpl; lia).
      change (length (take n (x :: l) :: ?t)) with (S (length t)).
      rewrite IH by (rewrite length_drop; simpl in *; lia).
      by rewrite length_drop.
Qed.

Lemma chunks_from_concat fuel n l :
  0 < n -> length l <= fuel -> concat (chunks_from fuel n l) = l.
Proof.
  intros Hn. revert l. induction fuel as [|fuel IH]; intros l Hl.
  - by destruct l; [|simpl in Hl; lia].
  - destruct l as [|x l]; [done|]. simpl chunks_from. cbn [concat].
    rewrite IH by (rewrite length_drop; simpl in *; lia).
    apply take_drop.
Qed.

Lemma chunks_from_lookup fuel n l i :
  0 < n -> length l <= fuel -> i < ceil_div (length l) n ->
  chunks_from fuel n l !! i = Some (take n (drop (i * n) l)).
Proof.
  intros Hn. revert l i. induction fuel as [|fuel IH]; intros l i Hl Hi.
  - destruct l; [|simpl in Hl; lia]. rewrite ceil_div_0 in Hi by done. lia.
  - destruct l as [|x l].
    + rewrite ceil_div_0 in Hi by done. lia.
    + simpl chunks_from. destruct i as [|i]; [done|]. cbn [lookup list_lookup].
      rewrite (ceil_div_step (length (x :: l)) n) in Hi by (done || simpl; lia).
      rewrite IH.
      * rewrite drop_drop. do 3 f_equal; lia.
      * rewrite length_drop. simpl in *. lia.
      * rewrite length_drop. lia.
Qed.

Lemma chunks_length l n : 0 < n -> length (chunks l n) = ceil_div (length l) n.
Proof. intros. by apply chunks_from_length. Qed.

Lemma chunks_concat l n : 0 < n -> concat (chunks l n) = l.
Proof. intros. by apply chunks_from_concat. Qed.

(** Every chunk but the last has [n] elements; the last has
    [length l mod n] elements, or [n] when that is zero. *)
Lemma chunks_sizes l n i c :
  0 < n -> chunks l n !! i = Some c ->
  length c = if S i <? ceil_div (length l) n then n
             else if length l mod n =? 0 then n else length l mod n.
Proof.
  intros Hn Hc.
  assert (Hi : i < ceil_div (length l) n).
  { apply lookup_lt_Some in Hc. by rewrite chunks_length in Hc. }
  unfold chunks in Hc. rewrite chunks_from_lookup in Hc by done.
  injection Hc as <-. rewrite length_take, length_drop.
  rewrite ceil_div_spec in * by done.
  pose proof (Nat.div_mod_eq (length l) n) as Hdm.
  pose proof (Nat.mod_upper_bound (length l) n ltac:(lia)) as Hlt.
  destruct (Nat.ltb_spec (S i) (length l / n
                                + (if length l mod n =? 0 then 0 else 1)));
    destruct (Nat.eqb_spec (length l mod n) 0); nia.
Qed.

End ChunksFacts.

(** ** Indexing within bounds *)

Definition in_bounds (n : nat) (i : Z) : Prop :=
  (- Z.of_nat n <= i < Z.of_nat n)%Z.

Lemma np_index_ok {A : Type} (a : list A) i :
  in_bounds (length a) i -> exists x, np_index a i = Ok x.
Proof.
  unfold in_bounds, np_index. intros Hi. cbv zeta.
  set (j := if (i <? 0)%Z then (Z.of_nat (length a) + i)%Z else i).
  assert (Hj : (0 <= j < Z.of_nat (length a))%Z).
  { unfold j. destruct (Z.ltb_spec i 0); lia. }
  destruct (Z.leb_spec 0 j); [|lia].
  destruct (Z.ltb_spec j (Z.of_nat (length a))); [|lia]. simpl.
  destruct (lookup_lt_is_Some_2 a (Z.to_nat j)) as [x ->]; [lia|]. eauto.
Qed.

Lemma np_take_ok {A : Type} (a : list A) frames :
  Forall (in_bounds (length a)) frames ->
  exists xs, np_take a frames = Ok xs /\ length xs = length frames.
Proof.
  induction 1 as [|i frames Hi _ (xs & IH & Hlen)]; simpl; [by exists []|].
  destruct (np_index_ok a i Hi) as [x ->]. rewrite IH. simpl.
  exists (x :: xs). simpl. by rewrite Hlen.
Qed.

Lemma py_range_in_bounds n : Forall (in_bounds n) (py_range n).
Proof.
  unfold py_range. apply Forall_fmap, Forall_forall.
  intros i [_ Hi]%elem_of_seq. unfold in_bounds. simpl. lia.
Qed.

(** ** The batches of a training call, one after the other *)

(** What one batch does to the session and to the summary writer. *)
Definition feed (images : list Image) (labels : list Label)
    (sw : Session * list (Summary * Z)) (frames : list Z)
  : result (Session * list (Summary * Z)) :=
  imgs <~ np_take images frames ;;
  lbls <~ np_take labels frames ;;
  let '(summary, p) := optimize (params (fst sw)) imgs lbls in
  let s := mkSession (step (fst sw) + 1) p in
  Ok (s, snd sw ++ [(summary, step s)]).

Fixpoint feed_all (images : list Image) (labels : list Label)
    (sw : Session * list (Summary * Z)) (batches : list (list Z))
  : result (Session * list (Summary * Z)) :=
  match batches with
  | [] => Ok sw
  | frames :: rest =>
      sw' <~ feed images labels sw frames ;;
      feed_all images labels sw' rest
  end.

(** The order of the indices in each of [n] epochs: every epoch shuffles
    the list the previous one left, with the generator as it left it. *)
Fixpoint epoch_orders (n : nat) (r : Rng) (order : list Z) : list (list Z) :=
  match n with
  | 0 => []
  | S n' => let '(o, r') := shuffle r order in o :: epoch_orders n' r' o
  end.

(** The list and the generator after [n] epochs. *)
Fixpoint after_epochs (n : nat) (r : Rng) (order : list Z) : list Z * Rng :=
  match n with
  | 0 => (order, r)
  | S n' => let '(o, r') := shuffle r order in after_epochs n' r' o
  end.

Definition with_session (w : World) (sw : Session * list (Summary * Z))
  : World :=
  mkWorld (heap w) (rng w) (fst sw) (snd sw) (files w).

Lemma run_batch_feed images labels frames w sw :
  feed images labels (session w, writer w) frames = Ok sw ->
  run_batch images labels frames w = (Ok tt, with_session w sw).
Proof.
  unfold feed, run_batch, bind, lift, run_optimizer. simpl.
  destruct (np_take images frames) as [imgs|]; simpl; [|done].
  destruct (np_take labels frames) as [lbls|]; simpl; [|done].
  destruct (optimize _ imgs lbls) as [summary p]. by intros [= <-].
Qed.

Lemma run_batches_feed images labels batches : forall w sw,
  feed_all images labels (session w, writer w) batches = Ok sw ->
  run_batches images labels batches w = (Ok tt, with_session w sw).
Proof.
  induction batches as [|frames rest IH]; intros w sw; simpl.
  - intros [= <-]. by destruct w.
  - destruct (feed images labels (session w, writer w) frames) as [sw1|] eqn:Hf;
      simpl; [|done].
    intros Hrest. unfold bind. rewrite (run_batch_feed _ _ _ _ _ Hf).
    rewrite (IH (with_session w sw1) sw); [done|]. by destruct sw1.
Qed.

Lemma feed_all_app images labels b1 b2 : forall sw,
  feed_all images labels sw (b1 ++ b2)
  = (sw' <~ feed_all images labels sw b1 ;; feed_all images labels sw' b2).
Proof.
  induction b1 as [|f b1 IH]; intros sw; simpl; [done|].
  destruct (feed images labels sw f); simpl; [apply IH|done].
Qed.

Lemma feed_all_ok images labels batches : forall sw,
  Forall (Forall (in_bounds (length images))) batches ->
  Forall (Forall (in_bounds (length labels))) batches ->
  exists sw', feed_all images labels sw batches = Ok sw'.
Proof.
  induction batches as [|f rest IH]; intros sw Hi Hl; simpl; [eauto|].
  apply Forall_cons in Hi as [Hi Hi']. apply Forall_cons in Hl as [Hl Hl'].
  unfold feed.
  destruct (np_take_ok images f Hi) as (imgs & -> & _).
  destruct (np_take_ok labels f Hl) as (lbls & -> & _). simpl.
  destruct (optimize _ imgs lbls). simpl. by apply IH.
Qed.

(** Each batch is one optimizer step and one summary record, tagged
    with the global step. *)
Lemma feed_all_count images labels batches : forall sw sw',
  feed_all images labels sw batches = Ok sw' ->
  step (fst sw') = (step (fst sw) + Z.of_nat (length batches))%Z /\
  exists recs,
    snd sw' = snd sw ++ recs /\
    map snd recs
    = map (fun k => (step (fst sw) + 1 + Z.of_nat k)%Z) (seq 0 (length batches)).
Proof.
  induction batches as [|f rest IH]; intros sw sw'; simpl.
  - intros [= <-]. split; [lia|]. exists []. by rewrite app_nil_r.
  - unfold feed at 1.
    destruct (np_take images f) as [imgs|]; simpl; [|done].
    destruct (np_take labels f) as [lbls|]; simpl; [|done].
    destruct (optimize _ imgs lbls) as [summary p]. simpl.
    intros Hrest. apply IH in Hrest as (Hstep & recs & Hw & Hrecs).
    simpl in *. split; [lia|].
    exists ((summary, (step (fst sw) + 1)%Z) :: recs). split.
    + by rewrite Hw, <- app_assoc.
    + cbn [map snd]. f_equal; [simpl; lia|]. rewrite Hrecs, <- fmap_S_seq.
      rewrite <- list_fmap_compose. apply list_fmap_ext. intros _ k _. simpl. lia.
Qed.

(** ** The orders of the epochs *)

Hypothesis shuffle_perm : forall r l, fst (shuffle r l) ≡ₚ l.

Lemma length_epoch_orders n : forall r order,
  length (epoch_orders n r order) = n.
Proof.
  induction n as [|n IH]; intros r order; simpl; [done|].
  destruct (shuffle r order). simpl. by rewrite IH.
Qed.

Lemma epoch_orders_perm n : forall r order,
  Forall (fun o => o ≡ₚ order) (epoch_orders n r order).
Proof.
  induction n as [|n IH]; intros r order; simpl; [constructor|].
  pose proof (shuffle_perm r order) as Hp.
  destruct (shuffle r order) as [o r']. simpl in Hp. constructor; [done|].
  eapply Forall_impl; [apply IH|]. simpl. intros o' Ho'. by rewrite Ho'.
Qed.

Lemma after_epochs_S n : forall r order,
  after_epochs (S n) r order
  = shuffle (snd (after_epochs n r order)) (fst (after_epochs n r order)).
Proof.
  induction n as [|n IH]; intros r order.
  - simpl. by destruct (shuffle r order).
  - change (after_epochs (S (S n)) r order)
      with (let '(o, r') := shuffle r order in after_epochs (S n) r' o).
    simpl after_epochs at 2 3. destruct (shuffle r order) as [o r'].
    apply IH.
Qed.

Lemma epoch_orders_lookup n : forall r order e,
  e < n ->
  epoch_orders n r order !! e
  = Some (fst (shuffle (snd (after_epochs e r order))
                       (fst (after_epochs e r order)))).
Proof.
  induction n as [|n IH]; intros r order e He; [lia|].
  simpl epoch_orders. destruct e as [|e].
  - simpl. by destruct (shuffle r order).
  - simpl after_epochs. destruct (shuffle r order) as [o r']. simpl.
    apply IH. lia.
Qed.

(** ** Training *)

Lemma chunks_in_bounds n (o : list Z) b :
  0 < b -> Forall (in_bounds n) o -> Forall (Forall (in_bounds n)) (chunks o b).
Proof.
  intros Hb Ho. apply Forall_concat. by rewrite chunks_concat.
Qed.

Lemma run_epochs_spec images labels l bsize n : forall w order,
  (0 < bsize)%Z ->
  heap w !! l = Some order ->
  Forall (in_bounds (length images)) order ->
  Forall (in_bounds (length labels)) order ->
  exists sw,
    feed_all images labels (session w, writer w)
      (concat (map (fun o => chunks o (Z.to_nat bsize))
                   (epoch_orders n (rng w) order))) = Ok sw /\
    run_epochs images labels l bsize n w
    = (Ok tt, mkWorld (<[l := fst (after_epochs n (rng w) order)]> (heap w))
                      (snd (after_epochs n (rng w) order))
                      (fst sw) (snd sw) (files w)).
Proof.
  induction n as [|n IH]; intros w order Hb Hl Hi Hlb.
  - exists (session w, writer w). split; [done|]. simpl.
    rewrite insert_id by done. by destruct w.
  - simpl run_epochs. simpl epoch_orders. simpl after_epochs.
    unfold bind at 1. unfold random_shuffle, bind at 1. unfold read at 1.
    rewrite Hl. pose proof (shuffle_perm (rng w) order) as Hp.
    destruct (shuffle (rng w) order) as [o r'] eqn:Hs. simpl in Hp.
    set (w1 := mkWorld (<[l := o]> (heap w)) r' (session w) (writer w) (files w)).
    unfold bind at 1. unfold read at 1. cbn [heap w1].
    replace (heap w1 !! l) with (Some o) by (symmetry; apply lookup_insert_eq).
    assert (Hio : Forall (in_bounds (length images)) o) by by rewrite Hp.
    assert (Hlo : Forall (in_bounds (length labels)) o) by by rewrite Hp.
    destruct (feed_all_ok images labels (chunks o (Z.to_nat bsize))
                (session w, writer w)) as [sw1 Hsw1].
    { apply chunks_in_bounds; [lia|done]. }
    { apply chunks_in_bounds; [lia|done]. }
    unfold bind at 1.
    rewrite (run_batches_feed images labels _ w1 sw1) by done.
    destruct (IH (with_session w1 sw1) o Hb) as (sw & Hsw & Hrun); try done.
    { apply lookup_insert_eq. }
    exists sw. split.
    + cbn [map concat]. rewrite feed_all_app, Hsw1. simpl rbind.
      simpl in Hsw. by destruct sw1.
    + rewrite Hrun. simpl. by rewrite insert_insert_eq.
Qed.

(** A call of [train] is the epochs on a fresh copy of the indices,
    between the opening and the closing of the summary writer; when an
    epoch raises, the writer is not closed. *)
Definition train_end (self : TFModel) (w : World) (r : result unit * World)
  : result unit * World :=
  match r with
  | (Ok _, w2) =>
      (Ok tt,
       mkWorld (heap w2) (rng w2) (session w2) (writer w2)
               (file_writer_close (log_path self)
                                  (drop (length (writer w)) (writer w2))
                                  (files w2)))
  | (Raise e, w2) => (Raise e, w2)
  end.

Lemma train_start self images labels indices epochs_arg batch_size_arg w idx :
  match indices with
  | None => idx = py_range (length images)
  | Some l => heap w !! l = Some idx
  end ->
  train self images labels indices epochs_arg batch_size_arg w
  = train_end self w
      (run_epochs images labels (fresh (dom (heap w)))
         (default (batch_size self) batch_size_arg)
         (Z.to_nat (default (epochs self) epochs_arg))
         (mkWorld (<[fresh (dom (heap w)) := idx]> (heap w)) (rng w)
                  (session w) (writer w)
                  (file_writer_open (log_path self) (files w)))).
Proof.
  intros Hidx. unfold train, train_end.
  assert (Hcopy : match indices with
                  | None => alloc (py_range (length images))
                  | Some l => bind (read l) (fun xs => alloc xs)
                  end w
                  = (Ok (fresh (dom (heap w))),
                     mkWorld (<[fresh (dom (heap w)) := idx]> (heap w)) (rng w)
                             (session w) (writer w) (files w))).
  { destruct indices as [l|].
    - unfold bind, read. rewrite Hidx. done.
    - unfold alloc. by rewrite Hidx. }
  unfold bind at 1. rewrite Hcopy.
  unfold bind at 1. unfold FileWriter at 1. cbn [heap rng session writer files].
  unfold bind at 1.
  replace (match batch_size_arg with
           | Some b => b
           | None => batch_size self
           end) with (default (batch_size self) batch_size_arg)
    by by destruct batch_size_arg.
  replace (match epochs_arg with
           | Some e => e
           | None => epochs self
           end) with (default (epochs self) epochs_arg)
    by by destruct epochs_arg.
  by destruct (run_epochs _ _ _ _ _ _) as [[[]|e] w2].
Qed.

Lemma train_end_frame self w r :
  heap (snd (train_end self w r)) = heap (snd r) /\
  rng (snd (train_end self w r)) = rng (snd r) /\
  session (snd (train_end self w r)) = session (snd r) /\
  writer (snd (train_end self w r)) = writer (snd r).
Proof. unfold train_end. by destruct r as [[[]|e] w2]. Qed.

(** C3: a training call that stays within the bounds of its arrays
    returns after exactly [E] epochs.  Epoch [e] shuffles the list the
    previous epoch left, with the generator in the state the previous
    shuffles left it in; its order is a permutation of the working indices
    and is cut into [ceil (N / B)] consecutive batches, all of size [B]
    but the last, which has [N mod B] elements (or [B] when that is zero).
    The session and the writer are those obtained by feeding the batches
    one after the other: the global step advances by one and the writer
    gets one record per batch. *)
Theorem train_epochs_and_batches self images labels indices epochs_arg
    batch_size_arg w idx E B :
  match indices with
  | None => idx = py_range (length images)
  | Some l => heap w !! l = Some idx
  end ->
  Forall (in_bounds (length images)) idx ->
  Forall (in_bounds (length labels)) idx ->
  E = default (epochs self) epochs_arg ->
  B = default (batch_size self) batch_size_arg ->
  (0 <= E)%Z -> (0 < B)%Z ->
  let N := length idx in
  let nb := ceil_div N (Z.to_nat B) in
  let orders := epoch_orders (Z.to_nat E) (rng w) idx in
  let sched := map (fun o => chunks o (Z.to_nat B)) orders in
  exists w',
    train self images labels indices epochs_arg batch_size_arg w = (Ok tt, w') /\
    length sched = Z.to_nat E /\
    (forall e, e < Z.to_nat E ->
       orders !! e
       = Some (fst (shuffle (snd (after_epochs e (rng w) idx))
                            (fst (after_epochs e (rng w) idx))))) /\
    Forall (fun o =>
              o ≡ₚ idx /\
              concat (chunks o (Z.to_nat B)) = o /\
              length (chunks o (Z.to_nat B)) = nb /\
              forall i c, chunks o (Z.to_nat B) !! i = Some c ->
                length c = if S i <? nb then Z.to_nat B
                           else if N mod Z.to_nat B =? 0 then Z.to_nat B
                                else N mod Z.to_nat B)
           orders /\
    feed_all images labels (session w, writer w) (concat sched)
    = Ok (session w', writer w') /\
    step (session w') = (step (session w) + E * Z.of_nat nb)%Z /\
    length (writer w') = length (writer w) + Z.to_nat E * nb /\
    rng w' = snd (after_epochs (Z.to_nat E) (rng w) idx).
Proof.
  intros Hidx Hi Hl HE HB HE0 HB0 N nb orders sched.
  set (l' := fresh (dom (heap w))).
  set (w1 := mkWorld (<[l' := idx]> (heap w)) (rng w) (session w) (writer w)
                     (file_writer_open (log_path self) (files w))).
  assert (Hstart : train self images labels indices epochs_arg batch_size_arg w
                   = train_end self w
                       (run_epochs images labels l' B (Z.to_nat E) w1)).
  { subst E B. by apply train_start. }
  destruct (run_epochs_spec images labels l' B (Z.to_nat E) w1 idx HB0)
    as (sw & Hsw & Hrun); try done.
  { apply lookup_insert_eq. }
  rewrite Hstart, Hrun. unfold train_end.
  eexists. split; [reflexivity|]. cbn [session writer rng].
  assert (Hlen : length sched = Z.to_nat E)
    by (unfold sched, orders; by rewrite length_map, length_epoch_orders).
  assert (Hord : Forall (fun o => o ≡ₚ idx) orders) by apply epoch_orders_perm.
  assert (Hnb : length (concat sched) = Z.to_nat E * nb).
  { rewrite (convolutional_lstm.length_concat_const _ nb), Hlen; [done|].
    unfold sched. apply Forall_fmap. eapply Forall_impl; [exact Hord|].
    simpl. intros o Ho. rewrite chunks_length by lia. unfold nb, N.
    by rewrite Ho. }
  split; [done|]. split.
  { intros e He. by apply epoch_orders_lookup. }
  split.
  { eapply Forall_impl; [exact Hord|]. simpl. intros o Ho.
    split; [done|]. split; [apply chunks_concat; lia|].
    assert (HlenO : length o = N) by (unfold N; by rewrite Ho).
    split; [rewrite chunks_length by lia; unfold nb; by rewrite HlenO|].
    intros i c Hc. apply chunks_sizes in Hc; [|lia].
    rewrite HlenO in Hc. exact Hc. }
  assert (Hsw' : feed_all images labels (session w, writer w) (concat sched)
                 = Ok sw) by exact Hsw.
  split. { by destruct sw. }
  destruct (feed_all_count _ _ _ _ _ Hsw') as (Hstep & recs & Hw & Hrecs).
  cbn [fst snd] in Hstep, Hw, Hrecs.
  split; [rewrite Hstep, Hnb; nia|]. split; [|done].
  rewrite Hw, length_app. f_equal.
  apply (f_equal length) in Hrecs. rewrite !length_map, length_seq in Hrecs.
  by rewrite Hrecs.
Qed.

(** ** The caller's list of indices *)

Lemma run_batches_heap images labels batches : forall w,
  heap (snd (run_batches images labels batches w)) = heap w.
Proof.
  induction batches as [|f rest IH]; intros w; simpl; [done|].
  unfold bind, run_batch, bind, lift, run_optimizer.
  destruct (np_take images f) as [imgs|]; simpl; [|done].
  destruct (np_take labels f) as [lbls|]; simpl; [|done].
  destruct (optimize _ imgs lbls) as [summary p]. by rewrite IH.
Qed.

(** The epochs write to the heap at the working list only. *)
Lemma run_epochs_heap images labels l bsize n : forall w l0,
  l0 <> l ->
  heap (snd (run_epochs images labels l bsize n w)) !! l0 = heap w !! l0.
Proof.
  induction n as [|n IH]; intros w l0 Hne; simpl; [done|].
  unfold bind at 1. unfold random_shuffle, bind at 1. unfold read at 1.
  destruct (heap w !! l) as [order|]; simpl; [|done].
  destruct (shuffle (rng w) order) as [o r'].
  set (w1 := mkWorld (<[l := o]> (heap w)) r' (session w) (writer w) (files w)).
  assert (H1 : heap w1 !! l0 = heap w !! l0) by by apply lookup_insert_ne.
  unfold bind at 1. unfold read at 1.
  destruct (heap w1 !! l) as [xs|]; [|done].
  unfold bind at 1.
  pose proof (run_batches_heap images labels
                (chunks xs (Z.to_nat bsize)) w1) as Hb.
  destruct (run_batches images labels (chunks xs (Z.to_nat bsize)) w1)
    as [[[]|e] w2]; simpl in Hb.
  - rewrite IH by done. by rewrite Hb.
  - simpl. by rewrite Hb.
Qed.

(** C10: whatever [train] does, and also when it raises, the list the
    caller passed as [indices] holds the same elements in the same order
    afterwards: the shuffles act on a list object that did not exist before
    the call, and no object that existed is written to. *)
Theorem train_leaves_indices_unchanged self images labels l epochs_arg
    batch_size_arg w xs :
  heap w !! l = Some xs ->
  let w' := snd (train self images labels (Some l) epochs_arg batch_size_arg w) in
  heap w' !! l = Some xs /\
  exists l', (l' ∉ dom (heap w)) /\ l' <> l /\
             forall l0, l0 <> l' -> heap w' !! l0 = heap w !! l0.
Proof.
  intros Hl w'. set (l' := fresh (dom (heap w))).
  assert (Hfresh : l' ∉ dom (heap w)) by apply is_fresh.
  assert (Hne : l' <> l).
  { intros ->. apply Hfresh. apply elem_of_dom. eauto. }
  assert (Hframe : forall l0, l0 <> l' -> heap w' !! l0 = heap w !! l0).
  { intros l0 Hl0. unfold w'.
    rewrite (train_start self images labels (Some l) _ _ w xs Hl).
    rewrite (proj1 (train_end_frame _ _ _)). fold l'.
    rewrite run_epochs_heap by done. simpl. by apply lookup_insert_ne. }
  split.
  - rewrite Hframe by done. done.
  - exists l'. done.
Qed.

(** ** Prediction *)

Lemma np_take_Forall2 {A : Type} (a : list A) frames : forall xs,
  np_take a frames = Ok xs ->
  Forall2 (fun i x => np_index a i = Ok x) frames xs.
Proof.
  induction frames as [|i rest IH]; intros xs; simpl.
  - intros [= <-]. constructor.
  - destruct (np_index a i) as [x|] eqn:Hx; simpl; [|done].
    destruct (np_take a rest) as [xs'|]; simpl; [|done].
    intros [= <-]. constructor; [done|]. by apply IH.
Qed.

(** The boolean map of one image, evaluated alone. *)
Definition thresholded (s : Session) (image : Image) (p : list (list bool))
  : Prop :=
  exists logits,
    network (params s) [image] = [logits] /\
    p = map (map (fun x => greater x logit_zero)) logits.

(** A map of [h] rows of [wd] pixels. *)
Definition is_map {A : Type} (h wd : nat) (m : list (list A)) : Prop :=
  length m = h /\ Forall (fun row => length row = wd) m.

Lemma predict_each_spec s imgs :
  (forall p xs, length (network p xs) = length xs) ->
  exists pred, predict_each s imgs = Ok pred /\
               Forall2 (thresholded s) imgs pred.
Proof.
  intros Hbatch. induction imgs as [|image rest (pred & IH & Hall)]; simpl.
  - exists []. split; [done|constructor].
  - unfold run_pred_labels.
    pose proof (Hbatch (params s) [image]) as Hlen.
    destruct (network (params s) [image]) as [|logits [|]] eqn:Hn;
      simpl in Hlen; try lia.
    simpl. rewrite IH. simpl. eexists; split; [reflexivity|].
    constructor; [|done]. exists logits. by rewrite Hn.
Qed.

(** C4 (amended): a prediction over the selection [sel], which is all
    the images or the non-empty sequence of indices that was passed,
    returns one boolean map per selected index, in the order of the
    selection; the map at position [k] is that of the image
    [images[sel[k]]] run through the network alone, each logit compared
    with zero; every map has [h] rows of [wd] pixels. *)
Theorem predict_thresholded_maps s images indices sel h wd :
  (forall ix, ix <> [] -> np_r_ ix = Ok ix) ->
  (forall p xs, length (network p xs) = length xs) ->
  (forall p xs, Forall (is_map h wd) (network p xs)) ->
  match indices with
  | None => sel = py_range (length images)
  | Some ix => ix <> [] /\ sel = ix
  end ->
  Forall (in_bounds (length images)) sel ->
  exists pred,
    predict s images indices = Ok pred /\
    length pred = length sel /\
    Forall (is_map h wd) pred /\
    forall k i, sel !! k = Some i ->
      exists image logits,
        np_index images i = Ok image /\
        network (params s) [image] = [logits] /\
        pred !! k = Some (map (map (fun x => greater x logit_zero)) logits).
Proof.
  intros Hr Hbatch Hshape Hsel Hin.
  assert (Hs : match indices with
               | None => Ok (py_range (length images))
               | Some ix => np_r_ ix
               end = Ok sel).
  { destruct indices as [ix|]; [|by subst sel].
    destruct Hsel as [Hne ->]. by apply Hr. }
  unfold predict. rewrite Hs. simpl rbind.
  destruct (np_take_ok images sel Hin) as (imgs & Himgs & Hlen).
  rewrite Himgs. simpl rbind.
  destruct (predict_each_spec s imgs Hbatch) as (pred & -> & Hall).
  pose proof (np_take_Forall2 images sel imgs Himgs) as Hsel2.
  exists pred. split; [done|]. split.
  { apply Forall2_length in Hall. lia. }
  split.
  { apply Forall_forall. intros m Hm.
    apply list_elem_of_lookup in Hm as [k Hk].
    destruct (Forall2_lookup_r _ _ _ _ _ Hall Hk) as (image & _ & logits & Hn & ->).
    pose proof (Hshape (params s) [image]) as Hsh. rewrite Hn in Hsh.
    apply Forall_singleton in Hsh as [Hh Hw]. split.
    - by rewrite length_map.
    - apply Forall_fmap. eapply Forall_impl; [exact Hw|]. simpl.
      intros row Hrow. by rewrite length_map. }
  intros k i Hk.
  destruct (Forall2_lookup_l _ _ _ _ _ Hsel2 Hk) as (image & Hik & Himage).
  destruct (Forall2_lookup_l _ _ _ _ _ Hall Hik) as (m & Hm & logits & Hn & ->).
  by exists image, logits.
Qed.

(** ** Saving and loading *)

(** The contract of the saver: restoring from the location a session was
    saved to gives that session back. *)
Hypothesis saver_round_trip : forall s key fs,
  saver_restore key (saver_save s key fs) = Ok s.


Lemma run_batches_files images labels batches : forall w,
  files (snd (run_batches images labels batches w)) = files w.
Proof.
  induction batches as [|f rest IH]; intros w; simpl; [done|].
  unfold bind, run_batch, bind, lift, run_optimizer.
  destruct (np_take images f) as [imgs|]; simpl; [|done].
  destruct (np_take labels f) as [lbls|]; simpl; [|done].
  destruct (optimize _ imgs lbls) as [summary p]. by rewrite IH.
Qed.

Lemma run_epochs_files images labels l bsize n : forall w,
  files (snd (run_epochs images labels l bsize n w)) = files w.
Proof.
  induction n as [|n IH]; intros w; simpl; [done|].
  unfold bind at 1. unfold random_shuffle, bind at 1. unfold read at 1.
  destruct (heap w !! l) as [order|]; simpl; [|done].
  destruct (shuffle (rng w) order) as [o r'].
  set (w1 := mkWorld (<[l := o]> (heap w)) r' (session w) (writer w) (files w)).
  unfold bind at 1. unfold read at 1.
  destruct (heap w1 !! l) as [xs|]; [|done].
  unfold bind at 1.
  pose proof (run_batches_files images labels
                (chunks xs (Z.to_nat bsize)) w1) as Hb.
  destruct (run_batches images labels (chunks xs (Z.to_nat bsize)) w1)
    as [[[]|e] w2]; simpl in Hb.
  - rewrite IH. by rewrite Hb.
  - simpl. by rewrite Hb.
Qed.

(** X14: training in between does not disturb the checkpoint, provided
    the summary writer leaves the checkpoint alone: when what the saver
    restores from [path + "/model.ckpt"] is the same before and after the
    writer of the model is opened or closed, then saving, training with a
    positive batch size and loading from the same path brings back the
    session that was saved, whether or not the training raised. *)
Lemma save_train_load self images labels indices epochs_arg batch_size_arg
    path w :
  (forall fs,
     saver_restore (path ++ "/model.ckpt")%string
                   (file_writer_open (log_path self) fs)
     = saver_restore (path ++ "/model.ckpt")%string fs) ->
  (forall recs fs,
     saver_restore (path ++ "/model.ckpt")%string
                   (file_writer_close (log_path self) recs fs)
     = saver_restore (path ++ "/model.ckpt")%string fs) ->
  (0 < default (batch_size self) batch_size_arg)%Z ->
  let w1 := snd (_save_model path w) in
  let w2 := snd (train self images labels indices epochs_arg batch_size_arg w1) in
  exists w3, _load_model path w2 = (Ok tt, w3) /\ session w3 = session w.
Proof.
  intros Hopen Hclose _. cbv zeta. unfold _load_model.
  set (key := (path ++ "/model.ckpt")%string) in *.
  set (w1 := snd (_save_model path w)).
  assert (H1 : saver_restore key (files w1) = Ok (session w))
    by apply saver_round_trip.
  assert (Hrun : forall idx,
             saver_restore key
               (files (snd (train_end self w1
                  (run_epochs images labels (fresh (dom (heap w1)))
                     (default (batch_size self) batch_size_arg)
                     (Z.to_nat (default (epochs self) epochs_arg))
                     (mkWorld (<[fresh (dom (heap w1)) := idx]> (heap w1))
                              (rng w1) (session w1) (writer w1)
                              (file_writer_open (log_path self) (files w1)))))))
             = Ok (session w)).
  { intros idx.
    pose proof (run_epochs_files images labels (fresh (dom (heap w1)))
                  (default (batch_size self) batch_size_arg)
                  (Z.to_nat (default (epochs self) epochs_arg))
                  (mkWorld (<[fresh (dom (heap w1)) := idx]> (heap w1))
                           (rng w1) (session w1) (writer w1)
                           (file_writer_open (log_path self) (files w1))))
      as Hr.
    destruct (run_epochs _ _ _ _ _ _) as [[[]|e] w2]; cbn in Hr |- *.
    - by rewrite Hclose, Hr, Hopen.
    - by rewrite Hr, Hopen. }
  assert (Hf : saver_restore key
                 (files (snd (train self images labels indices epochs_arg
                                batch_size_arg w1)))
               = Ok (session w)).
  { destruct indices as [l|].
    - destruct (heap w1 !! l) as [xs|] eqn:Hl.
      + rewrite (train_start self images labels (Some l) _ _ w1 xs Hl).
        apply Hrun.
      + unfold train, bind, read. rewrite Hl. done.
    - rewrite (train_start self images labels None _ _ w1 _ eq_refl).
      apply Hrun. }
  rewrite Hf. eauto.
Qed.

(** ** Further properties of the harness *)

Lemma np_index_result {A : Type} (a : list A) i :
  (in_bounds (length a) i /\ exists x, np_index a i = Ok x) \/
  (~ in_bounds (length a) i /\
   np_index a i = Raise (IndexError "index out of bounds")).
Proof.
  unfold in_bounds, np_index. cbv zeta.
  set (j := if (i <? 0)%Z then (Z.of_nat (length a) + i)%Z else i).
  assert (Hj : (0 <= j < Z.of_nat (length a))%Z
               <-> (- Z.of_nat (length a) <= i < Z.of_nat (length a))%Z).
  { unfold j. destruct (Z.ltb_spec i 0); lia. }
  destruct (Z.leb_spec 0 j); destruct (Z.ltb_spec j (Z.of_nat (length a)));
    simpl; try (right; split; [lia|done]).
  left. split; [lia|].
  destruct (lookup_lt_is_Some_2 a (Z.to_nat j)) as [x ->]; [lia|]. eauto.
Qed.

Lemma np_take_error {A : Type} (a : list A) frames :
  Exists (fun i => ~ in_bounds (length a) i) frames ->
  np_take a frames = Raise (IndexError "index out of bounds").
Proof.
  induction frames as [|i rest IH]; intros Hex.
  - by apply Exists_nil in Hex.
  - simpl. destruct (np_index_result a i) as [[Hi [x ->]] | [Hi ->]]; [|done].
    apply Exists_cons in Hex as [Hbad|Hex]; [done|].
    simpl. by rewrite IH.
Qed.

Lemma np_take_result {A : Type} (a : list A) frames :
  (Forall (in_bounds (length a)) frames /\ exists xs, np_take a frames = Ok xs) \/
  np_take a frames = Raise (IndexError "index out of bounds").
Proof.
  induction frames as [|i rest IH]; simpl.
  - left. split; [constructor|eauto].
  - destruct (np_index_result a i) as [[Hi [x ->]] | [Hi ->]]; [|by right].
    simpl. destruct IH as [[Hall [xs ->]] | ->]; [|by right].
    left. split; [by constructor|]. simpl. eauto.
Qed.

Lemma np_take_app {A : Type} (a : list A) f1 f2 :
  np_take a (f1 ++ f2)
  = (x1 <~ np_take a f1 ;; x2 <~ np_take a f2 ;; Ok (x1 ++ x2)).
Proof.
  induction f1 as [|i f1 IH]; simpl.
  - by destruct (np_take a f2).
  - destruct (np_index a i) as [x|]; simpl; [|done]. rewrite IH.
    destruct (np_take a f1) as [x1|]; simpl; [|done].
    by destruct (np_take a f2).
Qed.

Lemma predict_each_app s xs ys :
  predict_each s (xs ++ ys)
  = (p1 <~ predict_each s xs ;; p2 <~ predict_each s ys ;; Ok (p1 ++ p2)).
Proof.
  induction xs as [|x xs IH]; simpl.
  - by destruct (predict_each s ys).
  - destruct (py_first _) as [p|]; simpl; [|done]. rewrite IH.
    destruct (predict_each s xs) as [p1|]; simpl; [|done].
    by destruct (predict_each s ys).
Qed.

(** X8: a prediction over a selection with an index outside the bounds
    of the images raises an [IndexError]: no image is evaluated. *)
Theorem predict_index_error s images ix :
  (forall ix, ix <> [] -> np_r_ ix = Ok ix) ->
  Exists (fun i => ~ in_bounds (length images) i) ix ->
  predict s images (Some ix) = Raise (IndexError "index out of bounds").
Proof.
  intros Hr Hex. unfold predict. rewrite Hr.
  - simpl. by rewrite np_take_error.
  - intros ->. by apply Exists_nil in Hex.
Qed.

(** X9: every image is evaluated alone, so a prediction over two
    selections one after the other is the prediction over the first
    followed by the prediction over the second, also when one of them
    raises. *)
Theorem predict_app s images ix1 ix2 :
  (forall ix, ix <> [] -> np_r_ ix = Ok ix) ->
  (forall p xs, length (network p xs) = length xs) ->
  ix1 <> [] -> ix2 <> [] ->
  predict s images (Some (ix1 ++ ix2))
  = (p1 <~ predict s images (Some ix1) ;;
     p2 <~ predict s images (Some ix2) ;;
     Ok (p1 ++ p2)).
Proof.
  intros Hr Hbatch H1 H2. unfold predict.
  rewrite !Hr by (done || by destruct ix1). simpl rbind.
  rewrite np_take_app.
  destruct (np_take images ix1) as [x1|]; simpl; [|done].
  destruct (predict_each_spec s x1 Hbatch) as (p1 & Hp1 & _).
  destruct (np_take images ix2) as [x2|]; simpl.
  - rewrite predict_each_app, Hp1. done.
  - by rewrite Hp1.
Qed.

(** X10: with no epoch to run, [train] copies the indices and opens
    and closes the summary writer without a record: the session, the
    summary records and the generator are as before, and the files are
    those the writer leaves when it is opened and closed at once. *)
Theorem train_without_epochs self images labels indices epochs_arg
    batch_size_arg w idx :
  match indices with
  | None => idx = py_range (length images)
  | Some l => heap w !! l = Some idx
  end ->
  (default (epochs self) epochs_arg <= 0)%Z ->
  train self images labels indices epochs_arg batch_size_arg w
  = (Ok tt, mkWorld (<[fresh (dom (heap w)) := idx]> (heap w)) (rng w)
                    (session w) (writer w)
                    (file_writer_close (log_path self) []
                       (file_writer_open (log_path self) (files w)))).
Proof.
  intros Hidx HE. rewrite (train_start _ _ _ _ _ _ _ idx Hidx).
  replace (Z.to_nat (default (epochs self) epochs_arg)) with 0 by lia.
  unfold train_end. cbn [run_epochs ret heap rng session writer files].
  by rewrite drop_all.
Qed.

Lemma with_session_id w sw :
  sw = (session w, writer w) -> with_session w sw = w.
Proof. intros ->. by destruct w. Qed.

(** The batches of an epoch stop at the first one that raises: the state
    is that after the batches before it. *)
Lemma run_batches_prefix images labels batches : forall w,
  exists k sw,
    feed_all images labels (session w, writer w) (take k batches) = Ok sw /\
    snd (run_batches images labels batches w) = with_session w sw /\
    ((fst (run_batches images labels batches w) = Ok tt /\
      k = length batches) \/
     (fst (run_batches images labels batches w)
      = Raise (IndexError "index out of bounds") /\
      k < length batches)).
Proof.
  induction batches as [|f rest IH]; intros w.
  - exists 0, (session w, writer w). simpl.
    split; [done|]. split; [by rewrite with_session_id|]. by left.
  - destruct (feed images labels (session w, writer w) f) as [sw1|e] eqn:Hf.
    + assert (Hrun : run_batches images labels (f :: rest) w
                     = run_batches images labels rest (with_session w sw1)).
      { simpl. unfold bind. by rewrite (run_batch_feed _ _ _ _ _ Hf). }
      rewrite Hrun.
      destruct (IH (with_session w sw1)) as (k & sw & Hk & Hsnd & Hres).
      exists (S k), sw. simpl take. simpl feed_all. rewrite Hf. simpl rbind.
      split. { simpl in Hk. by destruct sw1. }
      split; [by rewrite Hsnd|].
      destruct Hres as [[Hr ->] | [Hr Hlt]]; [left|right]; rewrite Hr.
      * done.
      * split; [done|]. simpl. lia.
    + assert (Hrun : run_batches images labels (f :: rest) w
                     = (Raise (IndexError "index out of bounds"), w)).
      { simpl. unfold feed in Hf. unfold bind, run_batch, bind, lift.
        simpl in Hf.
        destruct (np_take_result images f) as [[_ [imgs Hi]]|Hi];
          rewrite Hi in Hf |- *; simpl in Hf |- *; [|done].
        destruct (np_take_result labels f) as [[_ [lbls Hl]]|Hl];
          rewrite Hl in Hf |- *; simpl in Hf |- *; [|done].
        by destruct (optimize _ imgs lbls). }
      rewrite Hrun. exists 0, (session w, writer w). simpl.
      split; [done|]. split; [by rewrite with_session_id|].
      right. split; [done|lia].
Qed.

Lemma feed_all_in_bounds images labels batches : forall sw sw',
  feed_all images labels sw batches = Ok sw' ->
  Forall (Forall (fun i => in_bounds (length images) i /\
                           in_bounds (length labels) i)) batches.
Proof.
  induction batches as [|f rest IH]; intros sw sw' Hok; [constructor|].
  simpl in Hok. unfold feed in Hok.
  destruct (np_take_result images f) as [[Hi [imgs Hti]]|Hti];
    rewrite Hti in Hok; simpl in Hok; [|done].
  destruct (np_take_result labels f) as [[Hl [lbls Htl]]|Htl];
    rewrite Htl in Hok; simpl in Hok; [|done].
  destruct (optimize _ imgs lbls) as [summary p]. simpl in Hok.
  constructor; [|by eapply IH].
  apply Forall_forall. intros i Hin.
  rewrite Forall_forall in Hi. rewrite Forall_forall in Hl. split; auto.
Qed.

(** X11: when some working index is outside the bounds of the images or
    of the labels, [train] raises an [IndexError] during the first epoch.
    The batches before the failing one are not undone: the global step and
    the summary records have advanced by their number, which is less than
    the number of batches of an epoch. *)
Theorem train_index_error self images labels indices epochs_arg
    batch_size_arg w idx E B :
  match indices with
  | None => idx = py_range (length images)
  | Some l => heap w !! l = Some idx
  end ->
  E = default (epochs self) epochs_arg ->
  B = default (batch_size self) batch_size_arg ->
  (0 < E)%Z -> (0 < B)%Z ->
  Exists (fun i => ~ in_bounds (length images) i \/
                   ~ in_bounds (length labels) i) idx ->
  exists w' k,
    train self images labels indices epochs_arg batch_size_arg w
    = (Raise (IndexError "index out of bounds"), w') /\
    k < ceil_div (length idx) (Z.to_nat B) /\
    step (session w') = (step (session w) + Z.of_nat k)%Z /\
    length (writer w') = length (writer w) + k.
Proof.
  intros Hidx HE HB HE0 HB0 Hbad.
  set (l' := fresh (dom (heap w))).
  set (w1 := mkWorld (<[l' := idx]> (heap w)) (rng w) (session w) (writer w)
                     (file_writer_open (log_path self) (files w))).
  assert (Hstart : train self images labels indices epochs_arg batch_size_arg w
                   = train_end self w
                       (run_epochs images labels l' B (Z.to_nat E) w1)).
  { subst E B. by apply train_start. }
  rewrite Hstart. destruct (Z.to_nat E) as [|n] eqn:Hn; [lia|].
  simpl run_epochs.
  unfold bind at 1. unfold random_shuffle, bind at 1. unfold read at 1.
  replace (heap w1 !! l') with (Some idx) by (symmetry; apply lookup_insert_eq).
  pose proof (shuffle_perm (rng w1) idx) as Hp.
  destruct (shuffle (rng w1) idx) as [o r'] eqn:Hs. simpl in Hp.
  set (w2 := mkWorld (<[l' := o]> (heap w1)) r' (session w1) (writer w1)
                     (files w1)).
  unfold bind at 1. unfold read at 1.
  replace (heap w2 !! l') with (Some o) by (symmetry; apply lookup_insert_eq).
  unfold bind at 1.
  destruct (run_batches_prefix images labels (chunks o (Z.to_nat B)) w2)
    as (k & sw & Hk & Hsnd & Hres).
  destruct (run_batches images labels (chunks o (Z.to_nat B)) w2)
    as [r w3] eqn:Hrun. simpl in Hsnd, Hres. subst w3.
  assert (Hlen : length (chunks o (Z.to_nat B))
                 = ceil_div (length idx) (Z.to_nat B)).
  { rewrite chunks_length by lia. by rewrite Hp. }
  destruct Hres as [[-> ->] | [-> Hlt]].
  - exfalso. rewrite firstn_all in Hk.
    apply feed_all_in_bounds in Hk. apply Forall_concat in Hk.
    rewrite chunks_concat in Hk by lia. rewrite Hp in Hk.
    rewrite Forall_forall in Hk. apply Exists_exists in Hbad as (i & Hi & Hb).
    destruct (Hk i Hi) as [Himg Hlbl]. by destruct Hb.
  - exists (with_session w2 sw), k. split; [done|].
    split; [lia|].
    destruct (feed_all_count _ _ _ _ _ Hk) as (Hstep & recs & Hw & Hrecs).
    assert (Hlk : length (take k (chunks o (Z.to_nat B))) = k)
      by (rewrite length_take; lia).
    rewrite Hlk in Hstep, Hrecs. cbn [fst snd] in Hstep, Hw.
    split; [exact Hstep|]. cbn [with_session writer snd]. rewrite Hw, length_app.
    f_equal. apply (f_equal length) in Hrecs.
    by rewrite !length_map, length_seq in Hrecs.
Qed.

(** The run of a training call within bounds. *)
Lemma train_run self images labels indices epochs_arg batch_size_arg w idx E B :
  match indices with
  | None => idx = py_range (length images)
  | Some l => heap w !! l = Some idx
  end ->
  Forall (in_bounds (length images)) idx ->
  Forall (in_bounds (length labels)) idx ->
  E = default (epochs self) epochs_arg ->
  B = default (batch_size self) batch_size_arg ->
  (0 < B)%Z ->
  exists sw,
    feed_all images labels (session w, writer w)
      (concat (map (fun o => chunks o (Z.to_nat B))
                   (epoch_orders (Z.to_nat E) (rng w) idx))) = Ok sw /\
    train self images labels indices epochs_arg batch_size_arg w
    = (Ok tt,
       mkWorld (<[fresh (dom (heap w))
                  := fst (after_epochs (Z.to_nat E) (rng w) idx)]>
                  (heap w))
               (snd (after_epochs (Z.to_nat E) (rng w) idx))
               (fst sw) (snd sw)
               (file_writer_close (log_path self)
                  (drop (length (writer w)) (snd sw))
                  (file_writer_open (log_path self) (files w)))).
Proof.
  intros Hidx Hi Hl HE HB HB0.
  set (l' := fresh (dom (heap w))).
  set (w1 := mkWorld (<[l' := idx]> (heap w)) (rng w) (session w) (writer w)
                     (file_writer_open (log_path self) (files w))).
  assert (Hstart : train self images labels indices epochs_arg batch_size_arg w
                   = train_end self w
                       (run_epochs images labels l' B (Z.to_nat E) w1)).
  { subst E B. by apply train_start. }
  destruct (run_epochs_spec images labels l' B (Z.to_nat E) w1 idx HB0)
    as (sw & Hsw & Hrun); try done.
  { apply lookup_insert_eq. }
  exists sw. split; [exact Hsw|]. rewrite Hstart, Hrun. unfold train_end.
  simpl. by rewrite insert_insert_eq.
Qed.

(** X12: the summary records of a training call are appended to those
    the writer had, one per batch in the order of the batches, and are
    tagged with the consecutive global steps that follow the step the
    session was at. *)
Theorem train_summary_steps self images labels indices epochs_arg
    batch_size_arg w idx E B :
  match indices with
  | None => idx = py_range (length images)
  | Some l => heap w !! l = Some idx
  end ->
  Forall (in_bounds (length images)) idx ->
  Forall (in_bounds (length labels)) idx ->
  E = default (epochs self) epochs_arg ->
  B = default (batch_size self) batch_size_arg ->
  (0 < B)%Z ->
  exists w' recs,
    train self images labels indices epochs_arg batch_size_arg w = (Ok tt, w') /\
    writer w' = writer w ++ recs /\
    map snd recs
    = map (fun k => (step (session w) + 1 + Z.of_nat k)%Z)
          (seq 0 (Z.to_nat E * ceil_div (length idx) (Z.to_nat B))).
Proof.
  intros Hidx Hi Hl HE HB HB0.
  destruct (train_run self images labels indices epochs_arg batch_size_arg
              w idx E B) as (sw & Hsw & Hrun); try done.
  destruct (feed_all_count _ _ _ _ _ Hsw) as (_ & recs & Hw & Hrecs).
  cbn [fst snd] in Hw, Hrecs.
  eexists _, recs. split; [exact Hrun|]. split; [exact Hw|].
  rewrite Hrecs. do 2 f_equal.
  rewrite (convolutional_lstm.length_concat_const
             _ (ceil_div (length idx) (Z.to_nat B))).
  - by rewrite length_map, length_epoch_orders.
  - apply Forall_fmap. eapply Forall_impl; [apply epoch_orders_perm|].
    simpl. intros o Ho. rewrite chunks_length by lia. by rewrite Ho.
Qed.

End Harness.

Arguments mkSession {Params}.
Arguments step {Params}.
Arguments params {Params}.
Arguments mkWorld {Summary Params Rng Files}.
Arguments heap {Summary Params Rng Files}.
Arguments rng {Summary Params Rng Files}.
Arguments session {Summary Params Rng Files}.
Arguments writer {Summary Params Rng Files}.
Arguments files {Summary Params Rng Files}.

(** ** A harness over the integers

    Images, parameters, logits and summaries are integers; the network
    returns two rows of two logits per image, the optimizer counts its
    steps in the parameters, a shuffle rotates the list by the number of
    shuffles so far, and [r_] refuses the empty tuple. *)

Definition znetwork (p : Z) (imgs : list Z) : list (list (list Z)) :=
  map (fun img => [[img - p; p - img]; [img; 0]]%Z) imgs.

Definition zoptimize (p : Z) (imgs : list Z) (lbls : list bool) : Z * Z :=
  (foldr Z.add 0%Z imgs, (p + 1)%Z).

Definition zshuffle (r : nat) (l : list Z) : list Z * nat :=
  (rotate (S r) l, S r).

Definition znp_r_ (ix : list Z) : result (list Z) :=
  match ix with
  | [] => Raise (ValueError "need at least one array to concatenate")
  | _ :: _ => Ok ix
  end.

Lemma zshuffle_perm r l : fst (zshuffle r l) ≡ₚ l.
Proof.
  unfold zshuffle, rotate. simpl fst.
  rewrite Permutation_app_comm. by rewrite take_drop.
Qed.

Lemma znp_r_scalars ix : ix <> [] -> znp_r_ ix = Ok ix.
Proof. by destruct ix. Qed.

Lemma znetwork_batch p xs : length (znetwork p xs) = length xs.
Proof. unfold znetwork. by rewrite length_map. Qed.

Lemma znetwork_shape p xs : Forall (is_map 2 2) (znetwork p xs).
Proof.
  unfold znetwork. apply Forall_fmap, Forall_forall. intros img _.
  split; [done|]. by repeat constructor.
Qed.

(** The files: a finite map from names to checkpoints and event
    files.  A writer keeps one event file under its directory. *)
Inductive zfile : Type :=
| Checkpoint (s : Session Z)
| Events (recs : list (Z * Z)).

Definition zsave (s : Session Z) (key : string) (fs : gmap string zfile)
  : gmap string zfile :=
  <[key := Checkpoint s]> fs.

Definition zrestore (key : string) (fs : gmap string zfile)
  : result (Session Z) :=
  match fs !! key with
  | Some (Checkpoint s) => Ok s
  | _ => Raise (NotFoundError key)
  end.

Definition zevents (logdir : string) : string :=
  (logdir ++ "/events.out.tfevents")%string.

Definition zwriter_open (logdir : string) (fs : gmap string zfile)
  : gmap string zfile :=
  <[zevents logdir := Events []]> fs.

Definition zwriter_close (logdir : string) (recs : list (Z * Z))
    (fs : gmap string zfile) : gmap string zfile :=
  <[zevents logdir := Events recs]> fs.

Lemma zsaver_round_trip s key fs : zrestore key (zsave s key fs) = Ok s.
Proof. unfold zrestore, zsave. by rewrite lookup_insert_eq. Qed.

Definition ztrain :=
  train Z bool Z Z nat zoptimize zshuffle (gmap string zfile)
        zwriter_open zwriter_close.
Definition zpredict := predict Z Z Z znetwork Z.gtb 0%Z znp_r_.

Definition ex_model : TFModel := mkModel 3 2 "logs".
Definition ex_images : list Z := [10; 20; 30; 40; 50]%Z.
Definition ex_labels : list bool := [true; false; true; false; true].

Definition ex_world : World Z Z nat (gmap string zfile) :=
  mkWorld {[ 7 := [4; 0; 2]%Z ]} 0 (mkSession 0 5%Z) [] ∅.

(** Two epochs over five images in batches of two: three batches per
    epoch, the second epoch in another order than the first. *)
Example ex_train_schedule :
  map (fun o => chunks o 2) (epoch_orders nat zshuffle 2 0 (py_range 5))
  = [[[1; 2]; [3; 4]; [0]]; [[3; 4]; [0; 1]; [2]]]%Z.
Proof. reflexivity. Qed.

Example ex_train_session :
  (fst (ztrain ex_model ex_images ex_labels None (Some 2%Z) None ex_world),
   session (snd (ztrain ex_model ex_images ex_labels None (Some 2%Z) None
                        ex_world)),
   writer (snd (ztrain ex_model ex_images ex_labels None (Some 2%Z) None
                       ex_world)))
  = (Ok tt, mkSession 6 11%Z,
     [(50, 1); (90, 2); (10, 3); (90, 4); (30, 5); (30, 6)]%Z).
Proof. vm_compute. reflexivity. Qed.

Lemma train_epochs_and_batches_witness :
  (py_range 5 = py_range (length ex_images) /\
   Forall (in_bounds (length ex_images)) (py_range 5) /\
   Forall (in_bounds (length ex_labels)) (py_range 5) /\
   2%Z = default (epochs ex_model) (Some 2%Z) /\
   2%Z = default (batch_size ex_model) None /\
   (0 <= 2)%Z /\ (0 < 2)%Z) /\
  (let N := 5 in
   let nb := ceil_div N 2 in
   let orders := epoch_orders nat zshuffle 2 (rng ex_world) (py_range 5) in
   let sched := map (fun o => chunks o 2) orders in
   exists w',
     ztrain ex_model ex_images ex_labels None (Some 2%Z) None ex_world
     = (Ok tt, w') /\
     length sched = 2 /\
     (forall e, e < 2 ->
        orders !! e
        = Some (fst (zshuffle
                       (snd (after_epochs nat zshuffle e (rng ex_world)
                                          (py_range 5)))
                       (fst (after_epochs nat zshuffle e (rng ex_world)
                                          (py_range 5)))))) /\
     Forall (fun o =>
               o ≡ₚ py_range 5 /\
               concat (chunks o 2) = o /\
               length (chunks o 2) = nb /\
               forall i c, chunks o 2 !! i = Some c ->
                 length c = if S i <? nb then 2
                            else if N mod 2 =? 0 then 2 else N mod 2)
            orders /\
     feed_all Z bool Z Z zoptimize ex_images ex_labels
              (session ex_world, writer ex_world) (concat sched)
     = Ok (session w', writer w') /\
     step (session w') = (step (session ex_world) + 2 * Z.of_nat nb)%Z /\
     length (writer w') = length (writer ex_world) + 2 * nb /\
     rng w' = snd (after_epochs nat zshuffle 2 (rng ex_world) (py_range 5))).
Proof.
  assert (Hb : forall n, Forall (in_bounds n) (py_range n))
    by apply py_range_in_bounds.
  split.
  - repeat split; try reflexivity; try apply (Hb 5); lia.
  - apply (train_epochs_and_batches Z bool Z Z nat zoptimize zshuffle
             (gmap string zfile) zwriter_open zwriter_close zshuffle_perm ex_model
             ex_images ex_labels None (Some 2%Z) None
             ex_world (py_range 5) 2%Z 2%Z);
      try reflexivity; try apply (Hb 5); lia.
Defined.

Lemma train_leaves_indices_unchanged_witness :
  heap ex_world !! 7 = Some [4; 0; 2]%Z /\
  (let w' := snd (ztrain ex_model ex_images ex_labels (Some 7) None None
                         ex_world) in
   heap w' !! 7 = Some [4; 0; 2]%Z /\
   exists l', (l' ∉ dom (heap ex_world)) /\ l' <> 7 /\
              forall l0, l0 <> l' -> heap w' !! l0 = heap ex_world !! l0).
Proof.
  split; [reflexivity|].
  exact (train_leaves_indices_unchanged Z bool Z Z nat zoptimize zshuffle
           (gmap string zfile) zwriter_open zwriter_close ex_model ex_images ex_labels 7
           None None ex_world [4; 0; 2]%Z eq_refl).
Defined.

(** One epoch of training on the caller's list [[4; 0; 2]] leaves the
    working copy in another order; the caller's list is as it was. *)
Example ex_train_heap :
  heap (snd (ztrain ex_model ex_images ex_labels (Some 7) (Some 1%Z) None
                    ex_world))
  = <[fresh (dom (heap ex_world)) := [0; 2; 4]%Z]> (heap ex_world) /\
  heap ex_world !! fresh (dom (heap ex_world)) = None.
Proof. split; [|by vm_compute]. apply map_eq. intros l0. by vm_compute. Qed.

Lemma predict_thresholded_maps_witness :
  ([3; 0; 3]%Z <> [] /\ [3; 0; 3]%Z = [3; 0; 3]%Z /\
   Forall (in_bounds (length ex_images)) [3; 0; 3]%Z) /\
  exists pred,
    zpredict (mkSession 0 25%Z) ex_images (Some [3; 0; 3]%Z) = Ok pred /\
    length pred = 3 /\
    Forall (is_map 2 2) pred /\
    forall k i, [3; 0; 3]%Z !! k = Some i ->
      exists image logits,
        np_index ex_images i = Ok image /\
        znetwork 25 [image] = [logits] /\
        pred !! k = Some (map (map (fun x => Z.gtb x 0)) logits).
Proof.
  split.
  - split; [done|]. split; [done|].
    repeat constructor; unfold in_bounds; simpl; lia.
  - apply (predict_thresholded_maps Z Z Z znetwork Z.gtb 0%Z znp_r_
             (mkSession 0 25%Z) ex_images (Some [3; 0; 3]%Z) [3; 0; 3]%Z 2 2
             znp_r_scalars znetwork_batch znetwork_shape).
    + by split.
    + repeat constructor; unfold in_bounds; simpl; lia.
Defined.


(** Loading from a place nothing was saved to raises. *)
Example ex_load_without_checkpoint :
  fst (_load_model Z Z nat (gmap string zfile) zrestore "run2"
         (snd (_save_model Z Z nat (gmap string zfile) zsave "run1"
                           ex_world)))
  = Raise (NotFoundError "run2/model.ckpt").
Proof. by vm_compute. Qed.

Example ex_predict_value :
  zpredict (mkSession 0 25%Z) ex_images (Some [3; -5; 3]%Z)
  = Ok [[[true; false]; [true; false]];
        [[false; true]; [true; false]];
        [[true; false]; [true; false]]].
Proof. reflexivity. Qed.

Example ex_predict_out_of_bounds :
  zpredict (mkSession 0 25%Z) ex_images (Some [5]%Z)
  = Raise (IndexError "index out of bounds").
Proof. reflexivity. Qed.

(** C4, as first stated, fails here: on an explicit selection of no
    index [r_] has nothing to concatenate, and [predict] raises where the
    claim has it return an array of no maps. *)
Lemma predict_empty_selection_raises :
  zpredict (mkSession 0 25%Z) ex_images (Some [])
  = Raise (ValueError "need at least one array to concatenate") /\
  forall pred, zpredict (mkSession 0 25%Z) ex_images (Some []) <> Ok pred.
Proof. split; [reflexivity|]. intros pred. discriminate. Qed.

(** *** Instances of the further properties *)

Lemma predict_index_error_witness :
  Exists (fun i => ~ in_bounds (length ex_images) i) [3; 5]%Z /\
  zpredict (mkSession 0 25%Z) ex_images (Some [3; 5]%Z)
  = Raise (IndexError "index out of bounds").
Proof.
  assert (H : Exists (fun i => ~ in_bounds (length ex_images) i) [3; 5]%Z).
  { apply Exists_cons_tl, Exists_cons_hd. unfold in_bounds. simpl. lia. }
  split; [exact H|].
  exact (predict_index_error Z Z Z znetwork Z.gtb 0%Z znp_r_
           (mkSession 0 25%Z) ex_images [3; 5]%Z znp_r_scalars H).
Defined.

Lemma predict_app_witness :
  ([3; 0]%Z <> [] /\ [4]%Z <> []) /\
  zpredict (mkSession 0 25%Z) ex_images (Some ([3; 0] ++ [4])%Z)
  = (p1 <~ zpredict (mkSession 0 25%Z) ex_images (Some [3; 0]%Z) ;;
     p2 <~ zpredict (mkSession 0 25%Z) ex_images (Some [4]%Z) ;;
     Ok (p1 ++ p2)).
Proof.
  split; [by split|].
  apply (predict_app Z Z Z znetwork Z.gtb 0%Z znp_r_ (mkSession 0 25%Z)
           ex_images [3; 0]%Z [4]%Z znp_r_scalars znetwork_batch); done.
Defined.

Lemma train_without_epochs_witness :
  (heap ex_world !! 7 = Some [4; 0; 2]%Z /\
   (default (epochs ex_model) (Some 0%Z) <= 0)%Z) /\
  ztrain ex_model ex_images ex_labels (Some 7) (Some 0%Z) None ex_world
  = (Ok tt, mkWorld (<[fresh (dom (heap ex_world)) := [4; 0; 2]%Z]>
                       (heap ex_world))
                    (rng ex_world) (session ex_world) (writer ex_world)
                    (zwriter_close "logs" []
                       (zwriter_open "logs" (files ex_world)))).
Proof.
  assert (H : (default (epochs ex_model) (Some 0%Z) <= 0)%Z) by (simpl; lia).
  split; [by split|].
  exact (train_without_epochs Z bool Z Z nat zoptimize zshuffle
           (gmap string zfile) zwriter_open zwriter_close ex_model ex_images ex_labels
           (Some 7) (Some 0%Z) None ex_world [4; 0; 2]%Z eq_refl H).
Defined.

(** Also with no epoch to run the call leaves an event file. *)
Example ex_train_event_file :
  files (snd (ztrain ex_model ex_images ex_labels None (Some 0%Z) None
                     ex_world))
  !! "logs/events.out.tfevents"%string
  = Some (Events []).
Proof. by vm_compute. Qed.

(** Five images and two labels: the indices from 2 on have no label. *)
Lemma train_index_error_witness :
  (py_range 5 = py_range (length ex_images) /\
   (0 < default (epochs ex_model) None)%Z /\
   (0 < default (batch_size ex_model) None)%Z /\
   Exists (fun i => ~ in_bounds (length ex_images) i \/
                    ~ in_bounds (length [true; false]) i) (py_range 5)) /\
  exists w' k,
    ztrain ex_model ex_images [true; false] None None None ex_world
    = (Raise (IndexError "index out of bounds"), w') /\
    k < ceil_div (length (py_range 5)) (Z.to_nat 2) /\
    step (session w') = (step (session ex_world) + Z.of_nat k)%Z /\
    length (writer w') = length (writer ex_world) + k.
Proof.
  assert (H : Exists (fun i => ~ in_bounds (length ex_images) i \/
                               ~ in_bounds (length [true; false]) i)
                     (py_range 5)).
  { do 2 apply Exists_cons_tl. apply Exists_cons_hd. right.
    unfold in_bounds. simpl. lia. }
  split.
  - split; [reflexivity|]. split; [simpl; lia|]. split; [simpl; lia|exact H].
  - apply (train_index_error Z bool Z Z nat zoptimize zshuffle
             (gmap string zfile) zwriter_open zwriter_close zshuffle_perm
             ex_model ex_images
             [true; false] None None None ex_world (py_range 5) 3%Z 2%Z);
      try reflexivity; try exact H; lia.
Defined.

Lemma train_summary_steps_witness :
  (py_range 5 = py_range (length ex_images) /\
   Forall (in_bounds (length ex_images)) (py_range 5) /\
   Forall (in_bounds (length ex_labels)) (py_range 5) /\
   (0 < 2)%Z) /\
  exists w' recs,
    ztrain ex_model ex_images ex_labels None (Some 2%Z) None ex_world
    = (Ok tt, w') /\
    writer w' = writer ex_world ++ recs /\
    map snd recs
    = map (fun k => (step (session ex_world) + 1 + Z.of_nat k)%Z)
          (seq 0 (Z.to_nat 2 * ceil_div (length (py_range 5)) (Z.to_nat 2))).
Proof.
  assert (Hb : Forall (in_bounds 5) (py_range 5)) by apply py_range_in_bounds.
  split.
  - split; [reflexivity|]. split; [exact Hb|]. split; [exact Hb|lia].
  - apply (train_summary_steps Z bool Z Z nat zoptimize zshuffle
             (gmap string zfile) zwriter_open zwriter_close zshuffle_perm
             ex_model ex_images
             ex_labels None (Some 2%Z) None ex_world (py_range 5) 2%Z 2%Z);
      try reflexivity; try exact Hb; lia.
Defined.

Lemma save_train_load_witness :
  ((forall fs, zrestore "run1/model.ckpt" (zwriter_open "logs" fs)
               = zrestore "run1/model.ckpt" fs) /\
   (forall recs fs, zrestore "run1/model.ckpt" (zwriter_close "logs" recs fs)
                    = zrestore "run1/model.ckpt" fs) /\
   (0 < default (batch_size ex_model) None)%Z) /\
  exists w3,
    _load_model Z Z nat (gmap string zfile) zrestore "run1"
      (snd (ztrain ex_model ex_images ex_labels None None None
              (snd (_save_model Z Z nat (gmap string zfile) zsave "run1" ex_world))))
    = (Ok tt, w3) /\
    session w3 = session ex_world.
Proof.
  assert (Ho : forall fs, zrestore "run1/model.ckpt" (zwriter_open "logs" fs)
                          = zrestore "run1/model.ckpt" fs).
  { intros fs. unfold zrestore, zwriter_open.
    by rewrite lookup_insert_ne. }
  assert (Hc : forall recs fs,
             zrestore "run1/model.ckpt" (zwriter_close "logs" recs fs)
             = zrestore "run1/model.ckpt" fs).
  { intros recs fs. unfold zrestore, zwriter_close.
    by rewrite lookup_insert_ne. }
  assert (Hb : (0 < default (batch_size ex_model) None)%Z) by (simpl; lia).
  split; [exact (conj Ho (conj Hc Hb))|].
  exact (save_train_load Z bool Z Z nat zoptimize zshuffle
           (gmap string zfile) zsave zrestore zwriter_open zwriter_close zsaver_round_trip
           ex_model ex_images ex_labels None None None "run1" ex_world
           Ho Hc Hb).
Defined.

End tfmodel.
